(** * seeker13: keyword search over PDF and DOCX documents

    A shallow embedding of [seeker13.py] (WYSZUKIWARKA CC 1.1): the text
    normaliser, the folder-mode searches ([search_pdf_file],
    [search_pdf_with_ocr], [search_docx_file], [process_single_file],
    [OptimizedFolderSearchWorker.run]) and the single-file searches of
    [KeywordSearcher].

    Python strings are sequences of Unicode code points, so [str] is a list
    of code points.  What the program takes from libraries (the Unicode
    tables, PyMuPDF, python-docx, pdf2image, pytesseract, the file system)
    is an interface the definitions are parametrised by; a small concrete
    instance of each is given for the worked scenarios. *)

From Stdlib Require Import List NArith Bool Arith Lia Permutation Sorted.
From Stdlib Require Import Ascii String DecimalString.
Import ListNotations.
Local Open Scope list_scope.

Set Implicit Arguments.

(* ================================================================== *)
(** ** Python strings *)

Definition char := N.
Definition str := list char.

(** An ASCII literal as a Python string. *)
Definition py (lit : string) : str :=
  List.map N_of_ascii (list_ascii_of_string lit).

Definition char_eqb : char -> char -> bool := N.eqb.

Fixpoint str_eqb (a b : str) : bool :=
  match a, b with
  | [], [] => true
  | x :: a', y :: b' => char_eqb x y && str_eqb a' b'
  | _, _ => false
  end.

(** [s.startswith(p)] *)
Fixpoint startswith (s p : str) {struct p} : bool :=
  match p, s with
  | [], _ => true
  | x :: p', y :: s' => char_eqb x y && startswith s' p'
  | _ :: _, [] => false
  end.

(** [s.endswith(suffix)] *)
Definition endswith (s suffix : str) : bool :=
  startswith (rev s) (rev suffix).

(** [s.endswith((suf1, suf2, ...))] *)
Definition endswith_any (s : str) (suffixes : list str) : bool :=
  existsb (endswith s) suffixes.

(** [needle in hay] *)
Fixpoint contains (needle hay : str) : bool :=
  startswith hay needle ||
  match hay with
  | [] => false
  | _ :: hay' => contains needle hay'
  end.

(** The mathematical reading of [in]: a contiguous run of [hay]. *)
Definition is_substring (needle hay : str) : Prop :=
  exists before after, hay = before ++ needle ++ after.

Definition is_suffix (suffix s : str) : Prop :=
  exists before, s = before ++ suffix.

(** Python values that may be [None] where a string is expected. *)
Inductive pytext :=
| PyNone
| PyStr (s : str).

Coercion PyStr : str >-> pytext.

(** Truthiness of [None] and of a string: [not text] is [negb (truthy text)]. *)
Definition truthy (text : pytext) : bool :=
  match text with
  | PyNone => false
  | PyStr [] => false
  | PyStr (_ :: _) => true
  end.

(** [f"{n}"] for a non-negative integer. *)
Definition str_of_nat (n : nat) : str :=
  py (NilZero.string_of_uint (Nat.to_uint n)).

(** The dialog title of a search without hits (its sixth letter is U+00F3). *)
Definition brak_wynikow : str :=
  py "Brak wynik" ++ [243%N] ++ py "w".

(* ================================================================== *)
(** ** The Unicode tables the program consults *)

Class Unicode := {
  (** [str.lower] *)
  lower : str -> str;
  (** [unicodedata.normalize('NFKD', _)]: compatibility decomposition *)
  nfkd : str -> str;
  (** [unicodedata.normalize('NFD', _)]: canonical decomposition; the
      program never calls it, the specification names it *)
  nfd : str -> str;
  (** [unicodedata.combining]: the canonical combining class, 0 for a
      character that is not a combining mark *)
  combining : char -> N;
  (** the characters [str.strip()] removes *)
  isspace : char -> bool
}.

Section Normalizer.
Context {U : Unicode}.

Fixpoint lstrip (s : str) : str :=
  match s with
  | [] => []
  | c :: s' => if isspace c then lstrip s' else s
  end.

(** [s.strip()] *)
Definition strip (s : str) : str :=
  rev (lstrip (rev (lstrip s))).

(** [if text.strip():] fails *)
Definition is_blank (text : str) : bool :=
  negb (truthy (strip text)).

(** [''.join(c for c in text if not unicodedata.combining(c))] *)
Definition strip_marks (text : str) : str :=
  filter (fun c => N.eqb (combining c) 0) text.

(** [normalize_text], lines 104-109. *)
Definition normalize_text (text : pytext) : str :=
  if negb (truthy text) then []
  else match text with
       | PyNone => []
       | PyStr s => strip_marks (nfkd (lower s))
       end.

(** The normaliser as the specification words it: canonical
    decomposition, then lower-casing, then removal of combining marks;
    empty for empty or null input. *)
Definition normalize_spec (text : pytext) : str :=
  match text with
  | PyNone => []
  | PyStr s => strip_marks (lower (nfd s))
  end.

End Normalizer.

(* ================================================================== *)
(** ** A concrete fragment of the Unicode tables

    Exact on the code points U+0000-U+00FF, on U+2102 (double-struck
    capital C, an upper-case letter without a lower-case form whose
    compatibility decomposition is the letter C) and on the characters
    their decompositions produce, among them the combining marks
    U+0300-U+0304, U+0308, U+030A and U+0327; every other code point is
    treated as a caseless, undecomposable, non-combining, non-space
    character. *)

Module Latin1.
Local Open Scope N_scope.

Definition lower_char (c : char) : char :=
  if (65 <=? c) && (c <=? 90) then c + 32
  else if (192 <=? c) && (c <=? 222) && negb (c =? 215) then c + 32
  else c.

(** Canonical decompositions of the capital letters U+00C0-U+00DD. *)
Definition capital_decomposition (c : char) : option (char * char) :=
  match c with
  | 192 => Some (65, 768) | 193 => Some (65, 769) | 194 => Some (65, 770)
  | 195 => Some (65, 771) | 196 => Some (65, 776) | 197 => Some (65, 778)
  | 199 => Some (67, 807)
  | 200 => Some (69, 768) | 201 => Some (69, 769) | 202 => Some (69, 770)
  | 203 => Some (69, 776)
  | 204 => Some (73, 768) | 205 => Some (73, 769) | 206 => Some (73, 770)
  | 207 => Some (73, 776)
  | 209 => Some (78, 771)
  | 210 => Some (79, 768) | 211 => Some (79, 769) | 212 => Some (79, 770)
  | 213 => Some (79, 771) | 214 => Some (79, 776)
  | 217 => Some (85, 768) | 218 => Some (85, 769) | 219 => Some (85, 770)
  | 220 => Some (85, 776)
  | 221 => Some (89, 769)
  | _ => None
  end%N.

Definition canonical_char (c : char) : str :=
  if (c =? 255) then [121; 776]
  else if (224 <=? c) && (c <=? 253) then
    match capital_decomposition (c - 32) with
    | Some (base, mark) => [base + 32; mark]
    | None => [c]
    end
  else
    match capital_decomposition c with
    | Some (base, mark) => [base; mark]
    | None => [c]
    end.

(** Compatibility decompositions of U+00A0-U+00BE and of U+2102; the
    canonical ones elsewhere. *)
Definition compatibility_char (c : char) : str :=
  match c with
  | 160 => [32] | 168 => [32; 776] | 170 => [97] | 175 => [32; 772]
  | 178 => [50] | 179 => [51] | 180 => [32; 769] | 181 => [956]
  | 184 => [32; 807] | 185 => [49] | 186 => [111]
  | 188 => [49; 8260; 52] | 189 => [49; 8260; 50] | 190 => [51; 8260; 52]
  | 8450 => [67]
  | _ => canonical_char c
  end%N.

Definition combining_class (c : char) : N :=
  match c with
  | 768 | 769 | 770 | 771 | 772 | 776 | 778 => 230
  | 807 => 202
  | _ => 0
  end%N.

(** Canonical ordering: a mark moves left past the marks of a strictly
    higher class that precede it. *)
Fixpoint insert_mark (c : char) (done_rev : str) : str :=
  match done_rev with
  | d :: rest =>
      if (0 <? combining_class c) && (combining_class c <? combining_class d)
      then d :: insert_mark c rest
      else c :: done_rev
  | [] => [c]
  end%N.

Definition canonical_order (s : str) : str :=
  rev (fold_left (fun done_rev c => insert_mark c done_rev) s []).

Definition space_char (c : char) : bool :=
  ((9 <=? c) && (c <=? 13)) || ((28 <=? c) && (c <=? 32))
  || (c =? 133) || (c =? 160).

#[export] Instance tables : Unicode := {|
  lower := List.map lower_char;
  nfkd := fun s => canonical_order (flat_map compatibility_char s);
  nfd := fun s => canonical_order (flat_map canonical_char s);
  combining := combining_class;
  isspace := space_char
|}.

End Latin1.

(* ================================================================== *)
(** ** Effects: exceptions and the observable trace *)

Inductive exn := Exception (msg : str).

Definition exn_msg (e : exn) : str :=
  match e with Exception msg => msg end.

Inductive result (A : Type) :=
| Ok (a : A)
| Raise (e : exn).

Arguments Ok {A} a.
Arguments Raise {A} e.

(** A page image handed by pdf2image to pytesseract. *)
Definition image := nat.

Inductive event :=
| Printed (line : str)                         (* print(...) wrote the line *)
| Rasterize (path : str)                       (* convert_from_path(path, ...) called *)
| Recognize (img : image)                      (* pytesseract.image_to_string(img, ...) called *)
| SigFileProcessed (path : str) (found : bool) (* file_processed.emit *)
| SigProgress (processed total : nat)          (* progress.emit *)
| SigFinished (results : list str) (total skipped : nat) (* finished.emit *)
| AddItem (label : str)                        (* results_list.addItem *)
| InfoBox (title text : str)                   (* QMessageBox.information *)
| SetStatus (text : str)                       (* status_label.setText *)
| Uncaught (e : exn).                          (* the exception leaves the method *)

(** A computation: what it printed, called and emitted, and how it ended. *)
Definition M (A : Type) : Type := (list event * result A)%type.

Definition ret {A} (a : A) : M A := ([], Ok a).

Definition bind {A B} (m : M A) (k : A -> M B) : M B :=
  match m with
  | (log, Ok a) => let (log', r) := k a in (log ++ log', r)
  | (log, Raise e) => (log, Raise e)
  end.

Definition emit (ev : event) : M unit := ([ev], Ok tt).

(** A library call: its outcome, after the event that records the call. *)
Definition call {A} (ev : event) (outcome : result A) : M A := ([ev], outcome).

Definition lift {A} (outcome : result A) : M A := ([], outcome).

(** [try: body  except Exception as e: handler e] *)
Definition try_except {A} (body : M A) (handler : exn -> M A) : M A :=
  match body with
  | (log, Ok a) => (log, Ok a)
  | (log, Raise e) => let (log', r) := handler e in (log ++ log', r)
  end.

(** A computation that starts after [log] was produced. *)
Definition after {A} (log : list event) (m : M A) : M A :=
  let (log', r) := m in (log ++ log', r).

Notation "x <- m ;; k" := (bind m (fun x => k))
  (at level 61, m at next level, right associativity).
Notation "m ;;; k" := (bind m (fun _ => k))
  (at level 61, right associativity).

Definition trace {A} (m : M A) : list event := fst m.
Definition outcome {A} (m : M A) : result A := snd m.

(** A loop body that may [return] from the enclosing function. *)
Inductive loop_exit (R S : Type) :=
| Return (r : R)
| Fallthrough (s : S).

Arguments Return {R S} r.
Arguments Fallthrough {R S} s.

(** The [UnicodeEncodeError] a failed [print] raises.  The message Python
    builds names the codec, the character written as an escape and its
    position: it is ASCII, whatever the character was. *)
Definition encode_error : exn :=
  Exception (py "codec can't encode character: character maps to <undefined>").

(* ================================================================== *)
(** ** The libraries and the file system the program runs against *)

(** What python-docx exposes of a document: [doc.paragraphs] as the
    paragraphs' [text], and [doc.tables] as tables of rows of cells'
    [text]. *)
Record docx_document := {
  paragraphs : list str;
  tables : list (list (list str))
}.

(** A page of an opened PDF, as the page loops see it: the text
    [doc[page_num].get_text()] returns, or the exception that reading
    the page raises. *)
Definition pdf_page : Type := result str.

(** A submitted task as the collecting loop sees it: the path it was
    submitted for and what [future.result()] gives. *)
Definition future : Type := (str * result (str * bool))%type.

Class World := {
  (** the module constant set from [find_tesseract()] at import *)
  TESSERACT_CMD : pytext;
  (** the characters beyond ASCII that the encoding of standard output
      can write *)
  console_encodes : char -> bool;
  (** [fitz.open(path)], as its pages in order *)
  fitz_open : str -> result (list pdf_page);
  (** [docx.Document(path)] *)
  docx_Document : str -> result docx_document;
  (** [convert_from_path(path, dpi=150, ...)] *)
  convert_from_path : str -> result (list image);
  (** [pytesseract.image_to_string(img, lang='pol', ...)] *)
  image_to_string : image -> result str;
  (** [os.walk(folder)], as its (root, files) pairs in order *)
  os_walk : str -> list (str * list str);
  (** [os.path.join] *)
  path_join : str -> str -> str;
  (** the order in which [as_completed] yields the submitted futures *)
  as_completed : list future -> list future
}.

Section Program.
Context {U : Unicode} {W : World}.

(* ---------------------------------------------------------------- *)
(** *** Standard output *)

(** A character standard output can write: every ASCII character (the
    encodings Python gives standard output all have them) and those the
    console's encoding adds. *)
Definition encodable (c : char) : bool :=
  N.ltb c 128 || console_encodes c.

(** A line [print] can write. *)
Definition printable (line : str) : bool := forallb encodable line.

(** [print(line)]: the line is encoded whole before anything is written;
    a character the encoding lacks raises [UnicodeEncodeError] and nothing
    is written. *)
Definition print (line : str) : M unit :=
  if printable line then emit (Printed line) else lift (Raise encode_error).

(* ---------------------------------------------------------------- *)
(** *** Folder mode: one task per file *)

(** The page loop of [search_pdf_with_ocr], lines 171-185. *)
Fixpoint ocr_pass (norm_keyword : str) (images : list image)
  : M (loop_exit bool unit) :=
  match images with
  | [] => ret (Fallthrough tt)
  | img :: rest =>
      r <- try_except
             (text <- call (Recognize img) (image_to_string img) ;;
              if contains norm_keyword (normalize_text (PyStr text))
              then ret (Return true)
              else ret (Fallthrough tt))
             (fun e =>
                print (py "[OCR ERROR]: " ++ exn_msg e) ;;;
                ret (Fallthrough tt)) ;;
      match r with
      | Return b => ret (Return b)
      | Fallthrough _ => ocr_pass norm_keyword rest
      end
  end.

(** [search_pdf_with_ocr], lines 154-191. *)
Definition search_pdf_with_ocr (path norm_keyword : str) : M bool :=
  if negb (truthy TESSERACT_CMD) then
    print (py "[OCR ERROR] Tesseract not found") ;;;
    ret false
  else
    try_except
      (images <- call (Rasterize path) (convert_from_path path) ;;
       r <- ocr_pass norm_keyword images ;;
       match r with
       | Return b => ret b
       | Fallthrough _ => ret false
       end)
      (fun e =>
         print (py "[OCR PDF ERROR]: " ++ exn_msg e) ;;;
         ret false).

(** The first pass of [search_pdf_file], lines 132-140: the pages in
    order, carrying [has_text_pages]; reading a page may raise. *)
Fixpoint text_pass (norm_keyword : str) (pages : list pdf_page)
         (has_text_pages : bool) : result (loop_exit bool bool) :=
  match pages with
  | [] => Ok (Fallthrough has_text_pages)
  | Raise e :: _ => Raise e
  | Ok text :: rest =>
      if truthy (strip text) then
        if contains norm_keyword (normalize_text (PyStr text))
        then Ok (Return true)
        else text_pass norm_keyword rest true
      else text_pass norm_keyword rest has_text_pages
  end.

(** [search_pdf_file], lines 124-152. *)
Definition search_pdf_file (path keyword : str) (search_only_text : bool)
  : M bool :=
  try_except
    (doc <- lift (fitz_open path) ;;
     let norm_keyword := normalize_text (PyStr keyword) in
     r <- lift (text_pass norm_keyword doc false) ;;
     match r with
     | Return b => ret b
     | Fallthrough has_text_pages =>
         if negb has_text_pages && negb search_only_text
         then search_pdf_with_ocr path norm_keyword
         else ret false
     end)
    (fun e =>
       print (py "[PDF ERROR] " ++ path ++ py ": " ++ exn_msg e) ;;;
       ret false).

(** [search_docx_file], lines 193-214. *)
Definition search_docx_file (path keyword : str) : M bool :=
  try_except
    (doc <- lift (docx_Document path) ;;
     let norm_keyword := normalize_text (PyStr keyword) in
     if existsb (fun para => contains norm_keyword (normalize_text (PyStr para)))
                (paragraphs doc)
     then ret true
     else if existsb
               (fun table =>
                  existsb
                    (fun row =>
                       existsb
                         (fun cell =>
                            contains norm_keyword (normalize_text (PyStr cell)))
                         row)
                    table)
               (tables doc)
     then ret true
     else ret false)
    (fun e =>
       print (py "[DOCX ERROR] " ++ path ++ py ": " ++ exn_msg e) ;;;
       ret false).

(** [process_single_file], lines 111-122. *)
Definition process_single_file (file_args : str * str * bool)
  : M (str * bool) :=
  let '(filepath, keyword, search_only_text) := file_args in
  try_except
    (if endswith (lower filepath) (py ".pdf") then
       found <- search_pdf_file filepath keyword search_only_text ;;
       ret (filepath, found)
     else if endswith (lower filepath) (py ".docx") then
       found <- search_docx_file filepath keyword ;;
       ret (filepath, found)
     else ret (filepath, false))
    (fun e =>
       print (py "[ERROR] Processing " ++ filepath ++ py ": " ++ exn_msg e) ;;;
       ret (filepath, false)).

(* ---------------------------------------------------------------- *)
(** *** Folder mode: the worker *)

(** The fields of [OptimizedFolderSearchWorker] ([max_workers] only
    sizes the pool and is left out). *)
Record worker := {
  folder : str;
  keyword : str;
  search_only_text : bool;
  results : list str;
  total : nat;
  skipped : nat;
  processed : nat
}.

(** [__init__], lines 221-230. *)
Definition new_worker (folder keyword : str) (search_only_text : bool)
  : worker :=
  {| folder := folder; keyword := keyword;
     search_only_text := search_only_text;
     results := []; total := 0; skipped := 0; processed := 0 |}.

(** The test of line 237. *)
Definition is_candidate (name : str) : bool :=
  endswith_any (lower name) [py ".pdf"; py ".docx"].

(** Lines 234-238. *)
Definition collect_files (folder : str) : list str :=
  flat_map
    (fun '(root, files) =>
       List.map (path_join root) (filter is_candidate files))
    (os_walk folder).

(** The line the [except] branch of the collecting loop prints. *)
Definition future_error_line (filepath : str) (e : exn) : str :=
  py "[FUTURE ERROR] " ++ filepath ++ py ": " ++ exn_msg e.

(** The body of the collecting loop, lines 260-274, for one completed
    future: the signals it emits, the worker afterwards, and the
    exception that leaves the loop when the [print] of the [except]
    branch fails (before [skipped] and [processed] are touched).  The
    percentage [int((processed / total) * 100)] is computed in floating
    point; the event carries its two operands. *)
Definition on_completed (self : worker) (f : future)
  : list event * worker * option exn :=
  let '(filepath, outcome) := f in
  match outcome with
  | Ok (file_path, found) =>
      let results' :=
        if found then results self ++ [file_path] else results self in
      let processed' := processed self + 1 in
      ((if found then [SigFileProcessed file_path true] else [])
         ++ [SigProgress processed' (total self)],
       {| folder := folder self; keyword := keyword self;
          search_only_text := search_only_text self;
          results := results'; total := total self;
          skipped := skipped self; processed := processed' |},
       None)
  | Raise e =>
      match print (future_error_line filepath e) with
      | (log, Ok _) =>
          (log,
           {| folder := folder self; keyword := keyword self;
              search_only_text := search_only_text self;
              results := results self; total := total self;
              skipped := skipped self + 1; processed := processed self + 1 |},
           None)
      | (log, Raise e') => (log, self, Some e')
      end
  end.

(** [for future in as_completed(future_to_file): ...]; an exception that
    leaves the body ends the loop. *)
Fixpoint collect (completed : list future) (self : worker)
  : list event * worker * option exn :=
  match completed with
  | [] => ([], self, None)
  | f :: rest =>
      match on_completed self f with
      | (log, self', Some e) => (log, self', Some e)
      | (log, self', None) =>
          let '(log', self'', failure) := collect rest self' in
          (log ++ log', self'', failure)
      end
  end.

(** The futures of lines 246-256: one per file, in submission order. *)
Definition submit_all (self : worker) (all_files : list str) : list future :=
  List.map
    (fun filepath =>
       (filepath,
        outcome (process_single_file
                   (filepath, keyword self, search_only_text self))))
    all_files.

(** [OptimizedFolderSearchWorker.run], lines 232-276: the signals the
    worker emits and its fields at the end.  An exception that leaves the
    collecting loop leaves [run]: [finished] is not emitted. *)
Definition run (self : worker) : list event * worker :=
  let all_files := collect_files (folder self) in
  let self :=
    {| folder := folder self; keyword := keyword self;
       search_only_text := search_only_text self;
       results := results self; total := List.length all_files;
       skipped := skipped self; processed := processed self |} in
  if Nat.eqb (total self) 0 then
    ([SigFinished [] 0 0], self)
  else
    match collect (as_completed (submit_all self all_files)) self with
    | (log, self, None) =>
        (log ++ [SigFinished (results self) (total self) (skipped self)], self)
    | (log, self, Some e) => (log ++ [Uncaught e], self)
    end.

(* ---------------------------------------------------------------- *)
(** *** Single-file mode *)

(** The page loop of [find_keyword_in_pdf_pages], lines 483-488: the
    pages found, [has_text_pages], and the exception of the page whose
    read raised, where the loop stopped. *)
Fixpoint pages_pass (norm_keyword : str) (pages : list pdf_page)
         (page_num : nat) (found_pages : list nat) (has_text_pages : bool)
  : list nat * bool * option exn :=
  match pages with
  | [] => (found_pages, has_text_pages, None)
  | Raise e :: _ => (found_pages, has_text_pages, Some e)
  | Ok text :: rest =>
      if truthy (strip text) then
        if contains norm_keyword (normalize_text (PyStr text))
        then pages_pass norm_keyword rest (S page_num)
                        (found_pages ++ [page_num]) true
        else pages_pass norm_keyword rest (S page_num) found_pages true
      else pages_pass norm_keyword rest (S page_num) found_pages has_text_pages
  end.

(** The image loop of [find_keyword_in_pdf_pages], lines 500-508: what it
    printed and called, the pages found, and the exception that left the
    loop when the [print] of its [except] branch failed. *)
Fixpoint ocr_pages_pass (norm_keyword : str) (images : list image) (i : nat)
         (found_pages : list nat) : list event * (list nat * option exn) :=
  match images with
  | [] => ([], (found_pages, None))
  | img :: rest =>
      match
        try_except
          (text <- call (Recognize img) (image_to_string img) ;;
           if contains norm_keyword (normalize_text (PyStr text))
           then ret (found_pages ++ [i])
           else ret found_pages)
          (fun e =>
             print (py "[OCR ERROR]: " ++ exn_msg e) ;;;
             ret found_pages)
      with
      | (log, Ok found_pages') =>
          let (log', r) := ocr_pages_pass norm_keyword rest (S i) found_pages' in
          (log ++ log', r)
      | (log, Raise e) => (log, (found_pages, Some e))
      end
  end.

(** The [except] of [find_keyword_in_pdf_pages], lines 510-513, entered
    with [found_pages] as it stands. *)
Definition single_file_error (found_pages : list nat) (e : exn)
  : M (list nat) :=
  print (py "Single-file PDF search error: " ++ exn_msg e) ;;;
  ret found_pages.

(** [find_keyword_in_pdf_pages], lines 474-513.  [found_pages] is a
    local list that survives an exception: wherever one arises inside
    the [try], the [except] is entered with the list as it stands
    there. *)
Definition find_keyword_in_pdf_pages (path keyword : str) (skip_ocr : bool)
  : M (list nat) :=
  let norm_keyword := normalize_text (PyStr keyword) in
  match fitz_open path with
  | Raise e => single_file_error [] e
  | Ok doc =>
      match pages_pass norm_keyword doc 0 [] false with
      | (found_pages, _, Some e) => single_file_error found_pages e
      | (found_pages, has_text_pages, None) =>
          if negb has_text_pages && negb skip_ocr then
            if negb (truthy TESSERACT_CMD) then
              match print (py "[OCR SKIPPED] Tesseract not available") with
              | (log, Ok _) => (log, Ok found_pages)
              | (log, Raise e) => after log (single_file_error found_pages e)
              end
            else
              match call (Rasterize path) (convert_from_path path) with
              | (log, Raise e) => after log (single_file_error found_pages e)
              | (log, Ok images) =>
                  match ocr_pages_pass norm_keyword images 0 found_pages with
                  | (log', (found_pages', None)) =>
                      (log ++ log', Ok found_pages')
                  | (log', (found_pages', Some e)) =>
                      after (log ++ log') (single_file_error found_pages' e)
                  end
              end
          else ret found_pages
      end
  end.

(** The paragraph loop of [find_keyword_in_docx_paragraphs]. *)
Fixpoint paragraphs_pass (norm_keyword : str) (paras : list str) (i : nat)
         (found_paragraphs : list nat) : list nat :=
  match paras with
  | [] => found_paragraphs
  | para :: rest =>
      if contains norm_keyword (normalize_text (PyStr para))
      then paragraphs_pass norm_keyword rest (S i) (found_paragraphs ++ [i])
      else paragraphs_pass norm_keyword rest (S i) found_paragraphs
  end.

(** [find_keyword_in_docx_paragraphs], lines 515-528. *)
Definition find_keyword_in_docx_paragraphs (path keyword : str)
  : M (list nat) :=
  let norm_keyword := normalize_text (PyStr keyword) in
  try_except
    (doc <- lift (docx_Document path) ;;
     ret (paragraphs_pass norm_keyword (paragraphs doc) 0 []))
    (fun e =>
       print (py "DOCX search error: " ++ exn_msg e) ;;;
       ret []).

(** [for x in results: self.results_list.addItem(f"{label} {x + 1}")] *)
Definition add_items (label : str) (locators : list nat) : M unit :=
  (List.map (fun x => AddItem (label ++ str_of_nat (x + 1))) locators, Ok tt).

(** [search_single_file], lines 455-472, on [self.path]; the two
    button updates of the [finally] are left out, and an exception of
    the search passes through it.  Returns [results]. *)
Definition search_single_file (path keyword : str) (skip_ocr : bool)
  : M (list nat) :=
  results <-
    (if endswith (lower path) (py ".pdf") then
       results <- find_keyword_in_pdf_pages path keyword skip_ocr ;;
       add_items (py "Strona ") results ;;;
       ret results
     else if endswith (lower path) (py ".docx") then
       results <- find_keyword_in_docx_paragraphs path keyword ;;
       add_items (py "Paragraph ") results ;;;
       ret results
     else ret []) ;;
  (match results with
   | [] => emit (InfoBox brak_wynikow (brak_wynikow ++ py " w wybranym pliku"))
   | _ :: _ => ret tt
   end) ;;;
  ret results.

End Program.

(* ================================================================== *)
(** ** Worked scenarios: a small file system *)

Module Scenario.

Fixpoint lookup {A} (key : str) (table : list (str * A)) : option A :=
  match table with
  | [] => None
  | (k, v) :: rest => if str_eqb key k then Some v else lookup key rest
  end.

Definition io_error : exn := Exception (py "cannot open file").

Definition page_error : exn := Exception (py "cannot read page").

(** A file name with a letter outside ASCII: z with dot above, U+017C. *)
Definition zolw_pdf : str := [380%N] ++ py ".pdf".

(** The PDF files: their pages, or [None] for a file PyMuPDF cannot
    open. *)
Definition pdf_files : list (str * option (list pdf_page)) :=
  [ (py "docs/a.pdf", Some [Ok (py "invoice 2024")]);
    (py "docs/b.pdf", Some [Ok []]);
    (py "docs/bad.pdf", None);
    (py "docs/five.pdf",
      Some [Ok (py "cover"); Ok (py "Total: 1"); Ok (py "notes");
            Ok (py "sub-total"); Ok (py "end")]);
    (py "docs/gap.pdf", Some [Ok (py "abc"); Ok (py " ")]);
    (py "docs/torn.pdf",
      Some [Ok (py "total one"); Ok (py "none"); Ok (py "grand total");
            Raise page_error; Ok (py "total after")]);
    (py "docs/scan3.pdf", Some [Ok []; Ok []; Ok []]);
    (py "docs/" ++ zolw_pdf, None) ].

(** The page images pdf2image produces, and what pytesseract reads on
    each. *)
Definition pdf_images : list (str * list image) :=
  [ (py "docs/b.pdf", [0]);
    (py "docs/scan3.pdf", [1; 2; 3]) ].

Definition image_texts : list (image * str) :=
  [ (0, py "Total Due: 500");
    (1, py "nothing here");
    (2, py "Total");
    (3, py "total again") ].

Definition docx_files : list (str * docx_document) :=
  [ (py "docs/c.docx", {| paragraphs := [py "TOTAL"]; tables := [] |});
    (py "docs/table.docx",
      {| paragraphs := [py "hello"]; tables := [[[py "Total"; py "500"]]] |}) ].

(** Four folders over those files. *)
Definition folders : list (str * list (str * list str)) :=
  [ (py "spec", [(py "docs", [py "a.pdf"; py "b.pdf"; py "c.docx"])]);
    (py "broken", [(py "docs", [py "a.pdf"; py "bad.pdf"; py "c.docx"])]);
    (py "mixed", [(py "docs", [py "A.PDF"; py "notes.txt"; py "b.DocX"; py "pdf"])]);
    (py "names", [(py "docs", [py "c.docx"; zolw_pdf; py "a.pdf"])]) ].

Fixpoint image_lookup (img : image) (table : list (image * str)) : option str :=
  match table with
  | [] => None
  | (k, v) :: rest => if Nat.eqb img k then Some v else image_lookup img rest
  end.

(** The world with the given Tesseract command, completion order and
    console. *)
Definition world (tesseract : pytext) (order : list future -> list future)
           (console : char -> bool) : World := {|
  TESSERACT_CMD := tesseract;
  console_encodes := console;
  fitz_open := fun path =>
    match lookup path pdf_files with
    | Some (Some pages) => Ok pages
    | _ => Raise io_error
    end;
  docx_Document := fun path =>
    match lookup path docx_files with
    | Some doc => Ok doc
    | None => Raise io_error
    end;
  convert_from_path := fun path =>
    match lookup path pdf_images with
    | Some images => Ok images
    | None => Raise io_error
    end;
  image_to_string := fun img =>
    match image_lookup img image_texts with
    | Some text => Ok text
    | None => Raise io_error
    end;
  os_walk := fun folder =>
    match lookup folder folders with
    | Some listing => listing
    | None => []
    end;
  path_join := fun root name => root ++ py "/" ++ name;
  as_completed := order
|}.

Definition tesseract_found : pytext := PyStr (py "/usr/bin/tesseract").

(** A console that writes every character. *)
Definition utf8 : char -> bool := fun _ => true.

(** A console that writes ASCII only. *)
Definition ascii_only : char -> bool := fun _ => false.

(** Tesseract installed, futures completing in submission order. *)
Definition installed : World := world tesseract_found (fun l => l) utf8.

(** Tesseract installed, futures completing in reverse order. *)
Definition reversed : World := world tesseract_found (@rev future) utf8.

(** No Tesseract on the machine. *)
Definition missing : World := world PyNone (fun l => l) utf8.

(** Tesseract installed, output to a console that writes ASCII only. *)
Definition plain_console : World :=
  world tesseract_found (fun l => l) ascii_only.

End Scenario.

(* ================================================================== *)
(** ** Vocabulary of the properties *)

Section Vocabulary.
Context {U : Unicode} {W : World}.

(** The texts of the pages a page loop gets to read: those before the
    first page whose read raises. *)
Fixpoint readable_prefix (pages : list pdf_page) : list str :=
  match pages with
  | Ok text :: rest => text :: readable_prefix rest
  | _ => []
  end.

(** The exception of the first page whose read raises. *)
Fixpoint read_error (pages : list pdf_page) : option exn :=
  match pages with
  | [] => None
  | Raise e :: _ => Some e
  | Ok _ :: rest => read_error rest
  end.

(** Every page can be read. *)
Definition all_read (pages : list pdf_page) : bool :=
  match read_error pages with None => true | Some _ => false end.

(** A page counts towards the text layer when [text.strip()] is not
    empty. *)
Definition nonblank (text : str) : bool := truthy (strip text).

(** [hasNativeTextLayer]: some page yields non-whitespace text. *)
Definition has_native_text_layer (pages : list str) : bool :=
  existsb nonblank pages.

(** The test both PDF page loops apply to a page. *)
Definition page_hit (norm_keyword text : str) : bool :=
  nonblank text && contains norm_keyword (normalize_text (PyStr text)).

(** The units of a DOCX document: its paragraphs, then the cells of its
    tables, table by table and row by row. *)
Definition docx_units (doc : docx_document) : list str :=
  paragraphs doc ++ List.concat (List.concat (tables doc)).

(** The rasteriser was called. *)
Definition is_rasterize (ev : event) : bool :=
  match ev with Rasterize _ => true | _ => false end.

Definition rasterize_called (log : list event) : bool :=
  existsb is_rasterize log.

(** The images handed to pytesseract, in order. *)
Definition recognized (log : list event) : list image :=
  flat_map (fun ev => match ev with Recognize img => [img] | _ => [] end) log.

(** The indices, counted from [n], of the pages the page test accepts. *)
Fixpoint hit_indices (nk : str) (pages : list str) (n : nat) : list nat :=
  match pages with
  | [] => []
  | text :: rest =>
      if page_hit nk text then n :: hit_indices nk rest (S n)
      else hit_indices nk rest (S n)
  end.

(** The positions, counted from [n], of the elements a test accepts. *)
Fixpoint indices_where {A} (p : A -> bool) (l : list A) (n : nat) : list nat :=
  match l with
  | [] => []
  | x :: rest =>
      if p x then n :: indices_where p rest (S n)
      else indices_where p rest (S n)
  end.

(** The entries [search_single_file] adds to the result list for the
    pages found. *)
Definition page_items (found : list nat) : list event :=
  List.map (fun p => AddItem (py "Strona " ++ str_of_nat (p + 1))) found.

(** The entries [search_single_file] adds for the paragraphs found. *)
Definition paragraph_items (found : list nat) : list event :=
  List.map (fun i => AddItem (py "Paragraph " ++ str_of_nat (i + 1))) found.

(** The dialog shown when nothing was found. *)
Definition no_results_dialog (found : list nat) : list event :=
  match found with
  | [] => [InfoBox brak_wynikow (brak_wynikow ++ py " w wybranym pliku")]
  | _ :: _ => []
  end.

(** The lines the [except] branches print. *)
Definition pdf_error_line (path : str) (e : exn) : str :=
  py "[PDF ERROR] " ++ path ++ py ": " ++ exn_msg e.

Definition task_error_line (path : str) (e : exn) : str :=
  py "[ERROR] Processing " ++ path ++ py ": " ++ exn_msg e.

Definition single_file_error_line (e : exn) : str :=
  py "Single-file PDF search error: " ++ exn_msg e.

Definition ocr_error_line (e : exn) : str :=
  py "[OCR ERROR]: " ++ exn_msg e.

(** A page image on which recognition succeeds and whose normalised text
    contains the keyword. *)
Definition image_hit (nk : str) (img : image) : bool :=
  match image_to_string img with
  | Ok text => contains nk (normalize_text (PyStr text))
  | Raise _ => false
  end.

(** A page image on which recognition raises and whose error line cannot
    be printed: the exception of the [print] leaves the image loop. *)
Definition image_breaks (img : image) : bool :=
  match image_to_string img with
  | Ok _ => false
  | Raise e => negb (printable (ocr_error_line e))
  end.

(** The folder-mode image loop ends at a hit or at a break. *)
Definition image_stops (nk : str) (img : image) : bool :=
  image_hit nk img || image_breaks img.

(** The elements up to and including the first at which [stop] holds. *)
Fixpoint through_first {A} (stop : A -> bool) (l : list A) : list A :=
  match l with
  | [] => []
  | x :: rest => x :: (if stop x then [] else through_first stop rest)
  end.

(** The folder-mode image loop finds the keyword: a hit comes before any
    break. *)
Fixpoint hit_before_break (nk : str) (images : list image) : bool :=
  match images with
  | [] => false
  | img :: rest =>
      image_hit nk img || (negb (image_breaks img) && hit_before_break nk rest)
  end.

(** The answer of the optical fallback once Tesseract is found. *)
Definition ocr_match (path nk : str) : bool :=
  match convert_from_path path with
  | Ok images => hit_before_break nk images
  | Raise _ => false
  end.

(** How a completed future falls out of the collecting loop. *)
Definition is_matched (f : future) : bool :=
  match snd f with Ok (_, true) => true | _ => false end.

Definition is_unmatched (f : future) : bool :=
  match snd f with Ok (_, false) => true | _ => false end.

Definition is_raised (f : future) : bool :=
  match snd f with Raise _ => true | Ok _ => false end.

(** A future whose task raised and whose error line cannot be printed:
    the exception of the [print] leaves the collecting loop. *)
Definition future_breaks (f : future) : bool :=
  match snd f with
  | Ok _ => false
  | Raise e => negb (printable (future_error_line (fst f) e))
  end.

(** The futures the collecting loop gets through: those before the first
    that breaks. *)
Fixpoint collected (fs : list future) : list future :=
  match fs with
  | [] => []
  | f :: rest => if future_breaks f then [] else f :: collected rest
  end.

(** The path a matched future appends to [results]. *)
Definition matched_path (f : future) : str :=
  match snd f with Ok (file_path, _) => file_path | Raise _ => fst f end.

Definition matchedCount (fs : list future) : nat :=
  List.length (filter is_matched fs).

Definition unmatchedCount (fs : list future) : nat :=
  List.length (filter is_unmatched fs).

Definition raisedCount (fs : list future) : nat :=
  List.length (filter is_raised fs).

(** The [finished] signal. *)
Definition is_finished (ev : event) : bool :=
  match ev with SigFinished _ _ _ => true | _ => false end.

(** The run emitted [finished]. *)
Definition finalised (log : list event) : Prop :=
  exists res tot skp, In (SigFinished res tot skp) log.

(** The operands of the progress signals, in order. *)
Definition progress_of (log : list event) : list (nat * nat) :=
  flat_map (fun ev => match ev with SigProgress p t => [(p, t)] | _ => [] end)
           log.

(** The arguments of the [file_processed] signals, in order. *)
Definition announced (log : list event) : list (str * bool) :=
  flat_map
    (fun ev => match ev with SigFileProcessed p f => [(p, f)] | _ => [] end)
    log.

(** C1, as the claim words it (a match exactly when some page's
    normalised text contains the normalised keyword), at one PDF. *)
Definition page_match_claim
           (path keyword : str) (pages : list str) : Prop :=
  outcome (search_pdf_file path keyword false) = Ok true <->
  exists text,
    In text pages
    /\ is_substring (normalize_text (PyStr keyword)) (normalize_text (PyStr text)).

(** C5, as the claim words it (the fallback is invoked exactly when no
    page yields non-blank text and native-text-only was not requested),
    at one PDF task. *)
Definition fallback_claim
           (path keyword : str) (flag : bool) (pages : list str) : Prop :=
  rasterize_called (trace (search_pdf_file path keyword flag)) = true <->
  (has_native_text_layer pages = false /\ flag = false).

End Vocabulary.

(* ================================================================== *)
(** ** Start-up: locating the engines, sizing the pool *)

(** What the start-up code asks of the machine. *)
Class Host := {
  (** [platform.system()] *)
  platform_system : str;
  (** [os.path.exists] *)
  os_path_exists : str -> bool;
  (** [os.path.join], as the start-up code uses it *)
  os_path_join : str -> str -> str;
  (** [subprocess.run(cmd, capture_output=True, check=True)]: raises when
      the command cannot be started or exits with an error *)
  subprocess_run : list str -> result unit;
  (** [os.cpu_count()] *)
  os_cpu_count : option nat
}.

Definition windows_tesseract_paths : list str :=
  [ py "C:\Program Files\Tesseract-OCR\tesseract.exe";
    py "C:\tesseract\tesseract.exe";
    py "C:\Program Files (x86)\Tesseract-OCR\tesseract.exe" ].

Definition unix_tesseract_paths : list str :=
  [ py "/usr/bin/tesseract"; py "/usr/local/bin/tesseract" ].

Definition windows_poppler_paths : list str :=
  [ py "C:\poppler\bin";
    py "C:\Program Files\poppler\bin";
    py "C:\Program Files (x86)\poppler\bin" ].

(** [POPPLER_PATH is None] *)
Definition is_none (v : pytext) : bool :=
  match v with PyNone => true | PyStr _ => false end.

Section Startup.
Context {H : Host}.

Definition on_windows : bool := str_eqb platform_system (py "Windows").

(** The places [find_tesseract] looks in on this platform. *)
Definition tesseract_paths : list str :=
  if on_windows then windows_tesseract_paths else unix_tesseract_paths.

(** [for path in paths: if os.path.exists(path): return path] *)
Fixpoint first_existing (paths : list str) : loop_exit str unit :=
  match paths with
  | [] => Fallthrough tt
  | path :: rest =>
      if os_path_exists path then Return path else first_existing rest
  end.

(** The tail both branches of [find_tesseract] share: try the command on
    the PATH, return its name, or pass and fall to [return None]. *)
Definition tesseract_on_path : pytext :=
  match subprocess_run [py "tesseract"; py "--version"] with
  | Ok _ => PyStr (py "tesseract")
  | Raise _ => PyNone
  end.

(** [find_tesseract], lines 22-52. *)
Definition find_tesseract : pytext :=
  if on_windows then
    match first_existing windows_tesseract_paths with
    | Return path => PyStr path
    | Fallthrough _ => tesseract_on_path
    end
  else
    match first_existing unix_tesseract_paths with
    | Return path => PyStr path
    | Fallthrough _ => tesseract_on_path
    end.

(** [for path in paths:
       if os.path.exists(os.path.join(path, "pdftoppm.exe")): return path] *)
Fixpoint first_with_pdftoppm (paths : list str) : loop_exit str unit :=
  match paths with
  | [] => Fallthrough tt
  | path :: rest =>
      if os_path_exists (os_path_join path (py "pdftoppm.exe"))
      then Return path
      else first_with_pdftoppm rest
  end.

(** The [try] of [find_poppler]: [return None] when the command runs,
    [pass] and then [return None] when it does not. *)
Definition pdftoppm_on_path : pytext :=
  match subprocess_run [py "pdftoppm"; py "-h"] with
  | Ok _ => PyNone
  | Raise _ => PyNone
  end.

(** [find_poppler], lines 54-79. *)
Definition find_poppler : pytext :=
  if on_windows then
    match first_with_pdftoppm windows_poppler_paths with
    | Return path => PyStr path
    | Fallthrough _ => pdftoppm_on_path
    end
  else pdftoppm_on_path.

(** Line 87. *)
Definition POPPLER_PATH : pytext := find_poppler.

(** [os.cpu_count() or 1] *)
Definition cpu_count_or_1 : nat :=
  match os_cpu_count with
  | Some (S n) => S n
  | Some 0 | None => 1
  end.

(** Lines 90-91. *)
Definition MAX_WORKERS : nat := Nat.min 32 (cpu_count_or_1 + 4).

Definition MAX_OCR_PROCESSES : nat := Nat.max 1 (cpu_count_or_1 / 2).

(** The pool size of a folder search: line 442 of [search], then
    [max_workers or MAX_WORKERS] of the worker's [__init__], line 230. *)
Definition pool_size (high_performance : bool) : nat :=
  let max_workers := if high_performance then MAX_WORKERS * 2 else MAX_WORKERS in
  match max_workers with
  | 0 => MAX_WORKERS
  | S _ => max_workers
  end.

(** The dependency check of [KeywordSearcher.__init__], lines 283-291;
    the Tesseract command tested is the module constant set from
    [find_tesseract()] at line 82.  The warning dialog is shown when the
    list is not empty. *)
Definition missing_deps : list str :=
  (if negb (truthy find_tesseract) then [py "Tesseract OCR"] else [])
  ++ (if is_none POPPLER_PATH && on_windows then
        match subprocess_run [py "pdftoppm"; py "-h"] with
        | Ok _ => []
        | Raise _ => [py "Poppler"]
        end
      else []).

(** Whether [show_about], line 398, writes that Poppler is available. *)
Definition about_poppler_available : bool :=
  negb (is_none POPPLER_PATH) || negb on_windows.

(** Whether [show_about], line 397, writes that Tesseract was found. *)
Definition about_tesseract_found : bool := truthy find_tesseract.

End Startup.

(* ================================================================== *)
(** ** The main window *)

(** What the window shows beyond the events of the searches. *)
Inductive gui_event :=
| Core (ev : event)
| ResultsCleared                               (* results_list.clear() *)
| WarningBox (title text : str)                (* QMessageBox.warning *)
| WorkerStarted (folder keyword : str) (search_only_text : bool). (* worker.start() *)

Definition blad : str := [66; 322; 261; 100]%N.

Definition wybierz_i_wpisz : str :=
  py "Wybierz plik/folder i wpisz s" ++ [322%N] ++ py "owo kluczowe".

Section Window.
Context {U : Unicode} {W : World}.

(** The single-file branch of [search]: what the search shows, and the
    exception, if it raises one, leaving the slot. *)
Definition shown (m : M (list nat)) : list gui_event :=
  List.map Core (trace m)
  ++ match outcome m with
     | Ok _ => []
     | Raise e => [Core (Uncaught e)]
     end.

(** [search], lines 424-453, with [self.path], the text of the keyword
    field, the mode and the OCR check box; the updates of buttons and
    progress bar are left out.  In folder mode the worker is created with
    the trimmed keyword, a pool of [pool_size] threads, and started; in
    single-file mode the search runs here. *)
Definition search (path : pytext) (keyword_input : str)
           (folder_radio ocr_checkbox : bool) : list gui_event :=
  [ResultsCleared; Core (SetStatus [])]
  ++ let raw_keyword := strip keyword_input in
     match path with
     | PyStr (c :: p) =>
         if negb (truthy (PyStr raw_keyword)) then [WarningBox blad wybierz_i_wpisz]
         else
           let skip_ocr := ocr_checkbox in
           if folder_radio then [WorkerStarted (c :: p) raw_keyword skip_ocr]
           else shown (search_single_file (c :: p) raw_keyword skip_ocr)
     | _ => [WarningBox blad wybierz_i_wpisz]
     end.

End Window.

(* ================================================================== *)
(** ** Worked scenarios: three machines *)

Module Machines.

Definition exists_in (present : list str) (path : str) : bool :=
  existsb (str_eqb path) present.

Definition not_found : exn := Exception (py "No such file or directory").

Definition host (system : str) (present : list str) (commands : list str)
           (sep : str) (cpus : option nat) : Host := {|
  platform_system := system;
  os_path_exists := exists_in present;
  os_path_join := fun a b => a ++ sep ++ b;
  subprocess_run := fun cmd =>
    match cmd with
    | name :: _ => if exists_in commands name then Ok tt else Raise not_found
    | [] => Raise not_found
    end;
  os_cpu_count := cpus
|}.

(** A Linux machine with Tesseract in /usr/local/bin and no Poppler. *)
Definition linux_without_poppler : Host :=
  host (py "Linux") [py "/usr/local/bin/tesseract"] [py "tesseract"]
       (py "/") (Some 8).

(** A Linux machine with neither engine. *)
Definition bare_linux : Host :=
  host (py "Linux") [] [] (py "/") None.

(** A Windows machine with pdftoppm on the PATH only, and Tesseract in
    its second listed place. *)
Definition windows_poppler_on_path : Host :=
  host (py "Windows") [py "C:\tesseract\tesseract.exe"] [py "pdftoppm"]
       (py "\") (Some 4).

(** A Windows machine with Poppler unpacked to C:\poppler and nothing
    else. *)
Definition windows_poppler_unpacked : Host :=
  host (py "Windows") [py "C:\poppler\bin\pdftoppm.exe"] []
       (py "\") (Some 64).

End Machines.

(* ================================================================== *)
(** * Properties *)

(** ** Strings *)

Section StringFacts.

Lemma startswith_iff (s p : str) :
  startswith s p = true <-> exists rest, s = p ++ rest.
Proof.
  revert s; induction p as [|x p IH]; intros s; simpl.
  - split; [intros _; now exists s | reflexivity].
  - destruct s as [|y s].
    + split; [discriminate | intros [rest H]; discriminate].
    + rewrite andb_true_iff, IH. unfold char_eqb. rewrite N.eqb_eq.
      split.
      * intros [-> [rest ->]]. now exists rest.
      * intros [rest H]. injection H as -> ->. split; [reflexivity | now exists rest].
Qed.

Lemma contains_iff (needle hay : str) :
  contains needle hay = true <-> is_substring needle hay.
Proof.
  unfold is_substring.
  induction hay as [|c hay IH].
  - simpl. rewrite orb_false_r, startswith_iff. split.
    + intros [rest H]. now exists [], rest.
    + intros [before [after H]].
      destruct before; [|discriminate]. now exists after.
  - cbn [contains]. rewrite orb_true_iff, startswith_iff, IH. split.
    + intros [[rest H] | [before [after H]]].
      * now exists [], rest.
      * exists (c :: before), after. simpl. now rewrite H.
    + intros [before [after H]]. destruct before as [|b before].
      * left. now exists after.
      * right. injection H as _ H. now exists before, after.
Qed.

Lemma endswith_iff (s suffix : str) :
  endswith s suffix = true <-> is_suffix suffix s.
Proof.
  unfold endswith, is_suffix. rewrite startswith_iff. split.
  - intros [rest H]. exists (rev rest).
    rewrite <- (rev_involutive s), H, rev_app_distr.
    now rewrite rev_involutive.
  - intros [before ->]. exists (rev before). apply rev_app_distr.
Qed.

Lemma truthy_iff (s : str) : truthy (PyStr s) = true <-> s <> [].
Proof.
  destruct s; simpl; split; congruence.
Qed.

End StringFacts.

(* ------------------------------------------------------------------ *)
(** ** The normaliser *)

(** C3, as the code has it: [normalize_text] returns the empty string for
    [None] and for the empty string; for every other string it lower-cases
    first, then applies the compatibility decomposition NFKD, then drops
    every character of non-zero combining class.  It never raises, and no
    character of its result has a non-zero combining class. *)
Theorem normalize_text_lower_nfkd_strip :
  forall (U : Unicode) (text : pytext),
    normalize_text text =
      match text with
      | PyNone => []
      | PyStr [] => []
      | PyStr (c :: s) => strip_marks (nfkd (lower (c :: s)))
      end
    /\ Forall (fun c => combining c = 0%N) (normalize_text text).
Proof.
  intros U text. split.
  - destruct text as [|[|c s]]; reflexivity.
  - destruct text as [|[|c s]]; cbn; try constructor.
    apply Forall_forall. intros x Hx.
    apply filter_In in Hx. now apply N.eqb_eq.
Qed.

(** C3, as the claim words it, fails at the one-character string U+00B2
    (superscript two): it has no canonical decomposition, so the worded
    normaliser keeps it, while the code's NFKD turns it into the digit 2.
    The order of the steps matters as well: on U+2102 the code, which
    lower-cases before it decomposes, returns the capital letter C, where
    decomposing first and lower-casing afterwards would return c. *)
Lemma normalize_text_is_not_canonical :
  let U := Latin1.tables in
  normalize_text (PyStr [178%N]) = py "2"
  /\ normalize_spec (PyStr [178%N]) = [178%N]
  /\ normalize_text (PyStr [178%N]) <> normalize_spec (PyStr [178%N])
  /\ normalize_text (PyStr [8450%N]) = py "C"
  /\ strip_marks (lower (nfkd [8450%N])) = py "c".
Proof.
  cbv zeta. repeat split; try reflexivity. vm_compute. discriminate.
Qed.

(** The normaliser is accent- and case-insensitive on the spec's own
    examples ("José", "JOSÉ", "jose"; "Café", "cafe"). *)
Example normalize_text_jose :
  let U := Latin1.tables in
  normalize_text (PyStr (py "Jos" ++ [233%N])) = py "jose"
  /\ normalize_text (PyStr (py "JOS" ++ [201%N])) = py "jose"
  /\ normalize_text (PyStr (py "Caf" ++ [233%N])) = normalize_text (PyStr (py "cafe")).
Proof.
  cbv zeta. repeat split; reflexivity.
Qed.

(* ------------------------------------------------------------------ *)
(** ** The effect combinators *)

Section Effects.
Context {A B : Type}.

Lemma try_bind_lift_ok (a : A) (k : A -> M B) (h : exn -> M B) :
  try_except (bind (lift (Ok a)) k) h = try_except (k a) h.
Proof.
  unfold try_except, bind, lift. destruct (k a) as [log [b|e]]; reflexivity.
Qed.

Lemma try_bind_lift_raise (e : exn) (k : A -> M B) (h : exn -> M B) :
  try_except (bind (lift (Raise e)) k) h = h e.
Proof.
  unfold try_except, bind, lift. destruct (h e); reflexivity.
Qed.

(** A [try] whose body begins with a library call records the call,
    however the call and the rest of the body end. *)
Lemma trace_try_call (ev : event) (r : result A) (k : A -> M B)
      (h : exn -> M B) :
  exists rest, trace (try_except (bind (call ev r) k) h) = ev :: rest.
Proof.
  unfold try_except, bind, call, trace. destruct r as [a|e].
  - destruct (k a) as [log [b|e]].
    + eexists; reflexivity.
    + destruct (h e); eexists; reflexivity.
  - destruct (h e); eexists; reflexivity.
Qed.

Lemma after_nil (m : M A) : after [] m = m.
Proof. now destruct m. Qed.

Lemma trace_after (log : list event) (m : M A) :
  trace (after log m) = log ++ trace m.
Proof. now destruct m. Qed.

Lemma outcome_after (log : list event) (m : M A) :
  outcome (after log m) = outcome m.
Proof. now destruct m. Qed.

Lemma after_after (log log' : list event) (m : M A) :
  after log (after log' m) = after (log ++ log') m.
Proof. destruct m. cbn. now rewrite app_assoc. Qed.

End Effects.

(* ------------------------------------------------------------------ *)
(** ** Standard output *)

Section Printing.
Context {W : World}.

Lemma printable_app (a b : str) :
  printable (a ++ b) = printable a && printable b.
Proof. apply forallb_app. Qed.

Lemma print_ok (line : str) :
  printable line = true -> print line = ([Printed line], Ok tt).
Proof. intros H. unfold print. now rewrite H. Qed.

Lemma print_fails (line : str) :
  printable line = false -> print line = ([], Raise encode_error).
Proof. intros H. unfold print. now rewrite H. Qed.

(** The shape of every [except] branch of the program: one line is
    printed and a value returned. *)
Lemma print_then_ret {A} (line : str) (a : A) :
  (print line ;;; ret a)
  = if printable line then ([Printed line], Ok a)
    else ([], Raise encode_error).
Proof. unfold print. now destruct (printable line). Qed.

(** The message of the encoding error is ASCII. *)
Lemma printable_encode_error : printable (exn_msg encode_error) = true.
Proof. reflexivity. Qed.

(** What leaves a [try] whose [except] branch prints a line and returns:
    a value, or the encoding error of that line. *)
Lemma guarded_outcome {A} (body : M A) (line : exn -> str) (a : A) (e' : exn) :
  outcome (try_except body (fun e => print (line e) ;;; ret a)) = Raise e' ->
  e' = encode_error
  /\ exists e, outcome body = Raise e /\ printable (line e) = false.
Proof.
  unfold try_except. destruct body as [log [x|e]]; [discriminate|].
  rewrite print_then_ret. destruct (printable (line e)) eqn:Hp; cbn.
  - discriminate.
  - intros H. injection H as <-. split; [reflexivity|]. now exists e.
Qed.

Lemma guarded_returns {A} (body : M A) (line : exn -> str) (a : A) :
  (forall e, outcome body = Raise e -> printable (line e) = true) ->
  exists log x,
    try_except body (fun e => print (line e) ;;; ret a) = (log, Ok x).
Proof.
  intros H. unfold try_except. destruct body as [log [x|e]].
  - now exists log, x.
  - rewrite print_then_ret, (H e eq_refl). now exists (log ++ [Printed (line e)]), a.
Qed.

(** The events of a guarded computation that are not lines. *)
Lemma guarded_trace {A} (body : M A) (line : exn -> str) (a : A) :
  exists lines,
    trace (try_except body (fun e => print (line e) ;;; ret a))
    = trace body ++ lines
    /\ Forall (fun ev => exists l, ev = Printed l) lines.
Proof.
  unfold try_except. destruct body as [log [x|e]].
  - exists []. cbn. now rewrite app_nil_r.
  - rewrite print_then_ret. destruct (printable (line e)).
    + exists [Printed (line e)]. split; [reflexivity|].
      constructor; [now eexists | constructor].
    + exists []. split; [reflexivity | constructor].
Qed.

End Printing.

(* ------------------------------------------------------------------ *)
(** ** Units, text layer, hits *)

Section Units.
Context {U : Unicode}.

Lemma page_hit_iff (keyword text : str) :
  page_hit (normalize_text (PyStr keyword)) text = true <->
  strip text <> [] /\
  is_substring (normalize_text (PyStr keyword)) (normalize_text (PyStr text)).
Proof.
  unfold page_hit, nonblank.
  now rewrite andb_true_iff, truthy_iff, contains_iff.
Qed.

Lemma existsb_concat {T} (p : T -> bool) (ll : list (list T)) :
  existsb (existsb p) ll = existsb p (List.concat ll).
Proof.
  induction ll as [|l ll IH]; simpl; [reflexivity|].
  now rewrite existsb_app, IH.
Qed.

Lemma existsb_cells (p : str -> bool) (tbls : list (list (list str))) :
  existsb (fun table => existsb (fun row => existsb p row) table) tbls
  = existsb p (List.concat (List.concat tbls)).
Proof.
  induction tbls as [|t tbls IH]; simpl; [reflexivity|].
  rewrite List.concat_app, existsb_app, IH. f_equal. apply existsb_concat.
Qed.

Lemma readable_prefix_map_Ok (pages : list str) :
  readable_prefix (List.map Ok pages) = pages.
Proof. induction pages; cbn; congruence. Qed.

Lemma read_error_map_Ok (pages : list str) :
  read_error (List.map Ok pages) = None.
Proof. induction pages; cbn; congruence. Qed.

Lemma page_hit_nonblank (nk : str) (pages : list str) :
  existsb (page_hit nk) pages = true -> has_native_text_layer pages = true.
Proof.
  unfold has_native_text_layer. rewrite !existsb_exists.
  intros [text [Hin Hhit]]. exists text. split; [assumption|].
  unfold page_hit in Hhit. now apply andb_true_iff in Hhit.
Qed.

Lemma through_first_none {A} (stop : A -> bool) (l : list A) :
  existsb stop l = false -> through_first stop l = l.
Proof.
  induction l as [|x l IH]; cbn; [reflexivity|].
  intros H. apply orb_false_iff in H as [Hx Hl]. now rewrite Hx, IH.
Qed.

Lemma through_first_split {A} (stop : A -> bool) (before after : list A)
      (x : A) :
  existsb stop before = false -> stop x = true ->
  through_first stop (before ++ x :: after) = before ++ [x].
Proof.
  induction before as [|y before IH]; cbn; intros Hb Hx.
  - now rewrite Hx.
  - apply orb_false_iff in Hb as [Hy Hb]. now rewrite Hy, IH.
Qed.

End Units.

(* ------------------------------------------------------------------ *)
(** ** Folder-mode searches *)

Section FolderSearch.
Context {U : Unicode} {W : World}.

Lemma text_pass_eq (nk : str) (pages : list pdf_page) (h : bool) :
  text_pass nk pages h =
    if existsb (page_hit nk) (readable_prefix pages) then Ok (Return true)
    else match read_error pages with
         | Some e => Raise e
         | None =>
             Ok (Fallthrough
                   (h || has_native_text_layer (readable_prefix pages)))
         end.
Proof.
  revert h. induction pages as [|[text|e] rest IH]; intros h.
  - simpl. now rewrite orb_false_r.
  - cbn [text_pass existsb has_native_text_layer readable_prefix read_error].
    change (truthy (strip text)) with (nonblank text).
    unfold page_hit at 1.
    destruct (nonblank text); cbn [andb orb].
    + destruct (contains nk (normalize_text (PyStr text))); [reflexivity|].
      rewrite IH. cbn [orb]. destruct (existsb _ _); [reflexivity|].
      destruct (read_error rest); [reflexivity|]. now rewrite orb_true_r.
    + apply IH.
  - reflexivity.
Qed.

(* ---------------------------------------------------------------- *)
(** *** The image loop *)

Lemma ocr_pass_step (nk : str) (img : image) (rest : list image) :
  ocr_pass nk (img :: rest) =
    match image_to_string img with
    | Ok text =>
        if contains nk (normalize_text (PyStr text))
        then ([Recognize img], Ok (Return true))
        else after [Recognize img] (ocr_pass nk rest)
    | Raise e =>
        if printable (ocr_error_line e)
        then after [Recognize img; Printed (ocr_error_line e)]
                   (ocr_pass nk rest)
        else ([Recognize img], Raise encode_error)
    end.
Proof.
  cbn [ocr_pass]. destruct (image_to_string img) as [text|e].
  - unfold call, try_except, bind, ret, after.
    destruct (contains nk (normalize_text (PyStr text))); cbn; [reflexivity|].
    now destruct (ocr_pass nk rest).
  - unfold call. cbn [bind try_except].
    change (py "[OCR ERROR]: " ++ exn_msg e) with (ocr_error_line e).
    rewrite print_then_ret.
    destruct (printable (ocr_error_line e)); cbn; [|reflexivity].
    now destruct (ocr_pass nk rest).
Qed.

Lemma ocr_pass_outcome (nk : str) (images : list image) :
  outcome (ocr_pass nk images) =
    if hit_before_break nk images then Ok (Return true)
    else if existsb image_breaks images then Raise encode_error
         else Ok (Fallthrough tt).
Proof.
  induction images as [|img rest IH]; [reflexivity|].
  rewrite ocr_pass_step.
  cbn [hit_before_break existsb]. unfold image_hit, image_breaks.
  destruct (image_to_string img) as [text|e].
  - destruct (contains nk (normalize_text (PyStr text))); [reflexivity|].
    now rewrite outcome_after, IH.
  - destruct (printable (ocr_error_line e)); cbn [negb orb andb].
    + now rewrite outcome_after, IH.
    + reflexivity.
Qed.

Lemma recognized_app (l l' : list event) :
  recognized (l ++ l') = recognized l ++ recognized l'.
Proof. apply flat_map_app. Qed.

Lemma ocr_pass_recognized (nk : str) (images : list image) :
  recognized (trace (ocr_pass nk images)) = through_first (image_stops nk) images.
Proof.
  induction images as [|img rest IH]; [reflexivity|].
  rewrite ocr_pass_step.
  cbn [through_first]. unfold image_stops, image_hit, image_breaks.
  destruct (image_to_string img) as [text|e].
  - destruct (contains nk (normalize_text (PyStr text))); [reflexivity|].
    rewrite trace_after, recognized_app, IH. reflexivity.
  - destruct (printable (ocr_error_line e)); cbn [negb orb].
    + rewrite trace_after, recognized_app, IH. reflexivity.
    + reflexivity.
Qed.

(* ---------------------------------------------------------------- *)
(** *** [search_pdf_with_ocr] *)

Lemma search_pdf_with_ocr_missing (path nk : str) :
  truthy TESSERACT_CMD = false ->
  search_pdf_with_ocr path nk
  = ([Printed (py "[OCR ERROR] Tesseract not found")], Ok false).
Proof.
  intros H. unfold search_pdf_with_ocr. now rewrite H.
Qed.

Lemma search_pdf_with_ocr_rasterizes (path nk : str) :
  truthy TESSERACT_CMD = true ->
  exists rest, trace (search_pdf_with_ocr path nk) = Rasterize path :: rest.
Proof.
  intros H. unfold search_pdf_with_ocr. rewrite H. cbn [negb].
  apply trace_try_call.
Qed.

Lemma rasterize_called_search_pdf_with_ocr (path nk : str) :
  rasterize_called (trace (search_pdf_with_ocr path nk)) = truthy TESSERACT_CMD.
Proof.
  destruct (truthy TESSERACT_CMD) eqn:H.
  - destruct (search_pdf_with_ocr_rasterizes path nk H) as [rest ->].
    reflexivity.
  - now rewrite search_pdf_with_ocr_missing.
Qed.

(** With Tesseract found and the document rasterised, the answer is that
    of the image loop; a break is caught by the outer [except], whose
    line is ASCII. *)
Lemma search_pdf_with_ocr_converted (path nk : str) (images : list image) :
  truthy TESSERACT_CMD = true ->
  convert_from_path path = Ok images ->
  outcome (search_pdf_with_ocr path nk) = Ok (hit_before_break nk images)
  /\ recognized (trace (search_pdf_with_ocr path nk))
     = through_first (image_stops nk) images.
Proof.
  intros Htess Hconv. unfold search_pdf_with_ocr. rewrite Htess, Hconv.
  cbn [negb]. unfold call. cbn [bind].
  pose proof (ocr_pass_outcome nk images) as Hout.
  pose proof (ocr_pass_recognized nk images) as Hrec.
  destruct (ocr_pass nk images) as [log [[b|[]]|e]];
    unfold outcome, trace in Hout, Hrec; cbn [fst snd] in Hout, Hrec;
    cbn [bind try_except ret].
  - destruct (hit_before_break nk images);
      [|destruct (existsb _ _); discriminate].
    injection Hout as ->. cbn [outcome trace fst snd].
    rewrite app_nil_r. now split.
  - destruct (hit_before_break nk images); [discriminate|].
    cbn [outcome trace fst snd]. rewrite app_nil_r. now split.
  - destruct (hit_before_break nk images); [discriminate|].
    destruct (existsb image_breaks images); [|discriminate].
    injection Hout as ->.
    rewrite print_then_ret.
    replace (printable (py "[OCR PDF ERROR]: " ++ exn_msg encode_error))
      with true by reflexivity.
    cbn [outcome trace fst snd]. split; [reflexivity|].
    change (recognized (([Rasterize path] ++ log)
                          ++ [Printed (py "[OCR PDF ERROR]: "
                                         ++ exn_msg encode_error)])
            = through_first (image_stops nk) images).
    rewrite !recognized_app, Hrec. cbn. now rewrite app_nil_r.
Qed.

Lemma search_pdf_with_ocr_unconverted (path nk : str) (e : exn) :
  truthy TESSERACT_CMD = true ->
  convert_from_path path = Raise e ->
  search_pdf_with_ocr path nk
  = if printable (py "[OCR PDF ERROR]: " ++ exn_msg e)
    then ([Rasterize path; Printed (py "[OCR PDF ERROR]: " ++ exn_msg e)],
          Ok false)
    else ([Rasterize path], Raise encode_error).
Proof.
  intros Htess Hconv. unfold search_pdf_with_ocr. rewrite Htess, Hconv.
  cbn [negb]. unfold call. cbn [bind try_except]. rewrite print_then_ret.
  now destruct (printable _).
Qed.

Lemma search_pdf_with_ocr_answer (path nk : str) :
  outcome (search_pdf_with_ocr path nk) = Ok true <->
  truthy TESSERACT_CMD && ocr_match path nk = true.
Proof.
  unfold ocr_match. destruct (truthy TESSERACT_CMD) eqn:Htess.
  - destruct (convert_from_path path) as [images|e] eqn:Hconv.
    + destruct (search_pdf_with_ocr_converted path nk Htess Hconv) as [-> _].
      cbn. split; congruence.
    + rewrite (search_pdf_with_ocr_unconverted path nk Htess Hconv).
      destruct (printable _); cbn; split; discriminate.
  - rewrite (search_pdf_with_ocr_missing path nk Htess). cbn.
    split; discriminate.
Qed.

Lemma search_pdf_with_ocr_raises (path nk : str) (e : exn) :
  outcome (search_pdf_with_ocr path nk) = Raise e -> e = encode_error.
Proof.
  unfold search_pdf_with_ocr. destruct (negb (truthy TESSERACT_CMD)).
  - discriminate.
  - intros H.
    now apply (guarded_outcome _ (fun e => py "[OCR PDF ERROR]: " ++ exn_msg e))
      in H as [-> _].
Qed.

Lemma recognized_search_pdf_with_ocr (path nk : str) :
  recognized (trace (search_pdf_with_ocr path nk))
  = if truthy TESSERACT_CMD then
      match convert_from_path path with
      | Ok images => through_first (image_stops nk) images
      | Raise _ => []
      end
    else [].
Proof.
  destruct (truthy TESSERACT_CMD) eqn:Htess.
  - destruct (convert_from_path path) as [images|e] eqn:Hconv.
    + now destruct (search_pdf_with_ocr_converted path nk Htess Hconv).
    + rewrite (search_pdf_with_ocr_unconverted path nk Htess Hconv).
      now destruct (printable _).
  - now rewrite search_pdf_with_ocr_missing.
Qed.

(* ---------------------------------------------------------------- *)
(** *** [search_pdf_file] *)

(** What [search_pdf_file] does on a document PyMuPDF opens. *)
Lemma search_pdf_file_opened (path keyword : str) (flag : bool)
      (pages : list pdf_page) :
  fitz_open path = Ok pages ->
  let nk := normalize_text (PyStr keyword) in
  search_pdf_file path keyword flag =
    if existsb (page_hit nk) (readable_prefix pages) then ret true
    else match read_error pages with
         | Some e => print (pdf_error_line path e) ;;; ret false
         | None =>
             if negb (has_native_text_layer (readable_prefix pages))
                && negb flag
             then try_except
                    (search_pdf_with_ocr path nk)
                    (fun e => print (pdf_error_line path e) ;;; ret false)
             else ret false
         end.
Proof.
  intros Hopen nk. unfold search_pdf_file. fold nk.
  rewrite Hopen, try_bind_lift_ok, text_pass_eq. cbn [orb].
  destruct (existsb _ _); [now rewrite try_bind_lift_ok|].
  destruct (read_error pages) as [e|].
  - now rewrite try_bind_lift_raise.
  - rewrite try_bind_lift_ok.
    now destruct (negb (has_native_text_layer (readable_prefix pages))
                  && negb flag).
Qed.

Lemma search_pdf_file_unreadable (path keyword : str) (flag : bool) (e : exn) :
  fitz_open path = Raise e ->
  search_pdf_file path keyword flag
  = (print (pdf_error_line path e) ;;; ret false).
Proof.
  intros Hopen. unfold search_pdf_file.
  now rewrite Hopen, try_bind_lift_raise.
Qed.

(** On a document whose pages can all be read and which has a text
    layer, the search is silent. *)
Lemma search_pdf_file_native (path keyword : str) (flag : bool)
      (pages : list pdf_page) :
  fitz_open path = Ok pages ->
  read_error pages = None ->
  has_native_text_layer (readable_prefix pages) = true ->
  search_pdf_file path keyword flag
  = ([], Ok (existsb (page_hit (normalize_text (PyStr keyword)))
                     (readable_prefix pages))).
Proof.
  intros Hopen Hread Hlayer.
  rewrite (search_pdf_file_opened _ keyword flag Hopen), Hread, Hlayer.
  now destruct (existsb _ _).
Qed.

Lemma search_pdf_file_raises (path keyword : str) (flag : bool) (e : exn) :
  outcome (search_pdf_file path keyword flag) = Raise e -> e = encode_error.
Proof.
  unfold search_pdf_file. intros H.
  now apply (guarded_outcome _ (pdf_error_line path)) in H as [-> _].
Qed.

(** The answer of [search_pdf_file] on a document PyMuPDF opens. *)
Lemma search_pdf_file_answer (path keyword : str) (flag : bool)
      (pages : list pdf_page) :
  fitz_open path = Ok pages ->
  let nk := normalize_text (PyStr keyword) in
  outcome (search_pdf_file path keyword flag) = Ok true <->
  existsb (page_hit nk) (readable_prefix pages)
  || (all_read pages
      && negb (has_native_text_layer (readable_prefix pages))
      && negb flag && truthy TESSERACT_CMD && ocr_match path nk) = true.
Proof.
  intros Hopen nk. rewrite (search_pdf_file_opened _ keyword flag Hopen).
  fold nk. unfold all_read.
  destruct (existsb _ _); [cbn; tauto|]. cbn [orb].
  destruct (read_error pages) as [e|].
  - rewrite print_then_ret. destruct (printable _); cbn; split; discriminate.
  - cbn [andb].
    destruct (negb (has_native_text_layer (readable_prefix pages)));
      cbn [andb]; [|cbn; split; discriminate].
    destruct (negb flag); cbn [andb]; [|cbn; split; discriminate].
    rewrite <- search_pdf_with_ocr_answer.
    unfold try_except.
    destruct (search_pdf_with_ocr path nk) as [log [b|e]]; [reflexivity|].
    rewrite print_then_ret. destruct (printable _); cbn; split; discriminate.
Qed.

(* ---------------------------------------------------------------- *)
(** *** [search_docx_file] *)

(** What [search_docx_file] does on a document python-docx opens. *)
Lemma search_docx_file_opened (path keyword : str) (doc : docx_document) :
  docx_Document path = Ok doc ->
  search_docx_file path keyword
  = ([], Ok (existsb
               (fun text => contains (normalize_text (PyStr keyword))
                                     (normalize_text (PyStr text)))
               (docx_units doc))).
Proof.
  intros Hopen. unfold search_docx_file, docx_units.
  rewrite Hopen, try_bind_lift_ok, existsb_app.
  rewrite (existsb_cells
             (fun cell => contains (normalize_text (PyStr keyword))
                                   (normalize_text (PyStr cell)))).
  destruct (existsb _ (paragraphs doc)); [reflexivity|].
  now destruct (existsb _ (List.concat (List.concat (tables doc)))).
Qed.

Lemma search_docx_file_unreadable (path keyword : str) (e : exn) :
  docx_Document path = Raise e ->
  search_docx_file path keyword
  = (print (py "[DOCX ERROR] " ++ path ++ py ": " ++ exn_msg e) ;;; ret false).
Proof.
  intros Hopen. unfold search_docx_file.
  now rewrite Hopen, try_bind_lift_raise.
Qed.

Lemma search_docx_file_raises (path keyword : str) (e : exn) :
  outcome (search_docx_file path keyword) = Raise e -> e = encode_error.
Proof.
  unfold search_docx_file. intros H.
  now apply (guarded_outcome
               _ (fun e => py "[DOCX ERROR] " ++ path ++ py ": " ++ exn_msg e))
    in H as [-> _].
Qed.

End FolderSearch.

(* ------------------------------------------------------------------ *)
(** ** When a task raises *)

Section Totality.
Context {U : Unicode} {W : World}.

Lemma process_single_file_pdf (path keyword : str) (flag : bool)
      (log : list event) (found : bool) :
  endswith (lower path) (py ".pdf") = true ->
  search_pdf_file path keyword flag = (log, Ok found) ->
  process_single_file (path, keyword, flag) = (log, Ok (path, found)).
Proof.
  intros Hext Hsearch. unfold process_single_file.
  rewrite Hext, Hsearch. cbn. now rewrite app_nil_r.
Qed.

Lemma process_single_file_docx (path keyword : str) (flag : bool)
      (log : list event) (found : bool) :
  endswith (lower path) (py ".pdf") = false ->
  endswith (lower path) (py ".docx") = true ->
  search_docx_file path keyword = (log, Ok found) ->
  process_single_file (path, keyword, flag) = (log, Ok (path, found)).
Proof.
  intros Hpdf Hext Hsearch. unfold process_single_file.
  rewrite Hpdf, Hext, Hsearch. cbn. now rewrite app_nil_r.
Qed.

Lemma process_single_file_other (path keyword : str) (flag : bool) :
  endswith (lower path) (py ".pdf") = false ->
  endswith (lower path) (py ".docx") = false ->
  process_single_file (path, keyword, flag) = ([], Ok (path, false)).
Proof.
  intros Hpdf Hext. unfold process_single_file. now rewrite Hpdf, Hext.
Qed.

(** The body of the [try] of [process_single_file]. *)
Lemma task_body_outcome (m : M bool) (path : str) :
  match outcome (found <- m ;; ret (path, found)) with
  | Ok (p, b) => p = path /\ outcome m = Ok b
  | Raise e => outcome m = Raise e
  end.
Proof. destruct m as [log [b|e]]; cbn; auto. Qed.

(** A task hands back its own path with a boolean, or raises the
    encoding error of its own error line; the latter only when the path
    itself cannot be printed. *)
Lemma process_single_file_outcome (path keyword : str) (flag : bool) :
  match outcome (process_single_file (path, keyword, flag)) with
  | Ok (p, _) => p = path
  | Raise e => e = encode_error /\ printable path = false
  end.
Proof.
  unfold process_single_file.
  set (body := if endswith (lower path) (py ".pdf") then _ else _).
  assert (match outcome body with
          | Ok (p, _) => p = path
          | Raise e => e = encode_error
          end) as Hbody.
  { subst body. destruct (endswith (lower path) (py ".pdf")).
    - pose proof (task_body_outcome (search_pdf_file path keyword flag) path) as H.
      destruct (outcome (_ <- search_pdf_file path keyword flag ;; _))
        as [[p b]|e]; [tauto|].
      now apply search_pdf_file_raises in H.
    - destruct (endswith (lower path) (py ".docx")); [|reflexivity].
      pose proof (task_body_outcome (search_docx_file path keyword) path) as H.
      destruct (outcome (_ <- search_docx_file path keyword ;; _))
        as [[p b]|e]; [tauto|].
      now apply search_docx_file_raises in H. }
  clearbody body. destruct body as [log [[p b]|e]];
    unfold outcome in Hbody; cbn [snd] in Hbody; cbn [try_except].
  - exact Hbody.
  - subst e. rewrite print_then_ret.
    change (py "[ERROR] Processing " ++ path ++ py ": " ++ exn_msg encode_error)
      with (task_error_line path encode_error).
    destruct (printable (task_error_line path encode_error)) eqn:Hp;
      cbn [outcome snd].
    + reflexivity.
    + split; [reflexivity|].
      unfold task_error_line in Hp. rewrite !printable_app in Hp.
      destruct (printable path); [|reflexivity].
      exact Hp.
Qed.

Lemma process_single_file_returns (path keyword : str) (flag : bool) :
  printable path = true ->
  exists log found,
    process_single_file (path, keyword, flag) = (log, Ok (path, found)).
Proof.
  intros Hp. pose proof (process_single_file_outcome path keyword flag) as H.
  destruct (process_single_file (path, keyword, flag)) as [log [[p b]|e]];
    cbn in H.
  - subst p. now exists log, b.
  - destruct H as [_ H]. congruence.
Qed.

Lemma process_single_file_raises (path keyword : str) (flag : bool) (e : exn) :
  outcome (process_single_file (path, keyword, flag)) = Raise e ->
  e = encode_error /\ printable path = false.
Proof.
  intros H. pose proof (process_single_file_outcome path keyword flag) as Ho.
  now rewrite H in Ho.
Qed.

(** When a task raises, the line the collecting loop would print for it
    cannot be printed either. *)
Lemma raised_task_breaks (path keyword : str) (flag : bool) (e : exn) :
  outcome (process_single_file (path, keyword, flag)) = Raise e ->
  printable (future_error_line path e) = false.
Proof.
  intros H. apply process_single_file_raises in H as [-> Hp].
  unfold future_error_line. rewrite !printable_app, Hp.
  now rewrite andb_false_r.
Qed.

End Totality.

(* ------------------------------------------------------------------ *)
(** ** Single-file searches *)

Section SingleFile.
Context {U : Unicode} {W : World}.

Lemma pages_pass_eq (nk : str) (pages : list pdf_page) (n : nat)
      (acc : list nat) (h : bool) :
  pages_pass nk pages n acc h
  = (acc ++ hit_indices nk (readable_prefix pages) n,
     h || has_native_text_layer (readable_prefix pages),
     read_error pages).
Proof.
  revert n acc h. induction pages as [|[text|e] rest IH]; intros n acc h.
  - simpl. now rewrite app_nil_r, orb_false_r.
  - cbn [pages_pass hit_indices existsb has_native_text_layer
         readable_prefix read_error].
    change (truthy (strip text)) with (nonblank text).
    unfold page_hit at 1.
    destruct (nonblank text); cbn [andb orb].
    + destruct (contains nk (normalize_text (PyStr text))).
      * rewrite IH, <- app_assoc. cbn [orb]. now rewrite orb_true_r.
      * rewrite IH. cbn [orb]. now rewrite orb_true_r.
    + apply IH.
  - simpl. now rewrite app_nil_r, orb_false_r.
Qed.

Lemma hit_indices_without_layer (nk : str) (pages : list str) (n : nat) :
  has_native_text_layer pages = false -> hit_indices nk pages n = [].
Proof.
  revert n. induction pages as [|text rest IH]; intros n H; [reflexivity|].
  cbn [has_native_text_layer existsb] in H.
  apply orb_false_iff in H as [Hblank Hrest].
  cbn [hit_indices]. unfold page_hit. rewrite Hblank. cbn [andb].
  now apply IH.
Qed.

Lemma hit_indices_bounds (nk : str) (pages : list str) (n : nat) :
  Forall (fun i => n <= i) (hit_indices nk pages n).
Proof.
  revert n. induction pages as [|text rest IH]; intros n; cbn; [constructor|].
  assert (Forall (fun i => n <= i) (hit_indices nk rest (S n))) as Hrest.
  { eapply Forall_impl; [|apply IH]. cbn. intros; lia. }
  destruct (page_hit nk text); [constructor; [lia | exact Hrest] | exact Hrest].
Qed.

Lemma hit_indices_sorted (nk : str) (pages : list str) (n : nat) :
  StronglySorted lt (hit_indices nk pages n).
Proof.
  revert n. induction pages as [|text rest IH]; intros n; cbn; [constructor|].
  destruct (page_hit nk text); [|apply IH].
  constructor; [apply IH|].
  eapply Forall_impl; [|apply hit_indices_bounds]. cbn. intros; lia.
Qed.

Lemma hit_indices_In (nk : str) (pages : list str) (n i : nat) :
  In i (hit_indices nk pages n) <->
  exists text, n <= i /\ nth_error pages (i - n) = Some text
               /\ page_hit nk text = true.
Proof.
  revert n. induction pages as [|text rest IH]; intros n.
  - cbn. split; [tauto|]. intros [t [_ [H _]]]. now destruct (i - n).
  - assert (In i (hit_indices nk rest (S n)) <->
            exists t, S n <= i /\ nth_error (text :: rest) (i - n) = Some t
                      /\ page_hit nk t = true) as Htail.
    { rewrite IH. split; intros [t [Hle [Hnth Hhit]]]; exists t;
        (split; [exact Hle|]); (split; [|exact Hhit]).
      - replace (i - n) with (S (i - S n)) by lia. exact Hnth.
      - replace (i - n) with (S (i - S n)) in Hnth by lia. exact Hnth. }
    cbn [hit_indices]. destruct (page_hit nk text) eqn:Hhit.
    + cbn [In]. rewrite Htail. split.
      * intros [<- | [t [Hle H]]].
        -- exists text. rewrite Nat.sub_diag. cbn. auto.
        -- exists t. split; [lia | exact H].
      * intros [t [Hle [Hnth Ht]]].
        destruct (Nat.eq_dec n i) as [->|Hne]; [now left|].
        right. exists t. split; [lia | auto].
    + rewrite Htail. split.
      * intros [t [Hle H]]. exists t. split; [lia | exact H].
      * intros [t [Hle [Hnth Ht]]].
        destruct (Nat.eq_dec n i) as [->|Hne].
        -- rewrite Nat.sub_diag in Hnth. cbn in Hnth. congruence.
        -- exists t. split; [lia | auto].
Qed.


(** The [except] branch of [find_keyword_in_pdf_pages]. *)
Lemma single_file_error_eq (found : list nat) (e : exn) :
  single_file_error found e
  = if printable (single_file_error_line e)
    then ([Printed (single_file_error_line e)], Ok found)
    else ([], Raise encode_error).
Proof. unfold single_file_error. apply print_then_ret. Qed.

(* ---------------------------------------------------------------- *)
(** *** The image loop of single-file mode *)

Lemma ocr_pages_pass_step (nk : str) (img : image) (rest : list image)
      (i : nat) (found : list nat) :
  ocr_pages_pass nk (img :: rest) i found =
    match image_to_string img with
    | Ok text =>
        let (log', r) :=
          ocr_pages_pass nk rest (S i)
            (if contains nk (normalize_text (PyStr text))
             then found ++ [i] else found) in
        (Recognize img :: log', r)
    | Raise e =>
        if printable (ocr_error_line e)
        then let (log', r) := ocr_pages_pass nk rest (S i) found in
             (Recognize img :: Printed (ocr_error_line e) :: log', r)
        else ([Recognize img], (found, Some encode_error))
    end.
Proof.
  cbn [ocr_pages_pass]. destruct (image_to_string img) as [text|e].
  - unfold call, try_except, bind, ret.
    destruct (contains nk (normalize_text (PyStr text))); cbn;
      now destruct (ocr_pages_pass nk rest (S i) _).
  - unfold call. cbn [bind try_except].
    change (py "[OCR ERROR]: " ++ exn_msg e) with (ocr_error_line e).
    rewrite print_then_ret.
    destruct (printable (ocr_error_line e)); cbn; [|reflexivity].
    now destruct (ocr_pages_pass nk rest (S i) found).
Qed.

Lemma indices_where_through_break (nk : str) (img : image) (n : nat) :
  image_breaks img = true -> indices_where (image_hit nk) [img] n = [].
Proof.
  unfold image_breaks, image_hit. cbn.
  now destruct (image_to_string img).
Qed.

Lemma ocr_pages_pass_eq (nk : str) (images : list image) (i : nat)
      (found : list nat) :
  snd (ocr_pages_pass nk images i found)
  = (found ++ indices_where (image_hit nk)
                            (through_first image_breaks images) i,
     if existsb image_breaks images then Some encode_error else None)
  /\ recognized (fst (ocr_pages_pass nk images i found))
     = through_first image_breaks images.
Proof.
  revert i found. induction images as [|img rest IH]; intros i found.
  - cbn. now rewrite app_nil_r.
  - rewrite ocr_pages_pass_step.
    cbn [through_first existsb indices_where].
    destruct (image_to_string img) as [text|e] eqn:Him.
    + assert (image_breaks img = false) as Hb
          by (unfold image_breaks; now rewrite Him).
      assert (image_hit nk img = contains nk (normalize_text (PyStr text)))
        as Hh by (unfold image_hit; now rewrite Him).
      rewrite Hb, Hh. cbn [orb].
      specialize (IH (S i) (if contains nk (normalize_text (PyStr text))
                            then found ++ [i] else found)).
      destruct (ocr_pages_pass nk rest (S i) _) as [log' r].
      cbn [fst snd] in IH |- *. destruct IH as [-> IHr]. split.
      * destruct (contains nk (normalize_text (PyStr text)));
          [now rewrite <- app_assoc | reflexivity].
      * change (recognized (Recognize img :: log'))
          with (img :: recognized log').
        now rewrite IHr.
    + assert (image_hit nk img = false) as Hh
          by (unfold image_hit; now rewrite Him).
      assert (image_breaks img = negb (printable (ocr_error_line e))) as Hb
          by (unfold image_breaks; now rewrite Him).
      rewrite Hb, Hh.
      destruct (printable (ocr_error_line e)); cbn [negb orb].
      * specialize (IH (S i) found).
        destruct (ocr_pages_pass nk rest (S i) found) as [log' r].
        cbn [fst snd] in IH |- *. destruct IH as [-> IHr]. split.
        -- reflexivity.
        -- change (recognized (Recognize img :: Printed (ocr_error_line e)
                                         :: log'))
             with (img :: recognized log').
           now rewrite IHr.
      * cbn. now rewrite app_nil_r.
Qed.

Lemma indices_where_bounds {A} (p : A -> bool) (l : list A) (n : nat) :
  Forall (fun i => n <= i) (indices_where p l n).
Proof.
  revert n. induction l as [|x rest IH]; intros n; cbn; [constructor|].
  assert (Forall (fun i => n <= i) (indices_where p rest (S n))) as Hrest.
  { eapply Forall_impl; [|apply IH]. cbn. intros; lia. }
  destruct (p x); [constructor; [lia | exact Hrest] | exact Hrest].
Qed.

Lemma indices_where_sorted {A} (p : A -> bool) (l : list A) (n : nat) :
  StronglySorted lt (indices_where p l n).
Proof.
  revert n. induction l as [|x rest IH]; intros n; cbn; [constructor|].
  destruct (p x); [|apply IH].
  constructor; [apply IH|].
  eapply Forall_impl; [|apply indices_where_bounds]. cbn. intros; lia.
Qed.

Lemma indices_where_In {A} (p : A -> bool) (l : list A) (n i : nat) :
  In i (indices_where p l n) <->
  exists x, n <= i /\ nth_error l (i - n) = Some x /\ p x = true.
Proof.
  revert n. induction l as [|y rest IH]; intros n.
  - cbn. split; [tauto|]. intros [t [_ [H _]]]. now destruct (i - n).
  - assert (In i (indices_where p rest (S n)) <->
            exists t, S n <= i /\ nth_error (y :: rest) (i - n) = Some t
                      /\ p t = true) as Htail.
    { rewrite IH. split; intros [t [Hle [Hnth Hhit]]]; exists t;
        (split; [exact Hle|]); (split; [|exact Hhit]).
      - replace (i - n) with (S (i - S n)) by lia. exact Hnth.
      - replace (i - n) with (S (i - S n)) in Hnth by lia. exact Hnth. }
    cbn [indices_where]. destruct (p y) eqn:Hhit.
    + cbn [In]. rewrite Htail. split.
      * intros [<- | [t [Hle H]]].
        -- exists y. rewrite Nat.sub_diag. cbn. auto.
        -- exists t. split; [lia | exact H].
      * intros [t [Hle [Hnth Ht]]].
        destruct (Nat.eq_dec n i) as [->|Hne]; [now left|].
        right. exists t. split; [lia | auto].
    + rewrite Htail. split.
      * intros [t [Hle H]]. exists t. split; [lia | exact H].
      * intros [t [Hle [Hnth Ht]]].
        destruct (Nat.eq_dec n i) as [->|Hne].
        -- rewrite Nat.sub_diag in Hnth. cbn in Hnth. congruence.
        -- exists t. split; [lia | auto].
Qed.

(* ---------------------------------------------------------------- *)
(** *** [find_keyword_in_pdf_pages] *)

(** What [find_keyword_in_pdf_pages] does on a document PyMuPDF opens. *)
Lemma find_keyword_in_pdf_pages_opened (path keyword : str) (flag : bool)
      (pages : list pdf_page) :
  fitz_open path = Ok pages ->
  let nk := normalize_text (PyStr keyword) in
  let found_pages := hit_indices nk (readable_prefix pages) 0 in
  find_keyword_in_pdf_pages path keyword flag =
    match read_error pages with
    | Some e => single_file_error found_pages e
    | None =>
        if negb (has_native_text_layer (readable_prefix pages)) && negb flag
        then
          if negb (truthy TESSERACT_CMD) then
            ([Printed (py "[OCR SKIPPED] Tesseract not available")],
             Ok found_pages)
          else
            match convert_from_path path with
            | Raise e => after [Rasterize path] (single_file_error found_pages e)
            | Ok images =>
                match ocr_pages_pass nk images 0 found_pages with
                | (log', (found_pages', None)) =>
                    (Rasterize path :: log', Ok found_pages')
                | (log', (found_pages', Some e)) =>
                    after (Rasterize path :: log')
                          (single_file_error found_pages' e)
                end
            end
        else ([], Ok found_pages)
    end.
Proof.
  intros Hopen nk found_pages. unfold find_keyword_in_pdf_pages.
  rewrite Hopen. fold nk.
  rewrite pages_pass_eq. cbn [app orb]. fold found_pages.
  destruct (read_error pages) as [e|]; [reflexivity|].
  destruct (negb (has_native_text_layer (readable_prefix pages)) && negb flag);
    [|reflexivity].
  destruct (negb (truthy TESSERACT_CMD)); [reflexivity|].
  unfold call. destruct (convert_from_path path) as [images|e]; reflexivity.
Qed.

Lemma find_keyword_in_pdf_pages_unreadable (path keyword : str) (flag : bool)
      (e : exn) :
  fitz_open path = Raise e ->
  find_keyword_in_pdf_pages path keyword flag = single_file_error [] e.
Proof.
  intros Hopen. unfold find_keyword_in_pdf_pages. now rewrite Hopen.
Qed.

Lemma find_keyword_in_pdf_pages_native (path keyword : str) (flag : bool)
      (pages : list pdf_page) :
  fitz_open path = Ok pages ->
  read_error pages = None ->
  has_native_text_layer (readable_prefix pages) = true ->
  find_keyword_in_pdf_pages path keyword flag
  = ([], Ok (hit_indices (normalize_text (PyStr keyword))
                         (readable_prefix pages) 0)).
Proof.
  intros Hopen Hread Hlayer.
  rewrite (find_keyword_in_pdf_pages_opened _ keyword flag Hopen).
  now rewrite Hread, Hlayer.
Qed.

(** The paragraph scan reads [doc.paragraphs] and nothing else. *)
Lemma find_keyword_in_docx_paragraphs_opened (path keyword : str)
      (doc : docx_document) :
  docx_Document path = Ok doc ->
  find_keyword_in_docx_paragraphs path keyword
  = ([], Ok (paragraphs_pass (normalize_text (PyStr keyword))
                             (paragraphs doc) 0 [])).
Proof.
  intros Hopen. unfold find_keyword_in_docx_paragraphs.
  now rewrite Hopen, try_bind_lift_ok.
Qed.

Lemma find_keyword_in_docx_paragraphs_unreadable (path keyword : str)
      (e : exn) :
  docx_Document path = Raise e ->
  find_keyword_in_docx_paragraphs path keyword
  = (print (py "DOCX search error: " ++ exn_msg e) ;;; ret []).
Proof.
  intros Hopen. unfold find_keyword_in_docx_paragraphs.
  now rewrite Hopen, try_bind_lift_raise.
Qed.

(* ---------------------------------------------------------------- *)
(** *** [search_single_file] *)

Lemma search_single_file_pdf (path keyword : str) (flag : bool)
      (log : list event) (found : list nat) :
  endswith (lower path) (py ".pdf") = true ->
  find_keyword_in_pdf_pages path keyword flag = (log, Ok found) ->
  search_single_file path keyword flag
  = (log ++ page_items found ++ no_results_dialog found, Ok found).
Proof.
  intros Hext Hfind. unfold search_single_file, add_items.
  rewrite Hext, Hfind. fold (page_items found).
  destruct found as [|p found]; cbn; now rewrite ?app_nil_r.
Qed.

Lemma search_single_file_pdf_raises (path keyword : str) (flag : bool)
      (log : list event) (e : exn) :
  endswith (lower path) (py ".pdf") = true ->
  find_keyword_in_pdf_pages path keyword flag = (log, Raise e) ->
  search_single_file path keyword flag = (log, Raise e).
Proof.
  intros Hext Hfind. unfold search_single_file.
  now rewrite Hext, Hfind.
Qed.

End SingleFile.

(* ------------------------------------------------------------------ *)
(** ** Matching on documents with a native text layer *)

(** C1, as the code has it: on a PDF that opens and in which some page
    with non-blank text is read, [search_pdf_file] reports a match
    exactly when the normalised keyword is a substring of the normalised
    text of a page that is read before any page whose read fails and
    whose text is not blank after trimming; when every page can be read
    it neither prints nor raises; when a read fails and no earlier page
    matched, it prints one [PDF ERROR] line and answers [False] (or
    raises the encoding error of that line).  On a DOCX that opens,
    [search_docx_file] reports a match exactly when the normalised
    keyword is a substring of the normalised text of some paragraph or
    table cell, and neither prints nor raises. *)
Theorem native_text_match_iff_unit_contains :
  forall (U : Unicode) (W : World) (path keyword : str),
    (forall (flag : bool) (pages : list pdf_page),
        fitz_open path = Ok pages ->
        has_native_text_layer (readable_prefix pages) = true ->
        (outcome (search_pdf_file path keyword flag) = Ok true <->
         exists text,
           In text (readable_prefix pages) /\ strip text <> []
           /\ is_substring (normalize_text (PyStr keyword))
                           (normalize_text (PyStr text)))
        /\ (read_error pages = None ->
            exists found, search_pdf_file path keyword flag = ([], Ok found))
        /\ (forall e : exn,
               read_error pages = Some e ->
               search_pdf_file path keyword flag = ([], Ok true)
               \/ search_pdf_file path keyword flag
                  = if printable (pdf_error_line path e)
                    then ([Printed (pdf_error_line path e)], Ok false)
                    else ([], Raise encode_error)))
    /\ (forall doc : docx_document,
           docx_Document path = Ok doc ->
           exists found,
             search_docx_file path keyword = ([], Ok found)
             /\ (found = true <->
                 exists text,
                   In text (docx_units doc)
                   /\ is_substring (normalize_text (PyStr keyword))
                                   (normalize_text (PyStr text)))).
Proof.
  intros U W path keyword. split.
  - intros flag pages Hopen Hlayer.
    assert (existsb (page_hit (normalize_text (PyStr keyword)))
                    (readable_prefix pages) = true <->
            exists text,
              In text (readable_prefix pages) /\ strip text <> []
              /\ is_substring (normalize_text (PyStr keyword))
                              (normalize_text (PyStr text))) as Hhits.
    { rewrite existsb_exists. split.
      - intros [text [Hin Hhit]]. exists text.
        apply page_hit_iff in Hhit. tauto.
      - intros [text [Hin [Hstrip Hsub]]]. exists text.
        split; [assumption|]. now apply page_hit_iff. }
    split; [|split].
    + rewrite <- Hhits.
      rewrite (search_pdf_file_answer _ keyword flag Hopen), Hlayer.
      cbn [negb andb]. now rewrite andb_false_r, orb_false_r.
    + intros Hread. eexists.
      eapply search_pdf_file_native; eassumption.
    + intros e Hread.
      rewrite (search_pdf_file_opened _ keyword flag Hopen), Hread.
      destruct (existsb _ _); [now left|]. right. apply print_then_ret.
  - intros doc Hopen.
    eexists. split; [apply search_docx_file_opened; exact Hopen|].
    rewrite existsb_exists. split.
    + intros [text [Hin Hhit]]. exists text. now rewrite <- contains_iff.
    + intros [text [Hin Hsub]]. exists text. now rewrite contains_iff.
Qed.

(** The theorem at work on a five-page PDF, on a PDF whose fourth page
    cannot be read, and on a DOCX whose only hit is in a table cell. *)
Lemma native_text_match_witness :
  let U := Latin1.tables in
  let W := Scenario.installed in
  (outcome (search_pdf_file (py "docs/five.pdf") (py "TOTAL") false) = Ok true
   <-> exists text,
         In text [py "cover"; py "Total: 1"; py "notes"; py "sub-total"; py "end"]
         /\ strip text <> []
         /\ is_substring (normalize_text (PyStr (py "TOTAL")))
                         (normalize_text (PyStr text)))
  /\ (outcome (search_pdf_file (py "docs/torn.pdf") (py "after") false) = Ok true
      <-> exists text,
            In text [py "total one"; py "none"; py "grand total"]
            /\ strip text <> []
            /\ is_substring (normalize_text (PyStr (py "after")))
                            (normalize_text (PyStr text)))
  /\ (exists found,
         search_docx_file (py "docs/table.docx") (py "total") = ([], Ok found)
         /\ (found = true <->
             exists text,
               In text [py "hello"; py "Total"; py "500"]
               /\ is_substring (normalize_text (PyStr (py "total")))
                               (normalize_text (PyStr text)))).
Proof.
  cbv zeta. split; [|split].
  - apply (proj1 (native_text_match_iff_unit_contains
                    Latin1.tables Scenario.installed
                    (py "docs/five.pdf") (py "TOTAL"))
                 false
                 [Ok (py "cover"); Ok (py "Total: 1"); Ok (py "notes");
                  Ok (py "sub-total"); Ok (py "end")]
                 eq_refl eq_refl).
  - apply (proj1 (native_text_match_iff_unit_contains
                    Latin1.tables Scenario.installed
                    (py "docs/torn.pdf") (py "after"))
                 false
                 [Ok (py "total one"); Ok (py "none"); Ok (py "grand total");
                  Raise Scenario.page_error; Ok (py "total after")]
                 eq_refl eq_refl).
  - apply (proj2 (native_text_match_iff_unit_contains
                    Latin1.tables Scenario.installed
                    (py "docs/table.docx") (py "total"))
                 {| paragraphs := [py "hello"];
                    tables := [[[py "Total"; py "500"]]] |}); reflexivity.
Defined.

(** C1 fails on a PDF with a text layer and a blank page: the page loop
    tests only pages whose text is not blank, so a keyword whose normal
    form is a space (a space itself; or U+00B4, the acute accent, which
    NFKD turns into a space and a combining mark) is found on the blank
    second page by the claim's reading and not by the code. *)
Lemma blank_page_is_not_matched :
  let U := Latin1.tables in
  let W := Scenario.installed in
  fitz_open (py "docs/gap.pdf") = Ok [Ok (py "abc"); Ok (py " ")]
  /\ has_native_text_layer [py "abc"; py " "] = true
  /\ ~ page_match_claim (py "docs/gap.pdf") (py " ") [py "abc"; py " "]
  /\ ~ page_match_claim (py "docs/gap.pdf") [180%N] [py "abc"; py " "].
Proof.
  cbv zeta. split; [reflexivity|]. split; [reflexivity|].
  split; intros [_ H];
    (assert (outcome (search_pdf_file (U:=Latin1.tables) (W:=Scenario.installed)
                        (py "docs/gap.pdf") (py " ") false) = Ok false
             /\ outcome (search_pdf_file (U:=Latin1.tables) (W:=Scenario.installed)
                           (py "docs/gap.pdf") [180%N] false) = Ok false)
       as [E1 E2] by (split; vm_compute; reflexivity));
    [rewrite E1 in H | rewrite E2 in H];
    (enough (Ok false = Ok true :> result bool) by discriminate);
    apply H; exists (py " "); (split; [right; left; reflexivity|]);
    exists [], []; vm_compute; reflexivity.
Qed.

(* ------------------------------------------------------------------ *)
(** ** DOCX units in the two modes *)

(** C4 at a document whose only hit is in a table cell: folder mode
    ([search_docx_file]) reports the match, single-file mode
    ([find_keyword_in_docx_paragraphs]) returns no locator and the
    no-results dialog is shown. *)
Theorem table_cell_hit_lost_in_single_file_mode :
  let U := Latin1.tables in
  let W := Scenario.installed in
  docx_Document (py "docs/table.docx")
  = Ok {| paragraphs := [py "hello"]; tables := [[[py "Total"; py "500"]]] |}
  /\ search_docx_file (py "docs/table.docx") (py "total") = ([], Ok true)
  /\ find_keyword_in_docx_paragraphs (py "docs/table.docx") (py "total")
     = ([], Ok [])
  /\ search_single_file (py "docs/table.docx") (py "total") false
     = ([InfoBox brak_wynikow (brak_wynikow ++ py " w wybranym pliku")], Ok []).
Proof.
  cbv zeta. repeat split; vm_compute; reflexivity.
Qed.

(** Single-file DOCX search never looks at the tables: two documents
    with the same paragraphs get the same answer, whatever their tables
    hold. *)
Lemma single_file_docx_ignores_tables :
  forall (U : Unicode) (W : World) (path path' keyword : str)
         (doc doc' : docx_document),
    docx_Document path = Ok doc ->
    docx_Document path' = Ok doc' ->
    paragraphs doc = paragraphs doc' ->
    find_keyword_in_docx_paragraphs path keyword
    = find_keyword_in_docx_paragraphs path' keyword.
Proof.
  intros U W path path' keyword doc doc' Hopen Hopen' Hsame.
  rewrite (find_keyword_in_docx_paragraphs_opened _ keyword Hopen).
  rewrite (find_keyword_in_docx_paragraphs_opened _ keyword Hopen').
  now rewrite Hsame.
Qed.

(* ------------------------------------------------------------------ *)
(** ** When the optical fallback runs *)

Section Fallback.
Context {U : Unicode} {W : World}.

Lemma rasterize_called_app (l l' : list event) :
  rasterize_called (l ++ l') = rasterize_called l || rasterize_called l'.
Proof. apply existsb_app. Qed.

(** Printed lines are neither calls of the rasteriser nor of the
    recogniser. *)
Lemma lines_call_nothing (lines : list event) :
  Forall (fun ev => exists l, ev = Printed l) lines ->
  rasterize_called lines = false /\ recognized lines = [].
Proof.
  induction 1 as [|ev lines [l ->] _ [IH1 IH2]]; [now split|].
  split; [exact IH1 | exact IH2].
Qed.

Lemma print_then_ret_calls {A} (line : str) (a : A) :
  rasterize_called (trace (print line ;;; ret a)) = false
  /\ recognized (trace (print line ;;; ret a)) = [].
Proof. rewrite print_then_ret. now destruct (printable line). Qed.

Lemma single_file_error_calls (found : list nat) (e : exn) :
  rasterize_called (trace (single_file_error found e)) = false
  /\ recognized (trace (single_file_error found e)) = [].
Proof. apply print_then_ret_calls. Qed.


Lemma calls_of_search_pdf_file (path keyword : str) (flag : bool)
      (pages : list pdf_page) :
  fitz_open path = Ok pages ->
  let nk := normalize_text (PyStr keyword) in
  let runs := all_read pages
              && negb (has_native_text_layer (readable_prefix pages))
              && negb flag && truthy TESSERACT_CMD in
  rasterize_called (trace (search_pdf_file path keyword flag)) = runs
  /\ recognized (trace (search_pdf_file path keyword flag))
     = if runs then
         match convert_from_path path with
         | Ok images => through_first (image_stops nk) images
         | Raise _ => []
         end
       else [].
Proof.
  intros Hopen nk runs. subst runs.
  rewrite (search_pdf_file_opened _ keyword flag Hopen). fold nk.
  unfold all_read.
  destruct (existsb _ _) eqn:Hhit.
  - apply page_hit_nonblank in Hhit. rewrite Hhit.
    cbn [negb andb]. rewrite andb_false_r. now split.
  - destruct (read_error pages) as [e|]; [apply print_then_ret_calls|].
    cbn [andb].
    destruct (negb (has_native_text_layer (readable_prefix pages)));
      cbn [andb]; [|now split].
    destruct (negb flag); cbn [andb]; [|now split].
    destruct (guarded_trace (search_pdf_with_ocr path nk)
                            (pdf_error_line path) false)
      as [lines [-> Hlines]].
    apply lines_call_nothing in Hlines as [Hr Hc].
    rewrite rasterize_called_app, recognized_app, Hr, Hc.
    rewrite orb_false_r, app_nil_r.
    rewrite rasterize_called_search_pdf_with_ocr.
    rewrite recognized_search_pdf_with_ocr. now split.
Qed.

Lemma calls_of_find_keyword_in_pdf_pages (path keyword : str) (flag : bool)
      (pages : list pdf_page) :
  fitz_open path = Ok pages ->
  let runs := all_read pages
              && negb (has_native_text_layer (readable_prefix pages))
              && negb flag && truthy TESSERACT_CMD in
  rasterize_called (trace (find_keyword_in_pdf_pages path keyword flag)) = runs
  /\ recognized (trace (find_keyword_in_pdf_pages path keyword flag))
     = if runs then
         match convert_from_path path with
         | Ok images => through_first image_breaks images
         | Raise _ => []
         end
       else [].
Proof.
  intros Hopen runs. subst runs.
  rewrite (find_keyword_in_pdf_pages_opened _ keyword flag Hopen).
  unfold all_read.
  destruct (read_error pages) as [e|]; [apply single_file_error_calls|].
  cbn [andb].
  destruct (negb (has_native_text_layer (readable_prefix pages)));
    cbn [andb]; [|now split].
  destruct (negb flag); cbn [andb]; [|now split].
  destruct (truthy TESSERACT_CMD); cbn [negb]; [|now split].
  destruct (convert_from_path path) as [images|e].
  - pose proof (ocr_pages_pass_eq (normalize_text (PyStr keyword)) images 0
                  (hit_indices (normalize_text (PyStr keyword))
                               (readable_prefix pages) 0)) as [_ Hrec].
    destruct (ocr_pages_pass _ images 0 _) as [log' [found' [e|]]];
      cbn [fst] in Hrec.
    + rewrite trace_after.
      destruct (single_file_error_calls found' e) as [Hr Hc].
      split.
      * reflexivity.
      * change (recognized ((Rasterize path :: log')
                              ++ trace (single_file_error found' e))
                = through_first image_breaks images).
        rewrite recognized_app, Hc, app_nil_r. exact Hrec.
    + split; [reflexivity | exact Hrec].
  - rewrite trace_after.
    destruct (single_file_error_calls
                (hit_indices (normalize_text (PyStr keyword))
                             (readable_prefix pages) 0) e) as [Hr Hc].
    split; [reflexivity|].
    change (recognized
              ([Rasterize path]
                 ++ trace (single_file_error
                             (hit_indices (normalize_text (PyStr keyword))
                                          (readable_prefix pages) 0) e))
            = []).
    now rewrite recognized_app, Hc.
Qed.

Lemma calls_of_docx (path keyword : str) :
  (rasterize_called (trace (search_docx_file path keyword)) = false
   /\ recognized (trace (search_docx_file path keyword)) = [])
  /\ rasterize_called (trace (find_keyword_in_docx_paragraphs path keyword))
     = false
  /\ recognized (trace (find_keyword_in_docx_paragraphs path keyword)) = [].
Proof.
  destruct (docx_Document path) as [doc|e] eqn:Hopen.
  - rewrite (search_docx_file_opened _ keyword Hopen).
    rewrite (find_keyword_in_docx_paragraphs_opened _ keyword Hopen).
    now repeat split.
  - rewrite (search_docx_file_unreadable _ keyword Hopen).
    rewrite (find_keyword_in_docx_paragraphs_unreadable _ keyword Hopen).
    split; apply print_then_ret_calls.
Qed.

Lemma through_first_nonempty {A} (stop : A -> bool) (l : list A) :
  through_first stop l <> [] <-> exists x rest, l = x :: rest.
Proof.
  destruct l as [|x rest]; cbn.
  - split; [congruence|]. intros [x [rest H]]. discriminate.
  - split; [|discriminate]. intros _. now exists x, rest.
Qed.

Lemma recognition_needs_images {A} (runs : bool) (stop : A -> bool)
      (r : result (list A)) :
  (if runs then
     match r with
     | Ok images => through_first stop images
     | Raise _ => []
     end
   else []) <> [] <->
  runs = true /\ exists img rest, r = Ok (img :: rest).
Proof.
  destruct runs.
  - destruct r as [images|e].
    + rewrite through_first_nonempty. split.
      * intros [x [rest ->]]. split; [reflexivity|]. now exists x, rest.
      * intros [_ [x [rest H]]]. injection H as ->. now exists x, rest.
    + split; [congruence|]. intros [_ [x [rest H]]]. discriminate.
  - split; [congruence|]. intros [H _]. discriminate.
Qed.

End Fallback.

(** C5, as the code has it: on a PDF that opens, the rasteriser
    ([convert_from_path]) is called, in folder mode and in single-file
    mode alike, exactly when every page can be read, no page has
    non-blank text, the caller did not ask for native text only, and
    Tesseract was found at start-up; page images are handed to
    recognition exactly when, in addition, the rasteriser returns at
    least one image.  On a PDF that cannot be opened, and on a DOCX,
    neither is ever called. *)
Theorem ocr_runs_iff_no_text_layer_and_allowed_and_installed :
  forall (U : Unicode) (W : World) (path keyword : str) (flag : bool),
    (forall pages : list pdf_page,
        fitz_open path = Ok pages ->
        let runs := all_read pages
                    && negb (has_native_text_layer (readable_prefix pages))
                    && negb flag && truthy TESSERACT_CMD in
        rasterize_called (trace (search_pdf_file path keyword flag)) = runs
        /\ rasterize_called (trace (find_keyword_in_pdf_pages path keyword flag))
           = runs
        /\ (recognized (trace (search_pdf_file path keyword flag)) <> [] <->
            runs = true
            /\ exists img rest, convert_from_path path = Ok (img :: rest))
        /\ (recognized (trace (find_keyword_in_pdf_pages path keyword flag))
            <> [] <->
            runs = true
            /\ exists img rest, convert_from_path path = Ok (img :: rest)))
    /\ (forall e : exn,
           fitz_open path = Raise e ->
           rasterize_called (trace (search_pdf_file path keyword flag)) = false
           /\ recognized (trace (search_pdf_file path keyword flag)) = []
           /\ rasterize_called
                (trace (find_keyword_in_pdf_pages path keyword flag)) = false
           /\ recognized (trace (find_keyword_in_pdf_pages path keyword flag))
              = [])
    /\ rasterize_called (trace (search_docx_file path keyword)) = false
    /\ recognized (trace (search_docx_file path keyword)) = []
    /\ rasterize_called (trace (find_keyword_in_docx_paragraphs path keyword))
       = false
    /\ recognized (trace (find_keyword_in_docx_paragraphs path keyword)) = [].
Proof.
  intros U W path keyword flag. split; [|split].
  - intros pages Hopen runs.
    destruct (calls_of_search_pdf_file _ keyword flag Hopen) as [Hr1 Hc1].
    destruct (calls_of_find_keyword_in_pdf_pages _ keyword flag Hopen)
      as [Hr2 Hc2].
    fold runs in Hr1, Hc1, Hr2, Hc2.
    split; [exact Hr1|]. split; [exact Hr2|]. split.
    + rewrite Hc1. apply recognition_needs_images.
    + rewrite Hc2. apply recognition_needs_images.
  - intros e Hopen.
    rewrite (search_pdf_file_unreadable _ keyword flag Hopen).
    rewrite (find_keyword_in_pdf_pages_unreadable _ keyword flag Hopen).
    destruct (print_then_ret_calls (pdf_error_line path e) false) as [H1 H2].
    destruct (single_file_error_calls [] e) as [H3 H4].
    now repeat split.
  - pose proof (calls_of_docx path keyword) as [[H1 H2] [H3 H4]].
    now repeat split.
Qed.

(** The theorem at work: the scanned PDF of the scenario is rasterised
    when Tesseract is installed and the caller allows it, and its page
    image is recognised. *)
Lemma ocr_runs_witness :
  let U := Latin1.tables in
  let W := Scenario.installed in
  rasterize_called (trace (search_pdf_file (py "docs/b.pdf") (py "total") false))
  = true
  /\ rasterize_called
       (trace (find_keyword_in_pdf_pages (py "docs/b.pdf") (py "total") false))
     = true
  /\ (recognized (trace (search_pdf_file (py "docs/b.pdf") (py "total") false))
      <> [] <->
      true = true
      /\ exists img rest, convert_from_path (py "docs/b.pdf") = Ok (img :: rest))
  /\ (recognized
        (trace (find_keyword_in_pdf_pages (py "docs/b.pdf") (py "total") false))
      <> [] <->
      true = true
      /\ exists img rest, convert_from_path (py "docs/b.pdf") = Ok (img :: rest)).
Proof.
  cbv zeta.
  apply (proj1 (ocr_runs_iff_no_text_layer_and_allowed_and_installed
                  Latin1.tables Scenario.installed
                  (py "docs/b.pdf") (py "total") false)
               [Ok []] eq_refl).
Defined.

(** C5 fails on a PDF that cannot be opened (no page yields text, the
    fallback is allowed, and the task ends after one error line, without
    rasterising anything), and where Tesseract is missing (a scanned PDF,
    the fallback allowed, nothing rasterised). *)
Lemma fallback_needs_engine_and_readable_file :
  let U := Latin1.tables in
  (fitz_open (World := Scenario.installed) (py "docs/bad.pdf")
   = Raise Scenario.io_error
   /\ trace (search_pdf_file (W := Scenario.installed)
               (py "docs/bad.pdf") (py "total") false)
      = [Printed (py "[PDF ERROR] docs/bad.pdf: cannot open file")]
   /\ ~ fallback_claim (W := Scenario.installed)
          (py "docs/bad.pdf") (py "total") false [])
  /\ (fitz_open (World := Scenario.missing) (py "docs/b.pdf") = Ok [Ok []]
      /\ trace (search_pdf_file (W := Scenario.missing)
                  (py "docs/b.pdf") (py "total") false)
         = [Printed (py "[OCR ERROR] Tesseract not found")]
      /\ ~ fallback_claim (W := Scenario.missing)
             (py "docs/b.pdf") (py "total") false [[]]).
Proof.
  cbv zeta.
  split; (split; [reflexivity|]); (split; [reflexivity|]); intros [_ H];
    specialize (H (conj eq_refl eq_refl)); vm_compute in H; discriminate.
Qed.

(* ------------------------------------------------------------------ *)
(** ** A missing recognition engine *)

(** C6, as the code has it: when the fallback is required (the PDF opens,
    no page has non-blank text, native-text-only was not requested) and
    Tesseract was not found, the caller gets the no-match value -- [False]
    from [search_pdf_file] and from the task, the empty locator list and
    the no-results dialog in single-file mode -- and the only sign of the
    missing engine is one line printed on the console. *)
Theorem missing_engine_returns_no_match :
  forall (U : Unicode) (W : World) (path keyword : str) (pages : list str),
    fitz_open path = Ok (List.map Ok pages) ->
    has_native_text_layer pages = false ->
    truthy TESSERACT_CMD = false ->
    search_pdf_file path keyword false
    = ([Printed (py "[OCR ERROR] Tesseract not found")], Ok false)
    /\ find_keyword_in_pdf_pages path keyword false
       = ([Printed (py "[OCR SKIPPED] Tesseract not available")], Ok [])
    /\ (endswith (lower path) (py ".pdf") = true ->
        process_single_file (path, keyword, false)
        = ([Printed (py "[OCR ERROR] Tesseract not found")], Ok (path, false))
        /\ search_single_file path keyword false
           = ([Printed (py "[OCR SKIPPED] Tesseract not available");
               InfoBox brak_wynikow (brak_wynikow ++ py " w wybranym pliku")],
              Ok [])).
Proof.
  intros U W path keyword pages Hopen Hlayer Hcmd.
  assert (search_pdf_file path keyword false
          = ([Printed (py "[OCR ERROR] Tesseract not found")], Ok false)) as Hfolder.
  { rewrite (search_pdf_file_opened _ keyword false Hopen).
    rewrite readable_prefix_map_Ok, read_error_map_Ok, Hlayer.
    replace (existsb (page_hit (normalize_text (PyStr keyword))) pages)
      with false.
    - cbn [negb andb]. now rewrite search_pdf_with_ocr_missing.
    - symmetry. apply not_true_is_false. intros Hhit.
      apply page_hit_nonblank in Hhit. congruence. }
  assert (find_keyword_in_pdf_pages path keyword false
          = ([Printed (py "[OCR SKIPPED] Tesseract not available")], Ok []))
    as Hsingle.
  { rewrite (find_keyword_in_pdf_pages_opened _ keyword false Hopen).
    rewrite readable_prefix_map_Ok, read_error_map_Ok, Hlayer, Hcmd.
    cbn [negb andb].
    now rewrite hit_indices_without_layer. }
  split; [exact Hfolder|]. split; [exact Hsingle|].
  intros Hext. split.
  - now apply process_single_file_pdf.
  - unfold search_single_file. rewrite Hext, Hsingle. reflexivity.
Qed.

(** The theorem at work on the scanned PDF of the scenario, on a machine
    without Tesseract. *)
Lemma missing_engine_witness :
  let U := Latin1.tables in
  let W := Scenario.missing in
  search_pdf_file (py "docs/b.pdf") (py "total") false
  = ([Printed (py "[OCR ERROR] Tesseract not found")], Ok false)
  /\ find_keyword_in_pdf_pages (py "docs/b.pdf") (py "total") false
     = ([Printed (py "[OCR SKIPPED] Tesseract not available")], Ok [])
  /\ (endswith (lower (py "docs/b.pdf")) (py ".pdf") = true ->
      process_single_file (py "docs/b.pdf", py "total", false)
      = ([Printed (py "[OCR ERROR] Tesseract not found")],
         Ok (py "docs/b.pdf", false))
      /\ search_single_file (py "docs/b.pdf") (py "total") false
         = ([Printed (py "[OCR SKIPPED] Tesseract not available");
             InfoBox brak_wynikow (brak_wynikow ++ py " w wybranym pliku")],
            Ok [])).
Proof.
  cbv zeta.
  apply (missing_engine_returns_no_match
           Latin1.tables Scenario.missing
           (py "docs/b.pdf") (py "total") [[]]);
    reflexivity.
Defined.

(** C6 fails: without Tesseract the scanned PDF that reads "Total Due:
    500" and the text PDF that has no "total" in it give the caller the
    same outcome, in folder mode and in single-file mode; with Tesseract
    the scanned one is a match. *)
Lemma missing_engine_same_outcome_as_no_match :
  let U := Latin1.tables in
  fitz_open (World := Scenario.missing) (py "docs/b.pdf") = Ok [Ok []]
  /\ has_native_text_layer [[]] = false
  /\ truthy (TESSERACT_CMD (World := Scenario.missing)) = false
  /\ outcome (search_pdf_file (W := Scenario.missing)
             (py "docs/b.pdf") (py "total") false)
     = outcome (search_pdf_file (W := Scenario.missing)
                  (py "docs/a.pdf") (py "total") false)
  /\ outcome (find_keyword_in_pdf_pages (W := Scenario.missing)
                (py "docs/b.pdf") (py "total") false)
     = outcome (find_keyword_in_pdf_pages (W := Scenario.missing)
                  (py "docs/a.pdf") (py "total") false)
  /\ outcome (search_pdf_file (W := Scenario.installed)
                (py "docs/b.pdf") (py "total") false) = Ok true.
Proof.
  cbv zeta. repeat split; vm_compute; reflexivity.
Qed.

(* ------------------------------------------------------------------ *)
(** ** Single-file PDF search: the pages it lists *)

(** C8, as the code has it: on a PDF that opens and in which a page with
    non-blank text is read or a page read fails, single-file search finds
    the zero-based indices, in increasing order, of exactly the pages
    that are read before any page whose read fails, whose text is not
    blank after trimming and whose normalised text contains the
    normalised keyword.  When every page can be read it returns them and
    lists each as "Strona" followed by the index plus one (and shows the
    no-results dialog when there is none).  When a page read fails it
    prints one error line and does the same with the pages found before
    the failure; if that line cannot be printed, it raises the encoding
    error instead and lists nothing. *)
Theorem single_file_pdf_lists_every_nonblank_matching_page :
  forall (U : Unicode) (W : World) (path keyword : str) (flag : bool)
         (pages : list pdf_page),
    endswith (lower path) (py ".pdf") = true ->
    fitz_open path = Ok pages ->
    has_native_text_layer (readable_prefix pages) = true
    \/ read_error pages <> None ->
    exists found : list nat,
      StronglySorted lt found
      /\ (forall i : nat,
             In i found <->
             exists text,
               nth_error (readable_prefix pages) i = Some text
               /\ strip text <> []
               /\ is_substring (normalize_text (PyStr keyword))
                               (normalize_text (PyStr text)))
      /\ search_single_file path keyword flag
         = match read_error pages with
           | None => (page_items found ++ no_results_dialog found, Ok found)
           | Some e =>
               if printable (single_file_error_line e)
               then (Printed (single_file_error_line e)
                       :: page_items found ++ no_results_dialog found,
                     Ok found)
               else ([], Raise encode_error)
           end.
Proof.
  intros U W path keyword flag pages Hext Hopen Hcase.
  exists (hit_indices (normalize_text (PyStr keyword)) (readable_prefix pages) 0).
  split; [|split].
  - apply hit_indices_sorted.
  - intros i. rewrite hit_indices_In, Nat.sub_0_r. split.
    + intros [text [_ [Hnth Hhit]]]. exists text.
      apply page_hit_iff in Hhit. tauto.
    + intros [text [Hnth [Hstrip Hsub]]]. exists text.
      split; [lia|]. split; [assumption|]. now apply page_hit_iff.
  - pose proof (find_keyword_in_pdf_pages_opened _ keyword flag Hopen) as Hfind.
    cbv zeta in Hfind.
    destruct (read_error pages) as [e|] eqn:Hread.
    + rewrite single_file_error_eq in Hfind.
      destruct (printable (single_file_error_line e)).
      * now rewrite (search_single_file_pdf _ _ _ Hext Hfind).
      * now apply search_single_file_pdf_raises.
    + destruct Hcase as [Hlayer|Hne]; [|congruence].
      rewrite Hlayer in Hfind. cbn [negb andb] in Hfind.
      now rewrite (search_single_file_pdf _ _ _ Hext Hfind).
Qed.

(** The theorem at work on the five-page PDF of the specification: only
    the pages with zero-based indices 1 and 3 contain the keyword; the
    search returns [1; 3] and lists "Strona 2" and "Strona 4".  On the
    PDF whose fourth page cannot be read, the pages found before it are
    listed after the error line. *)
Lemma single_file_five_pages_witness :
  let U := Latin1.tables in
  let W := Scenario.installed in
  (exists found : list nat,
      StronglySorted lt found
      /\ (forall i : nat,
             In i found <->
             exists text,
               nth_error
                 [py "cover"; py "Total: 1"; py "notes"; py "sub-total"; py "end"]
                 i
               = Some text
               /\ strip text <> []
               /\ is_substring (normalize_text (PyStr (py "total")))
                               (normalize_text (PyStr text)))
      /\ search_single_file (py "docs/five.pdf") (py "total") false
         = (page_items found ++ no_results_dialog found, Ok found))
  /\ search_single_file (py "docs/five.pdf") (py "total") false
     = ([AddItem (py "Strona 2"); AddItem (py "Strona 4")], Ok [1; 3])
  /\ search_single_file (py "docs/torn.pdf") (py "total") false
     = ([Printed (py "Single-file PDF search error: cannot read page");
         AddItem (py "Strona 1"); AddItem (py "Strona 3")], Ok [0; 2]).
Proof.
  cbv zeta. split; [|split].
  - apply (single_file_pdf_lists_every_nonblank_matching_page
             Latin1.tables Scenario.installed
             (py "docs/five.pdf") (py "total") false
             (pages := [Ok (py "cover"); Ok (py "Total: 1"); Ok (py "notes");
                        Ok (py "sub-total"); Ok (py "end")])
             eq_refl eq_refl (or_introl eq_refl)).
  - reflexivity.
  - reflexivity.
Defined.

(** C8 fails on a PDF with a blank page: for the keyword U+00B4 (acute
    accent), whose normal form is a space, the normalised text of the page
    with zero-based index 1 contains the normalised keyword, and the
    search returns no page. *)
Lemma single_file_misses_blank_page :
  let U := Latin1.tables in
  let W := Scenario.installed in
  fitz_open (py "docs/gap.pdf") = Ok [Ok (py "abc"); Ok (py " ")]
  /\ normalize_text (PyStr [180%N]) = py " "
  /\ is_substring (normalize_text (PyStr [180%N]))
                  (normalize_text (PyStr (py " ")))
  /\ search_single_file (py "docs/gap.pdf") [180%N] false
     = ([InfoBox brak_wynikow (brak_wynikow ++ py " w wybranym pliku")], Ok [])
  /\ ~ (forall i : nat,
           In i [] <->
           exists text,
             nth_error [py "abc"; py " "] i = Some text
             /\ is_substring (normalize_text (PyStr [180%N]))
                             (normalize_text (PyStr text))).
Proof.
  cbv zeta.
  assert (is_substring (normalize_text (U := Latin1.tables) (PyStr [180%N]))
                       (normalize_text (U := Latin1.tables) (PyStr (py " "))))
    as Hsub by (exists [], []; reflexivity).
  repeat split; try reflexivity; try exact Hsub.
  intros H. apply (H 1). exists (py " "). split; [reflexivity | exact Hsub].
Qed.

(* ------------------------------------------------------------------ *)
(** ** The folder worker *)

Section Worker.
Context {U : Unicode} {W : World}.

Lemma outcome_partition (fs : list future) :
  List.length fs = matchedCount fs + unmatchedCount fs + raisedCount fs.
Proof.
  unfold matchedCount, unmatchedCount, raisedCount.
  induction fs as [|[path [[p [|]]|e]] fs IH];
    cbn [filter is_matched is_unmatched is_raised snd List.length]; lia.
Qed.

(** The three ways through the body of the collecting loop. *)
Lemma on_completed_ok (self : worker) (path p : str) (found : bool) :
  on_completed self (path, Ok (p, found))
  = ((if found then [SigFileProcessed p true] else [])
       ++ [SigProgress (processed self + 1) (total self)],
     {| folder := folder self; keyword := keyword self;
        search_only_text := search_only_text self;
        results := if found then results self ++ [p] else results self;
        total := total self; skipped := skipped self;
        processed := processed self + 1 |},
     None).
Proof. reflexivity. Qed.

Lemma on_completed_raise (self : worker) (path : str) (e : exn) :
  on_completed self (path, Raise e)
  = if printable (future_error_line path e)
    then ([Printed (future_error_line path e)],
          {| folder := folder self; keyword := keyword self;
             search_only_text := search_only_text self;
             results := results self; total := total self;
             skipped := skipped self + 1; processed := processed self + 1 |},
          None)
    else ([], self, Some encode_error).
Proof.
  unfold on_completed, print.
  now destruct (printable (future_error_line path e)).
Qed.

(** What the collecting loop leaves behind: the fields account for the
    futures before the first break, and the loop ends with the encoding
    error exactly when some future breaks. *)
Lemma collect_fields (completed : list future) (self : worker) :
  let '(log, self', failure) := collect completed self in
  results self' = results self
                  ++ List.map matched_path
                              (filter is_matched (collected completed))
  /\ skipped self' = skipped self + raisedCount (collected completed)
  /\ processed self' = processed self + List.length (collected completed)
  /\ total self' = total self
  /\ failure = (if existsb future_breaks completed
                then Some encode_error else None)
  /\ existsb is_finished log = false
  /\ announced log
     = List.map (fun f => (matched_path f, true))
                (filter is_matched (collected completed)).
Proof.
  revert self. induction completed as [|f rest IH]; intros self.
  - cbn. rewrite app_nil_r. unfold raisedCount. cbn. repeat split; lia.
  - cbn [collect collected existsb].
    destruct f as [path [[p found]|e]].
    + rewrite on_completed_ok.
      change (future_breaks (path, Ok (p, found))) with false. cbn [orb].
      match goal with
      | |- context [collect rest ?s] =>
          specialize (IH s); destruct (collect rest s) as [[log' self2] fl]
      end.
      destruct IH as [Hres [Hskip [Hproc [Htot [Hfail [Hquiet Hann]]]]]].
      unfold raisedCount in *.
      cbn [results skipped processed total] in Hres, Hskip, Hproc, Htot.
      rewrite Hres, Hskip, Hproc, Htot.
      destruct found;
        cbn [filter is_matched is_raised snd List.map matched_path List.length];
        rewrite ?existsb_app, ?Hquiet; unfold announced in *;
        rewrite ?flat_map_app, ?Hann; rewrite <- ?app_assoc;
        repeat split; cbn; try lia; try assumption; try reflexivity.
    + rewrite on_completed_raise.
      change (future_breaks (path, Raise e))
        with (negb (printable (future_error_line path e))).
      destruct (printable (future_error_line path e)); cbn [negb orb].
      * match goal with
        | |- context [collect rest ?s] =>
            specialize (IH s); destruct (collect rest s) as [[log' self2] fl]
        end.
        destruct IH as [Hres [Hskip [Hproc [Htot [Hfail [Hquiet Hann]]]]]].
        unfold raisedCount in *.
        cbn [results skipped processed total] in Hres, Hskip, Hproc, Htot.
        rewrite Hres, Hskip, Hproc, Htot.
        cbn [filter is_matched is_raised snd List.map matched_path List.length].
        repeat split; cbn; try lia; try assumption; try reflexivity.
      * cbn. rewrite app_nil_r. unfold raisedCount. cbn.
        repeat split; lia.
Qed.

(** The progress signals of the loop, when no future it gets through
    has raised. *)
Lemma collect_progress (completed : list future) (self : worker) :
  raisedCount (collected completed) = 0 ->
  progress_of (fst (fst (collect completed self)))
  = List.map (fun k => (k, total self))
             (seq (processed self + 1) (List.length (collected completed))).
Proof.
  revert self. induction completed as [|f rest IH]; intros self Hnone;
    [reflexivity|].
  cbn [collect collected] in Hnone |- *.
  destruct f as [path [[p found]|e]].
  - rewrite on_completed_ok.
    change (future_breaks (path, Ok (p, found))) with false in Hnone |- *.
    cbn iota in Hnone |- *.
    assert (raisedCount (collected rest) = 0) as Hrest by exact Hnone.
    match goal with
    | |- context [collect rest ?s] =>
        specialize (IH s Hrest); destruct (collect rest s) as [[log' self2] fl]
    end.
    cbn [fst total processed] in IH |- *.
    unfold progress_of in *. rewrite flat_map_app, IH.
    cbn [List.length seq List.map].
    replace (S (processed self + 1)) with (processed self + 1 + 1) by lia.
    now destruct found.
  - rewrite on_completed_raise.
    change (future_breaks (path, Raise e))
      with (negb (printable (future_error_line path e))) in Hnone |- *.
    destruct (printable (future_error_line path e)); cbn [negb] in Hnone |- *.
    + unfold raisedCount in Hnone. cbn in Hnone. discriminate.
    + reflexivity.
Qed.

Lemma collected_none (fs : list future) :
  existsb future_breaks fs = false -> collected fs = fs.
Proof.
  induction fs as [|f fs IH]; cbn; [reflexivity|].
  intros H. apply orb_false_iff in H as [Hf Hfs]. now rewrite Hf, IH.
Qed.

Lemma collected_shorter (fs : list future) :
  existsb future_breaks fs = true ->
  List.length (collected fs) < List.length fs.
Proof.
  induction fs as [|f fs IH]; cbn; [discriminate|].
  destruct (future_breaks f); cbn; [lia|].
  intros H. apply IH in H. lia.
Qed.

Lemma collected_incl (fs : list future) (f : future) :
  In f (collected fs) -> In f fs.
Proof.
  induction fs as [|g fs IH]; cbn; [tauto|].
  destruct (future_breaks g); cbn; [tauto|]. intros [H|H]; auto.
Qed.

(** When every future that raised breaks, none that the loop gets
    through has raised. *)
Lemma collected_none_raised (fs : list future) :
  Forall (fun f => is_raised f = true -> future_breaks f = true) fs ->
  raisedCount (collected fs) = 0.
Proof.
  unfold raisedCount.
  induction 1 as [|f fs Hf _ IH]; [reflexivity|].
  cbn [collected]. destruct (future_breaks f) eqn:Hb; [reflexivity|].
  cbn [filter]. destruct (is_raised f); [|exact IH].
  specialize (Hf eq_refl). congruence.
Qed.

Lemma filter_length_perm {T} (p : T -> bool) (l l' : list T) :
  Permutation l l' -> List.length (filter p l) = List.length (filter p l').
Proof.
  induction 1 as [|x l l' _ IH|x y l|l l' l'' _ IH1 _ IH2]; cbn.
  - reflexivity.
  - destruct (p x); cbn; now rewrite IH.
  - destruct (p x), (p y); reflexivity.
  - now rewrite IH1.
Qed.

Lemma filter_perm {T} (p : T -> bool) (l l' : list T) :
  Permutation l l' -> Permutation (filter p l) (filter p l').
Proof.
  induction 1 as [|x l l' _ IH|x y l|l l' l'' _ IH1 _ IH2]; cbn.
  - constructor.
  - destruct (p x); [now constructor | assumption].
  - destruct (p x), (p y); try reflexivity. apply perm_swap.
  - now transitivity (filter p l').
Qed.

Lemma existsb_perm {T} (p : T -> bool) (l l' : list T) :
  Permutation l l' -> existsb p l = existsb p l'.
Proof.
  induction 1 as [|x l l' _ IH|x y l|l l' l'' _ IH1 _ IH2]; cbn.
  - reflexivity.
  - now rewrite IH.
  - now destruct (p x), (p y).
  - now rewrite IH1.
Qed.

(** What the futures of a run are: each is the outcome of the task on
    its own path; one that returned hands back that path; one that raised
    breaks. *)
Lemma submit_all_In (self : worker) (files : list str) (f : future) :
  In f (submit_all self files) <->
  In (fst f) files
  /\ snd f = outcome (process_single_file
                        (fst f, keyword self, search_only_text self)).
Proof.
  unfold submit_all. rewrite in_map_iff. split.
  - intros [path [<- Hin]]. now split.
  - intros [Hin Hsnd]. exists (fst f). split; [|exact Hin].
    destruct f as [path r]. cbn [fst snd] in *. now rewrite Hsnd.
Qed.

Lemma submit_all_own_path (self : worker) (files : list str) :
  Forall (fun f : future =>
            match snd f with
            | Ok (p, _) => p = fst f
            | Raise _ => future_breaks f = true
            end)
         (submit_all self files).
Proof.
  apply Forall_forall. intros [path r] Hin.
  apply submit_all_In in Hin as [_ Hr]. cbn [fst snd] in *.
  pose proof (process_single_file_outcome
                path (keyword self) (search_only_text self)) as Ho.
  rewrite <- Hr in Ho. destruct r as [[p b]|e]; [exact Ho|].
  unfold future_breaks. cbn [fst snd].
  erewrite raised_task_breaks; [reflexivity | symmetry; exact Hr].
Qed.

Lemma submit_all_raise_breaks (self : worker) (files : list str) :
  Forall (fun f => is_raised f = true -> future_breaks f = true)
         (submit_all self files).
Proof.
  eapply Forall_impl; [|apply submit_all_own_path].
  intros [path [[p b]|e]]; cbn; [discriminate | auto].
Qed.

Lemma run_total (self : worker) :
  total (snd (run self)) = List.length (collect_files (folder self)).
Proof.
  unfold run. cbn [total].
  destruct (Nat.eqb _ 0); [reflexivity|].
  match goal with
  | |- context [collect ?c ?s] =>
      pose proof (collect_fields c s) as Hfields;
      destruct (collect c s) as [[log self1] [e|]]
  end; cbn [snd]; now destruct Hfields as [_ [_ [_ [-> _]]]].
Qed.

(** The shape of a run: the signals of the loop, then either [finished]
    carrying the worker's final fields, or the exception that left the
    loop. *)
Lemma run_shape (dir kw : str) (flag : bool) :
  (forall fs : list future, Permutation (as_completed fs) fs) ->
  let self0 := new_worker dir kw flag in
  let files := collect_files dir in
  let completed := as_completed (submit_all self0 files) in
  let done := collected completed in
  exists log,
    existsb is_finished log = false
    /\ fst (run self0)
       = log ++ [if existsb future_breaks completed
                 then Uncaught encode_error
                 else SigFinished (results (snd (run self0)))
                                  (total (snd (run self0)))
                                  (skipped (snd (run self0)))]
    /\ total (snd (run self0)) = List.length files
    /\ results (snd (run self0)) = List.map matched_path (filter is_matched done)
    /\ skipped (snd (run self0)) = raisedCount done
    /\ processed (snd (run self0)) = List.length done
    /\ announced log
       = List.map (fun f => (matched_path f, true)) (filter is_matched done)
    /\ progress_of log
       = List.map (fun k => (k, List.length files))
                  (seq 1 (List.length done)).
Proof.
  intros Hperm self0 files completed done.
  assert (raisedCount done = 0) as Hnone.
  { apply collected_none_raised.
    eapply Permutation_Forall; [symmetry; apply Hperm|].
    apply submit_all_raise_breaks. }
  pose proof (run_total self0) as Htotal.
  subst done completed files self0.
  unfold run in *. cbn [folder new_worker total] in *.
  destruct (collect_files dir) as [|file files'] eqn:Hfiles.
  - cbn [List.length Nat.eqb snd fst submit_all List.map].
    assert (as_completed (@nil (str * result (str * bool))) = []) as Hnil
        by (apply Permutation_nil; symmetry; apply Hperm).
    clear Hnone Htotal. rewrite Hnil.
    exists []. cbn. repeat split; reflexivity.
  - cbn [List.length Nat.eqb] in *.
    match goal with
    | |- context [collect ?c ?s] =>
        pose proof (collect_fields c s) as Hfields;
        pose proof (collect_progress c s Hnone) as Hprog;
        destruct (collect c s) as [[log self1] fl]
    end.
    cbn [fst snd] in *.
    destruct Hfields as [Hres [Hskip [Hproc [Htot [Hfail [Hquiet Hann]]]]]].
    cbn [results skipped processed total] in Hres, Hskip, Hproc, Htot, Hprog.
    exists log. split; [exact Hquiet|].
    destruct (existsb future_breaks _); subst fl; cbn [fst snd];
      repeat split; assumption.
Qed.

Lemma finished_is_last (log : list event) (last ev : event) :
  existsb is_finished log = false ->
  is_finished ev = true ->
  In ev (log ++ [last]) -> ev = last.
Proof.
  intros Hquiet Hev Hin. apply in_app_or in Hin as [Hin | [<- | []]].
  - assert (existsb is_finished log = true) as Hyes
        by (apply existsb_exists; now exists ev).
    congruence.
  - reflexivity.
Qed.

(** A run finalises exactly when no future breaks. *)
Lemma run_finalised (dir kw : str) (flag : bool) :
  (forall fs : list future, Permutation (as_completed fs) fs) ->
  let self0 := new_worker dir kw flag in
  finalised (fst (run self0)) <->
  existsb future_breaks (submit_all self0 (collect_files dir)) = false.
Proof.
  intros Hperm self0.
  destruct (run_shape dir kw flag Hperm) as [log [Hquiet [Hlog _]]].
  fold self0 in Hlog.
  rewrite (existsb_perm future_breaks (Hperm _)) in Hlog.
  rewrite Hlog. unfold finalised.
  destruct (existsb future_breaks _); split.
  - intros [res [tot [skp Hin]]].
    apply finished_is_last in Hin; [discriminate | exact Hquiet | reflexivity].
  - discriminate.
  - reflexivity.
  - intros _. eexists _, _, _. apply in_or_app. right. now left.
Qed.

End Worker.

(** C9: the collecting loop counts every future it gets through exactly
    once -- as a match, as "not found" or as skipped -- and a folder run
    finalises exactly when no future breaks the loop.  When a run
    finalises, in whatever order the tasks complete, [finished] is its
    last signal and its only one, and the total it carries is the number
    of enumerated candidates and equals the number of matched paths plus
    the number of tasks that answered "not found" plus the skipped
    count. *)
Theorem total_is_matched_plus_unmatched_plus_skipped :
  forall (U : Unicode) (W : World),
    (forall fs : list future, Permutation (as_completed fs) fs) ->
    (forall (completed : list future) (self self' : worker)
            (log : list event),
        collect completed self = (log, self', None) ->
        List.length (results self')
        = List.length (results self) + matchedCount completed
        /\ skipped self' = skipped self + raisedCount completed
        /\ processed self' = processed self + List.length completed
        /\ List.length completed
           = matchedCount completed + unmatchedCount completed
             + raisedCount completed)
    /\ forall (dir kw : str) (flag : bool),
        let self0 := new_worker dir kw flag in
        let futures := submit_all self0 (collect_files dir) in
        (finalised (fst (run self0)) <->
         existsb future_breaks futures = false)
        /\ forall (res : list str) (tot skp : nat),
            In (SigFinished res tot skp) (fst (run self0)) ->
            (exists log,
                fst (run self0) = log ++ [SigFinished res tot skp]
                /\ existsb is_finished log = false)
            /\ tot = List.length (collect_files dir)
            /\ tot = List.length res + unmatchedCount futures + skp
            /\ List.length res = matchedCount futures
            /\ skp = raisedCount futures
            /\ Permutation res
                           (List.map matched_path (filter is_matched futures))
            /\ processed (snd (run self0)) = tot.
Proof.
  intros U W Hperm. split.
  - intros completed self self' log Hcollect.
    pose proof (collect_fields completed self) as Hfields.
    rewrite Hcollect in Hfields.
    destruct Hfields as [Hres [Hskip [Hproc [_ [Hfail _]]]]].
    assert (collected completed = completed) as Hall.
    { apply collected_none.
      destruct (existsb future_breaks completed); [discriminate | reflexivity]. }
    rewrite Hall in Hres, Hskip, Hproc.
    rewrite Hres, length_app, length_map.
    repeat split; try assumption. apply outcome_partition.
  - intros dir kw flag self0 futures.
    split; [now apply run_finalised|].
    intros res tot skp Hin.
    destruct (run_shape dir kw flag Hperm)
      as [log [Hquiet [Hlog [Htot [Hres [Hskip [Hproc _]]]]]]].
    fold self0 futures in Hlog, Htot, Hres, Hskip, Hproc.
    rewrite Hlog in Hin.
    apply finished_is_last in Hin; [|exact Hquiet|reflexivity].
    destruct (existsb future_breaks (as_completed futures)) eqn:Hbreak;
      [discriminate|].
    injection Hin as Hr Ht Hs.
    rewrite (collected_none _ Hbreak) in Hres, Hskip, Hproc.
    pose proof (Hperm futures) as Hp.
    assert (List.length futures = List.length (collect_files dir)) as Hlen
        by apply length_map.
    assert (List.length res = matchedCount futures) as Hmatched.
    { rewrite Hr, Hres, length_map. unfold matchedCount.
      now apply filter_length_perm. }
    assert (skp = raisedCount futures) as Hraised.
    { rewrite Hs, Hskip. unfold raisedCount. now apply filter_length_perm. }
    split; [|split; [|split; [|split; [|split; [|split]]]]].
    + exists log. split; [|exact Hquiet]. rewrite Hlog. congruence.
    + congruence.
    + rewrite Hmatched, Hraised, Ht, Htot, <- Hlen.
      rewrite (outcome_partition futures). lia.
    + exact Hmatched.
    + exact Hraised.
    + rewrite Hr, Hres. apply Permutation_map. now apply filter_perm.
    + rewrite Hproc, Ht, Htot, <- Hlen. now apply Permutation_length.
Qed.

(** The theorem at work on the three-file folder of the specification,
    with the futures completing in reverse order. *)
Lemma total_partition_witness :
  let U := Latin1.tables in
  let W := Scenario.reversed in
  let self0 := new_worker (py "spec") (py "total") false in
  let futures := submit_all self0 (collect_files (py "spec")) in
  (finalised (fst (run self0)) <-> existsb future_breaks futures = false)
  /\ forall (res : list str) (tot skp : nat),
      In (SigFinished res tot skp) (fst (run self0)) ->
      (exists log,
          fst (run self0) = log ++ [SigFinished res tot skp]
          /\ existsb is_finished log = false)
      /\ tot = List.length (collect_files (py "spec"))
      /\ tot = List.length res + unmatchedCount futures + skp
      /\ List.length res = matchedCount futures
      /\ skp = raisedCount futures
      /\ Permutation res (List.map matched_path (filter is_matched futures))
      /\ processed (snd (run self0)) = tot.
Proof.
  cbv zeta.
  apply (proj2 (total_is_matched_plus_unmatched_plus_skipped
                  Latin1.tables Scenario.reversed
                  (fun fs => Permutation_sym (Permutation_rev fs)))
               (py "spec") (py "total") false).
Defined.

(** The scenario of the specification: [a.pdf] has text without the
    keyword, [b.pdf] is a scan reading "Total Due: 500", [c.docx] has the
    paragraph "TOTAL".  With the fallback allowed the run reports
    [b.pdf] and [c.docx] of 3 candidates, none skipped; with native text
    only, [c.docx] alone. *)
Example three_file_scenario :
  let U := Latin1.tables in
  let W := Scenario.installed in
  fst (run (new_worker (py "spec") (py "total") false))
  = [SigProgress 1 3;
     SigFileProcessed (py "docs/b.pdf") true; SigProgress 2 3;
     SigFileProcessed (py "docs/c.docx") true; SigProgress 3 3;
     SigFinished [py "docs/b.pdf"; py "docs/c.docx"] 3 0]
  /\ fst (run (new_worker (py "spec") (py "total") true))
     = [SigProgress 1 3; SigProgress 2 3;
        SigFileProcessed (py "docs/c.docx") true; SigProgress 3 3;
        SigFinished [py "docs/c.docx"] 3 0].
Proof.
  cbv zeta. split; vm_compute; reflexivity.
Qed.

(** The [except] branch of the collecting loop at work, on futures made
    by hand: one that raised with a line the console can print is
    counted as skipped and the loop goes on; one whose line the console
    cannot print ends the loop before anything is counted. *)
Example collecting_loop_except_branch :
  let U := Latin1.tables in
  (let W := Scenario.installed in
   collect [(py "x.pdf", Raise Scenario.io_error);
            (py "y.pdf", Ok (py "y.pdf", true))]
           (new_worker (py "dir") (py "total") false)
   = ([Printed (py "[FUTURE ERROR] x.pdf: cannot open file");
       SigFileProcessed (py "y.pdf") true; SigProgress 2 0],
      {| folder := py "dir"; keyword := py "total"; search_only_text := false;
         results := [py "y.pdf"]; total := 0; skipped := 1; processed := 2 |},
      None))
  /\ (let W := Scenario.plain_console in
      collect [(Scenario.zolw_pdf, Raise Scenario.io_error);
               (py "y.pdf", Ok (py "y.pdf", true))]
              (new_worker (py "dir") (py "total") false)
      = ([], new_worker (py "dir") (py "total") false, Some encode_error)).
Proof.
  cbv zeta. split; vm_compute; reflexivity.
Qed.

(** A run that does not finalise: on a console that writes ASCII only,
    the unreadable file whose name has a letter outside ASCII makes its
    task raise from its own [except] branch; the collecting loop's
    [print] raises in turn and [run] ends after the first file, without
    [finished]. *)
Example run_aborted_by_unprintable_path :
  let U := Latin1.tables in
  let W := Scenario.plain_console in
  collect_files (py "names")
  = [py "docs/c.docx"; py "docs/" ++ Scenario.zolw_pdf; py "docs/a.pdf"]
  /\ process_single_file (py "docs/" ++ Scenario.zolw_pdf, py "total", false)
     = ([], Raise encode_error)
  /\ run (new_worker (py "names") (py "total") false)
     = ([SigFileProcessed (py "docs/c.docx") true; SigProgress 1 3;
         Uncaught encode_error],
        {| folder := py "names"; keyword := py "total";
           search_only_text := false;
           results := [py "docs/c.docx"]; total := 3; skipped := 0;
           processed := 1 |}).
Proof.
  cbv zeta. repeat split; vm_compute; reflexivity.
Qed.

(* ------------------------------------------------------------------ *)
(** ** An unreadable file in a folder run *)

(** X1: no run counts a file as skipped.  A task turns every failure
    below it into "not found"; it raises only when its own error line
    cannot be printed, which needs a path the console cannot write; the
    line of the collecting loop's [except] branch holds the same path,
    so its [print] raises before [skipped] is touched and the run ends
    there, without [finished]. *)
Theorem run_skips_nothing :
  forall (U : Unicode) (W : World),
    (forall fs : list future, Permutation (as_completed fs) fs) ->
    forall (dir kw : str) (flag : bool),
      let self0 := new_worker dir kw flag in
      skipped (snd (run self0)) = 0
      /\ (forall (res : list str) (tot skp : nat),
             In (SigFinished res tot skp) (fst (run self0)) -> skp = 0)
      /\ (forall (path : str) (e : exn),
             In path (collect_files dir) ->
             outcome (process_single_file (path, kw, flag)) = Raise e ->
             e = encode_error
             /\ printable path = false
             /\ ~ finalised (fst (run self0))
             /\ exists log, fst (run self0) = log ++ [Uncaught encode_error]).
Proof.
  intros U W Hperm dir kw flag self0.
  destruct (run_shape dir kw flag Hperm)
    as [log [Hquiet [Hlog [_ [_ [Hskip _]]]]]].
  fold self0 in Hlog, Hskip.
  assert (skipped (snd (run self0)) = 0) as Hzero.
  { rewrite Hskip. apply collected_none_raised.
    eapply Permutation_Forall; [symmetry; apply Hperm|].
    apply submit_all_raise_breaks. }
  split; [exact Hzero|]. split.
  - intros res tot skp Hin. rewrite Hlog in Hin.
    apply finished_is_last in Hin; [|exact Hquiet|reflexivity].
    destruct (existsb future_breaks _); [discriminate|].
    injection Hin as _ _ Hs. congruence.
  - intros path e Hin Hraise.
    destruct (process_single_file_raises _ _ _ Hraise) as [-> Hp].
    split; [reflexivity|]. split; [exact Hp|].
    assert (existsb future_breaks
                    (submit_all self0 (collect_files dir)) = true) as Hbreak.
    { apply existsb_exists. exists (path, Raise encode_error). split.
      - apply submit_all_In. cbn [fst snd]. split; [exact Hin|].
        now symmetry.
      - unfold future_breaks. cbn [fst snd].
        now erewrite raised_task_breaks by exact Hraise. }
    split.
    + intros Hfin. apply (proj1 (run_finalised dir kw flag Hperm)) in Hfin.
      fold self0 in Hfin. congruence.
    + rewrite (existsb_perm future_breaks (Hperm _)), Hbreak in Hlog.
      now exists log.
Qed.

(** The theorem at work on the folder with the unreadable file, futures
    completing in reverse order. *)
Lemma run_skips_nothing_witness :
  let U := Latin1.tables in
  let W := Scenario.reversed in
  let self0 := new_worker (py "broken") (py "total") false in
  skipped (snd (run self0)) = 0
  /\ (forall (res : list str) (tot skp : nat),
         In (SigFinished res tot skp) (fst (run self0)) -> skp = 0)
  /\ (forall (path : str) (e : exn),
         In path (collect_files (py "broken")) ->
         outcome (process_single_file (path, py "total", false)) = Raise e ->
         e = encode_error
         /\ printable path = false
         /\ ~ finalised (fst (run self0))
         /\ exists log, fst (run self0) = log ++ [Uncaught encode_error]).
Proof.
  cbv zeta.
  apply (run_skips_nothing Latin1.tables Scenario.reversed
           (fun fs => Permutation_sym (Permutation_rev fs))).
Defined.

(** C2 at a folder of three candidates of which [bad.pdf] cannot be
    opened: the run goes through all three and finishes with total 3 and
    [c.docx] as its one match, but with skipped count 0 -- the unreadable
    file has been counted as "not found". *)
Theorem unreadable_file_is_counted_as_unmatched :
  let U := Latin1.tables in
  let W := Scenario.installed in
  collect_files (py "broken")
  = [py "docs/a.pdf"; py "docs/bad.pdf"; py "docs/c.docx"]
  /\ fitz_open (py "docs/bad.pdf") = Raise Scenario.io_error
  /\ process_single_file (py "docs/bad.pdf", py "total", false)
     = ([Printed (py "[PDF ERROR] docs/bad.pdf: cannot open file")],
        Ok (py "docs/bad.pdf", false))
  /\ fst (run (new_worker (py "broken") (py "total") false))
     = [SigProgress 1 3; SigProgress 2 3;
        SigFileProcessed (py "docs/c.docx") true; SigProgress 3 3;
        SigFinished [py "docs/c.docx"] 3 0]
  /\ skipped (snd (run (new_worker (py "broken") (py "total") false))) = 0
  /\ processed (snd (run (new_worker (py "broken") (py "total") false))) = 3.
Proof.
  cbv zeta. repeat split; vm_compute; reflexivity.
Qed.

(* ------------------------------------------------------------------ *)
(** ** Enumeration *)

Section Enumeration.
Context {U : Unicode} {W : World}.

Lemma is_candidate_iff (name : str) :
  is_candidate name = true <->
  is_suffix (py ".pdf") (lower name) \/ is_suffix (py ".docx") (lower name).
Proof.
  unfold is_candidate, endswith_any. cbn [existsb].
  rewrite orb_false_r, orb_true_iff, !endswith_iff. reflexivity.
Qed.

Lemma collect_files_In (dir path : str) :
  In path (collect_files dir) <->
  exists root files name,
    In (root, files) (os_walk dir) /\ In name files
    /\ is_candidate name = true /\ path = path_join root name.
Proof.
  unfold collect_files. rewrite in_flat_map. split.
  - intros [[root files] [Hwalk Hin]].
    apply in_map_iff in Hin as [name [<- Hname]].
    apply filter_In in Hname as [Hname Hcand].
    now exists root, files, name.
  - intros [root [files [name [Hwalk [Hname [Hcand ->]]]]]].
    exists (root, files). split; [assumption|].
    apply in_map_iff. exists name. split; [reflexivity|].
    now apply filter_In.
Qed.

Lemma collect_files_length (dir : str) :
  List.length (collect_files dir)
  = list_sum (List.map (fun entry => List.length (filter is_candidate (snd entry)))
                       (os_walk dir)).
Proof.
  unfold collect_files.
  induction (os_walk dir) as [|[root files] rest IH]; [reflexivity|].
  cbn [flat_map List.map list_sum snd].
  now rewrite length_app, length_map, IH.
Qed.

End Enumeration.

(** C10: a file name passes the enumeration test exactly when its
    lower-cased form ends in ".pdf" or ".docx"; the candidates are the
    joined paths of exactly the walked files whose names pass it, each
    listed once per walked entry; and the total of a run is their number.
    "A.PDF" and "b.DocX" pass, "notes.txt" and a file called "pdf" do
    not. *)
Theorem candidates_are_files_with_supported_extension :
  forall (U : Unicode) (W : World) (dir kw : str) (flag : bool),
    (forall name : str,
        is_candidate name = true <->
        is_suffix (py ".pdf") (lower name)
        \/ is_suffix (py ".docx") (lower name))
    /\ (forall path : str,
           In path (collect_files dir) <->
           exists root files name,
             In (root, files) (os_walk dir) /\ In name files
             /\ (is_suffix (py ".pdf") (lower name)
                 \/ is_suffix (py ".docx") (lower name))
             /\ path = path_join root name)
    /\ total (snd (run (new_worker dir kw flag)))
       = list_sum
           (List.map (fun entry => List.length (filter is_candidate (snd entry)))
                     (os_walk dir))
    /\ List.map (is_candidate (U := Latin1.tables))
                [py "A.PDF"; py "b.DocX"; py "notes.txt"; py "pdf"]
       = [true; true; false; false]
    /\ collect_files (U := Latin1.tables) (W := Scenario.installed) (py "mixed")
       = [py "docs/A.PDF"; py "docs/b.DocX"].
Proof.
  intros U W dir kw flag. split; [|split; [|split; [|split]]].
  - apply is_candidate_iff.
  - intros path. rewrite collect_files_In.
    split; intros [root [files [name [Hwalk [Hname [Hcand Hpath]]]]]];
      exists root, files, name; repeat split; try assumption;
      now apply is_candidate_iff.
  - rewrite run_total. apply collect_files_length.
  - reflexivity.
  - reflexivity.
Qed.

(* ------------------------------------------------------------------ *)
(** ** The optical fallback, page image by page image *)

Section OcrFacts.
Context {U : Unicode} {W : World}.

Lemma image_hit_iff (nk : str) (img : image) :
  image_hit nk img = true <->
  exists text,
    image_to_string img = Ok text
    /\ is_substring nk (normalize_text (PyStr text)).
Proof.
  unfold image_hit. destruct (image_to_string img) as [text|e].
  - rewrite contains_iff. split.
    + intros Hsub. now exists text.
    + intros [text' [Heq Hsub]]. now injection Heq as ->.
  - split; [discriminate | intros [text [Heq _]]; discriminate].
Qed.

Lemma hit_before_break_iff (nk : str) (images : list image) :
  hit_before_break nk images = true <->
  exists before img after,
    images = before ++ img :: after
    /\ existsb image_breaks before = false
    /\ image_hit nk img = true.
Proof.
  induction images as [|x rest IH]; cbn [hit_before_break].
  - split; [discriminate|].
    intros [before [img [after [H _]]]]. now destruct before.
  - rewrite orb_true_iff, andb_true_iff, negb_true_iff, IH. split.
    + intros [Hhit | [Hb [before [img [after [-> [Hnone Hhit]]]]]]].
      * now exists [], x, rest.
      * exists (x :: before), img, after. cbn. now rewrite Hb.
    + intros [[|b before] [img [after [Heq [Hnone Hhit]]]]];
        cbn in Heq; injection Heq as -> ->.
      * now left.
      * cbn in Hnone. apply orb_false_iff in Hnone as [Hb Hnone].
        right. split; [exact Hb|]. now exists before, img, after.
Qed.

Lemma hit_before_break_none (nk : str) (images : list image) :
  existsb image_breaks images = false ->
  hit_before_break nk images = existsb (image_hit nk) images.
Proof.
  induction images as [|x rest IH]; cbn; [reflexivity|].
  intros H. apply orb_false_iff in H as [-> Hrest]. cbn. now rewrite IH.
Qed.

End OcrFacts.

(** X2: with Tesseract found and the document rasterised, the OCR search
    always answers, and answers True exactly when recognition succeeds on
    some page image whose normalised text contains the normalised
    keyword and no image before it breaks the loop (recognition raising
    with an error line the console cannot print).  Where no image breaks
    the loop, that is: exactly when recognition succeeds on some page
    image and the text read there contains the keyword; an image on
    which recognition raises counts as not containing it and does not
    end the search. *)
Theorem ocr_search_finds_iff_some_image_contains :
  forall (U : Unicode) (W : World) (path nk : str) (images : list image),
    truthy TESSERACT_CMD = true ->
    convert_from_path path = Ok images ->
    exists found : bool,
      outcome (search_pdf_with_ocr path nk) = Ok found
      /\ (found = true <->
          exists before img after text,
            images = before ++ img :: after
            /\ existsb image_breaks before = false
            /\ image_to_string img = Ok text
            /\ is_substring nk (normalize_text (PyStr text)))
      /\ (existsb image_breaks images = false ->
          (found = true <->
           exists img text,
             In img images
             /\ image_to_string img = Ok text
             /\ is_substring nk (normalize_text (PyStr text)))).
Proof.
  intros U W path nk images Hcmd Hconv.
  exists (hit_before_break nk images). split; [|split].
  - now destruct (search_pdf_with_ocr_converted path nk Hcmd Hconv).
  - rewrite hit_before_break_iff. split.
    + intros [before [img [after [Heq [Hnone Hhit]]]]].
      apply image_hit_iff in Hhit as [text [Ht Hsub]].
      now exists before, img, after, text.
    + intros [before [img [after [text [Heq [Hnone [Ht Hsub]]]]]]].
      exists before, img, after. split; [exact Heq|]. split; [exact Hnone|].
      apply image_hit_iff. now exists text.
  - intros Hnone. rewrite (hit_before_break_none nk images Hnone).
    rewrite existsb_exists. split.
    + intros [img [Hin Hhit]]. apply image_hit_iff in Hhit as [text Ht].
      now exists img, text.
    + intros [img [text [Hin Ht]]]. exists img. split; [exact Hin|].
      apply image_hit_iff. now exists text.
Qed.

(** The theorem at work on the scanned PDF of three page images, of
    which the second and the third read the keyword. *)
Lemma ocr_search_witness :
  let U := Latin1.tables in
  let W := Scenario.installed in
  exists found : bool,
    outcome (search_pdf_with_ocr (py "docs/scan3.pdf") (py "total")) = Ok found
    /\ (found = true <->
        exists before img after text,
          [1; 2; 3] = before ++ img :: after
          /\ existsb image_breaks before = false
          /\ image_to_string img = Ok text
          /\ is_substring (py "total") (normalize_text (PyStr text)))
    /\ (existsb image_breaks [1; 2; 3] = false ->
        (found = true <->
         exists img text,
           In img [1; 2; 3]
           /\ image_to_string img = Ok text
           /\ is_substring (py "total") (normalize_text (PyStr text)))).
Proof.
  cbv zeta.
  apply (ocr_search_finds_iff_some_image_contains
           Latin1.tables Scenario.installed (py "docs/scan3.pdf") (py "total"));
    reflexivity.
Defined.

(** X3: the OCR search hands the page images to pytesseract in order and
    stops at the first one that ends its loop -- one that contains the
    keyword, or one on which recognition raises with an error line the
    console cannot print: when there is none, every image is recognised;
    otherwise exactly the images up to and including that one are, and
    the ones after it never. *)
Theorem ocr_search_stops_at_first_hit :
  forall (U : Unicode) (W : World) (path nk : str) (images : list image),
    truthy TESSERACT_CMD = true ->
    convert_from_path path = Ok images ->
    (existsb (image_stops nk) images = false ->
     recognized (trace (search_pdf_with_ocr path nk)) = images)
    /\ (forall (before after : list image) (img : image),
           images = before ++ img :: after ->
           existsb (image_stops nk) before = false ->
           image_stops nk img = true ->
           recognized (trace (search_pdf_with_ocr path nk)) = before ++ [img]).
Proof.
  intros U W path nk images Hcmd Hconv.
  destruct (search_pdf_with_ocr_converted path nk Hcmd Hconv) as [_ Hrec].
  rewrite Hrec. split.
  - apply through_first_none.
  - intros before after img -> Hnone Hhit.
    now apply through_first_split.
Qed.

(** The theorem at work on the scanned PDF of three page images: the
    first does not read the keyword, the second does, and the third,
    which reads it too, is never recognised. *)
Lemma ocr_search_stops_witness :
  let U := Latin1.tables in
  let W := Scenario.installed in
  convert_from_path (py "docs/scan3.pdf") = Ok [1; 2; 3]
  /\ image_hit (py "total") 1 = false
  /\ image_hit (py "total") 2 = true
  /\ image_hit (py "total") 3 = true
  /\ recognized (trace (search_pdf_with_ocr (py "docs/scan3.pdf") (py "total")))
     = [1; 2].
Proof.
  cbv zeta. repeat (split; [reflexivity|]).
  apply (proj2 (ocr_search_stops_at_first_hit
                  Latin1.tables Scenario.installed
                  (py "docs/scan3.pdf") (py "total") (images := [1; 2; 3])
                  eq_refl eq_refl)
               [1] [3] 2 eq_refl eq_refl eq_refl).
Defined.

(** X4: the answer of a PDF task on a document that opens, in full: True
    exactly when a non-blank page that is read before any page whose read
    fails contains the keyword, or when every page can be read, none has
    non-blank text, native-text-only was not requested, Tesseract was
    found, rasterisation succeeds and a page image contains the keyword
    before any image breaks the image loop.  In every other case the
    answer is False, or the task raises the encoding error of the error
    line it could not print. *)
Theorem pdf_task_answer :
  forall (U : Unicode) (W : World) (path keyword : str) (flag : bool)
         (pages : list pdf_page),
    fitz_open path = Ok pages ->
    let nk := normalize_text (PyStr keyword) in
    (outcome (search_pdf_file path keyword flag) = Ok true <->
     existsb (page_hit nk) (readable_prefix pages)
     || (all_read pages
         && negb (has_native_text_layer (readable_prefix pages))
         && negb flag && truthy TESSERACT_CMD && ocr_match path nk) = true)
    /\ (outcome (search_pdf_file path keyword flag) = Ok true
        \/ outcome (search_pdf_file path keyword flag) = Ok false
        \/ outcome (search_pdf_file path keyword flag) = Raise encode_error).
Proof.
  intros U W path keyword flag pages Hopen nk. split.
  - now apply search_pdf_file_answer.
  - pose proof (@search_pdf_file_raises U W path keyword flag) as Hraise.
    destruct (outcome (search_pdf_file path keyword flag)) as [[|]|e];
      [now left | now right; left |].
    right; right. now rewrite (Hraise e eq_refl).
Qed.

(** The theorem at work on the scanned PDF of the scenario and on the
    PDF whose fourth page cannot be read. *)
Lemma pdf_task_answer_witness :
  let U := Latin1.tables in
  let W := Scenario.installed in
  (outcome (search_pdf_file (py "docs/b.pdf") (py "total") false) = Ok true
   <-> existsb (page_hit (normalize_text (PyStr (py "total")))) [[]]
       || (true && negb (has_native_text_layer [[]]) && negb false
           && truthy TESSERACT_CMD
           && ocr_match (py "docs/b.pdf") (normalize_text (PyStr (py "total"))))
       = true)
  /\ (outcome (search_pdf_file (py "docs/torn.pdf") (py "after") false) = Ok true
      <-> existsb (page_hit (normalize_text (PyStr (py "after"))))
                  [py "total one"; py "none"; py "grand total"]
          || (false
              && negb (has_native_text_layer
                         [py "total one"; py "none"; py "grand total"])
              && negb false && truthy TESSERACT_CMD
              && ocr_match (py "docs/torn.pdf")
                           (normalize_text (PyStr (py "after"))))
          = true)
  /\ outcome (search_pdf_file (py "docs/torn.pdf") (py "after") false) = Ok false.
Proof.
  cbv zeta. split; [|split].
  - apply (proj1 (pdf_task_answer Latin1.tables Scenario.installed
                    (py "docs/b.pdf") (py "total") false
                    (pages := [Ok []]) eq_refl)).
  - apply (proj1 (pdf_task_answer Latin1.tables Scenario.installed
                    (py "docs/torn.pdf") (py "after") false
                    (pages := [Ok (py "total one"); Ok (py "none");
                               Ok (py "grand total");
                               Raise Scenario.page_error;
                               Ok (py "total after")]) eq_refl)).
  - reflexivity.
Defined.

(* ------------------------------------------------------------------ *)
(** ** Single-file mode: scanned PDFs and DOCX paragraphs *)

Section SingleFileMore.
Context {U : Unicode} {W : World}.

Lemma hit_indices_eq (nk : str) (pages : list str) (n : nat) :
  hit_indices nk pages n = indices_where (page_hit nk) pages n.
Proof.
  revert n. induction pages as [|text rest IH]; intros n; [reflexivity|].
  cbn. now rewrite !IH.
Qed.

Lemma indices_where_nil_iff {A} (p : A -> bool) (l : list A) (n : nat) :
  indices_where p l n = [] <-> existsb p l = false.
Proof.
  revert n. induction l as [|x rest IH]; intros n; cbn; [tauto|].
  destruct (p x); cbn; [split; discriminate | apply IH].
Qed.

Lemma paragraphs_pass_eq (nk : str) (paras : list str) (i : nat)
      (acc : list nat) :
  paragraphs_pass nk paras i acc
  = acc ++ indices_where
             (fun para => contains nk (normalize_text (PyStr para))) paras i.
Proof.
  revert i acc. induction paras as [|para rest IH]; intros i acc.
  - cbn. now rewrite app_nil_r.
  - cbn [paragraphs_pass indices_where].
    destruct (contains nk (normalize_text (PyStr para))).
    + now rewrite IH, <- app_assoc.
    + apply IH.
Qed.

Lemma search_single_file_docx (path keyword : str) (flag : bool)
      (log : list event) (found : list nat) :
  endswith (lower path) (py ".pdf") = false ->
  endswith (lower path) (py ".docx") = true ->
  find_keyword_in_docx_paragraphs path keyword = (log, Ok found) ->
  search_single_file path keyword flag
  = (log ++ paragraph_items found ++ no_results_dialog found, Ok found).
Proof.
  intros Hpdf Hext Hfind. unfold search_single_file, add_items.
  rewrite Hpdf, Hext, Hfind. fold (paragraph_items found).
  destruct found as [|p found]; cbn; now rewrite ?app_nil_r.
Qed.

(** [find_keyword_in_pdf_pages] on a scanned document, with the fallback
    allowed, Tesseract found and the document rasterised: a break of the
    image loop is caught by the outer [except], whose line is ASCII. *)
Lemma find_keyword_in_pdf_pages_scanned (path keyword : str)
      (pages : list str) (images : list image) :
  fitz_open path = Ok (List.map Ok pages) ->
  has_native_text_layer pages = false ->
  truthy TESSERACT_CMD = true ->
  convert_from_path path = Ok images ->
  outcome (find_keyword_in_pdf_pages path keyword false)
  = Ok (indices_where (image_hit (normalize_text (PyStr keyword)))
                      (through_first image_breaks images) 0)
  /\ recognized (trace (find_keyword_in_pdf_pages path keyword false))
     = through_first image_breaks images.
Proof.
  intros Hopen Hlayer Hcmd Hconv.
  destruct (calls_of_find_keyword_in_pdf_pages _ keyword false Hopen)
    as [_ Hrec].
  unfold all_read in Hrec.
  rewrite readable_prefix_map_Ok, read_error_map_Ok, Hlayer, Hcmd, Hconv
    in Hrec.
  split; [|exact Hrec].
  rewrite (find_keyword_in_pdf_pages_opened _ keyword false Hopen).
  rewrite readable_prefix_map_Ok, read_error_map_Ok, Hlayer, Hcmd, Hconv.
  cbn [negb andb].
  rewrite hit_indices_without_layer by exact Hlayer.
  destruct (ocr_pages_pass_eq (normalize_text (PyStr keyword)) images 0 [])
    as [Hout _].
  destruct (ocr_pages_pass (normalize_text (PyStr keyword)) images 0 [])
    as [log [found failure]].
  cbn [snd app] in Hout. injection Hout as -> ->.
  destruct (existsb image_breaks images); [|reflexivity].
  rewrite outcome_after, single_file_error_eq.
  replace (printable (single_file_error_line encode_error)) with true
    by reflexivity.
  reflexivity.
Qed.

End SingleFileMore.

(** X5: single-file search on a scanned PDF (every page read, no text
    layer, fallback allowed, Tesseract found, rasterisation succeeds)
    hands the page images to pytesseract in order, without stopping at a
    hit, up to and including the first on which recognition raises with
    an error line the console cannot print -- every image when there is
    none such -- and returns, in increasing order, the zero-based
    positions of exactly those among them on which recognition succeeds
    and whose normalised text contains the normalised keyword. *)
Theorem single_file_scanned_pdf_lists_every_matching_image :
  forall (U : Unicode) (W : World) (path keyword : str)
         (pages : list str) (images : list image),
    fitz_open path = Ok (List.map Ok pages) ->
    has_native_text_layer pages = false ->
    truthy TESSERACT_CMD = true ->
    convert_from_path path = Ok images ->
    exists found : list nat,
      outcome (find_keyword_in_pdf_pages path keyword false) = Ok found
      /\ recognized (trace (find_keyword_in_pdf_pages path keyword false))
         = through_first image_breaks images
      /\ (existsb image_breaks images = false ->
          through_first image_breaks images = images)
      /\ StronglySorted lt found
      /\ forall i : nat,
          In i found <->
          exists img text,
            nth_error (through_first image_breaks images) i = Some img
            /\ image_to_string img = Ok text
            /\ is_substring (normalize_text (PyStr keyword))
                            (normalize_text (PyStr text)).
Proof.
  intros U W path keyword pages images Hopen Hlayer Hcmd Hconv.
  destruct (@find_keyword_in_pdf_pages_scanned U W path keyword pages images
              Hopen Hlayer Hcmd Hconv) as [Hout Hrec].
  eexists. split; [exact Hout|]. split; [exact Hrec|].
  split; [apply through_first_none|].
  split; [apply indices_where_sorted|].
  intros i. rewrite indices_where_In, Nat.sub_0_r. split.
  - intros [img [_ [Hnth Hhit]]]. apply image_hit_iff in Hhit as [text Ht].
    now exists img, text.
  - intros [img [text [Hnth Ht]]]. exists img.
    split; [lia|]. split; [exact Hnth|]. apply image_hit_iff. now exists text.
Qed.

(** The theorem at work on the scanned PDF of three page images: all
    three are recognised and the second and third are listed. *)
Lemma single_file_scanned_witness :
  let U := Latin1.tables in
  let W := Scenario.installed in
  (exists found : list nat,
      outcome (find_keyword_in_pdf_pages (py "docs/scan3.pdf") (py "total") false)
      = Ok found
      /\ recognized
           (trace (find_keyword_in_pdf_pages (py "docs/scan3.pdf") (py "total")
                                            false))
         = through_first image_breaks [1; 2; 3]
      /\ (existsb image_breaks [1; 2; 3] = false ->
          through_first image_breaks [1; 2; 3] = [1; 2; 3])
      /\ StronglySorted lt found
      /\ forall i : nat,
          In i found <->
          exists img text,
            nth_error (through_first image_breaks [1; 2; 3]) i = Some img
            /\ image_to_string img = Ok text
            /\ is_substring (normalize_text (PyStr (py "total")))
                            (normalize_text (PyStr text)))
  /\ find_keyword_in_pdf_pages (py "docs/scan3.pdf") (py "total") false
     = ([Rasterize (py "docs/scan3.pdf"); Recognize 1; Recognize 2; Recognize 3],
        Ok [1; 2]).
Proof.
  cbv zeta. split.
  - apply (single_file_scanned_pdf_lists_every_matching_image
             Latin1.tables Scenario.installed
             (py "docs/scan3.pdf") (py "total") [[]; []; []]);
      reflexivity.
  - reflexivity.
Defined.

(** X6: single-file search on a DOCX that opens returns, in increasing
    order, the zero-based positions of exactly the paragraphs whose
    normalised text contains the normalised keyword, and lists each as
    "Paragraph" followed by the position plus one (or shows the
    no-results dialog when there is none). *)
Theorem single_file_docx_lists_every_matching_paragraph :
  forall (U : Unicode) (W : World) (path keyword : str) (flag : bool)
         (doc : docx_document),
    endswith (lower path) (py ".pdf") = false ->
    endswith (lower path) (py ".docx") = true ->
    docx_Document path = Ok doc ->
    exists found : list nat,
      search_single_file path keyword flag
      = (paragraph_items found ++ no_results_dialog found, Ok found)
      /\ StronglySorted lt found
      /\ forall i : nat,
          In i found <->
          exists para,
            nth_error (paragraphs doc) i = Some para
            /\ is_substring (normalize_text (PyStr keyword))
                            (normalize_text (PyStr para)).
Proof.
  intros U W path keyword flag doc Hpdf Hext Hopen.
  eexists. split; [|split].
  - change (paragraph_items ?f ++ no_results_dialog ?f)
      with ([] ++ paragraph_items f ++ no_results_dialog f).
    apply search_single_file_docx; [exact Hpdf | exact Hext |].
    rewrite (find_keyword_in_docx_paragraphs_opened _ keyword Hopen).
    rewrite paragraphs_pass_eq. reflexivity.
  - apply indices_where_sorted.
  - intros i. cbn [app]. rewrite indices_where_In, Nat.sub_0_r. split.
    + intros [para [_ [Hnth Hhit]]]. exists para.
      now rewrite <- contains_iff.
    + intros [para [Hnth Hsub]]. exists para.
      split; [lia|]. split; [exact Hnth|]. now rewrite contains_iff.
Qed.

(** The theorem at work on the one-paragraph DOCX of the scenario. *)
Lemma single_file_docx_witness :
  let U := Latin1.tables in
  let W := Scenario.installed in
  (exists found : list nat,
      search_single_file (py "docs/c.docx") (py "total") false
      = (paragraph_items found ++ no_results_dialog found, Ok found)
      /\ StronglySorted lt found
      /\ forall i : nat,
          In i found <->
          exists para,
            nth_error [py "TOTAL"] i = Some para
            /\ is_substring (normalize_text (PyStr (py "total")))
                            (normalize_text (PyStr para)))
  /\ search_single_file (py "docs/c.docx") (py "total") false
     = ([AddItem (py "Paragraph 1")], Ok [0]).
Proof.
  cbv zeta. split.
  - apply (single_file_docx_lists_every_matching_paragraph
             Latin1.tables Scenario.installed
             (py "docs/c.docx") (py "total") false
             (doc := {| paragraphs := [py "TOTAL"]; tables := [] |}));
      reflexivity.
  - reflexivity.
Defined.

(* ------------------------------------------------------------------ *)
(** ** The two modes against each other *)



(** X8: on a DOCX that opens, single-file mode never reports a match that
    folder mode misses: when it returns at least one paragraph, the
    folder-mode task answers True.  (The converse fails for a hit in a
    table cell.) *)
Theorem docx_single_file_hit_is_a_folder_hit :
  forall (U : Unicode) (W : World) (path keyword : str)
         (doc : docx_document) (found : list nat),
    docx_Document path = Ok doc ->
    outcome (find_keyword_in_docx_paragraphs path keyword) = Ok found ->
    found <> [] ->
    outcome (search_docx_file path keyword) = Ok true.
Proof.
  intros U W path keyword doc found Hopen Hfound Hne.
  rewrite (find_keyword_in_docx_paragraphs_opened _ keyword Hopen) in Hfound.
  rewrite paragraphs_pass_eq in Hfound. cbn in Hfound.
  injection Hfound as <-.
  rewrite (search_docx_file_opened _ keyword Hopen). cbn [outcome snd].
  f_equal. unfold docx_units. rewrite existsb_app.
  destruct (existsb _ (paragraphs doc)) eqn:Hparas; [reflexivity|].
  exfalso. apply Hne. now apply indices_where_nil_iff.
Qed.

(** The theorem at work on the one-paragraph DOCX of the scenario. *)
Lemma docx_single_file_hit_witness :
  let U := Latin1.tables in
  let W := Scenario.installed in
  outcome (search_docx_file (py "docs/c.docx") (py "total")) = Ok true.
Proof.
  cbv zeta.
  apply (docx_single_file_hit_is_a_folder_hit
           Latin1.tables Scenario.installed
           (py "docs/c.docx") (py "total")
           (doc := {| paragraphs := [py "TOTAL"]; tables := [] |})
           (found := [0]));
    [reflexivity | reflexivity | discriminate].
Defined.

(* ------------------------------------------------------------------ *)
(** ** A keyword that normalises to nothing *)

Section EmptyKeyword.
Context {U : Unicode} {W : World}.

Lemma contains_nil (hay : str) : contains [] hay = true.
Proof. destruct hay; reflexivity. Qed.

Lemma existsb_true_nonempty {T} (l : list T) :
  existsb (fun _ => true) l = match l with [] => false | _ :: _ => true end.
Proof. destruct l; reflexivity. Qed.

Lemma existsb_ext_in {T} (p q : T -> bool) (l : list T) :
  (forall x, p x = q x) -> existsb p l = existsb q l.
Proof.
  intros Hpq. induction l as [|x l IH]; [reflexivity|].
  cbn. now rewrite Hpq, IH.
Qed.

Lemma indices_where_ext {T} (p q : T -> bool) (l : list T) (n : nat) :
  (forall x, p x = q x) -> indices_where p l n = indices_where q l n.
Proof.
  intros Hpq. revert n. induction l as [|x l IH]; intros n; [reflexivity|].
  cbn. now rewrite Hpq, !IH.
Qed.

End EmptyKeyword.

(** X9: a keyword whose normal form is empty (one made of combining marks
    only passes the window's check for an empty keyword) is found in
    every document that has something to search: a PDF in which a page
    with non-blank text is read before any page whose read fails is a
    match in folder mode; when every page of a PDF with a text layer can
    be read, single-file mode lists every non-blank page; and a DOCX is a
    match exactly when it has at least one paragraph or table cell. *)
Theorem empty_normal_form_matches_everything :
  forall (U : Unicode) (W : World) (path keyword : str),
    normalize_text (PyStr keyword) = [] ->
    (forall (flag : bool) (pages : list pdf_page),
        fitz_open path = Ok pages ->
        has_native_text_layer (readable_prefix pages) = true ->
        search_pdf_file path keyword flag = ([], Ok true)
        /\ (read_error pages = None ->
            find_keyword_in_pdf_pages path keyword flag
            = ([], Ok (indices_where nonblank (readable_prefix pages) 0))))
    /\ (forall doc : docx_document,
           docx_Document path = Ok doc ->
           outcome (search_docx_file path keyword)
           = Ok (match docx_units doc with [] => false | _ :: _ => true end)).
Proof.
  intros U W path keyword Hempty. split.
  - intros flag pages Hopen Hlayer.
    assert (forall text, page_hit [] text = nonblank text) as Hhit.
    { intros text. unfold page_hit. rewrite contains_nil. apply andb_true_r. }
    split.
    + rewrite (search_pdf_file_opened _ keyword flag Hopen), Hempty.
      rewrite (existsb_ext_in _ nonblank (readable_prefix pages) Hhit).
      unfold has_native_text_layer in Hlayer. now rewrite Hlayer.
    + intros Hread.
      rewrite (find_keyword_in_pdf_pages_native _ keyword flag
                 Hopen Hread Hlayer), Hempty.
      rewrite hit_indices_eq. do 2 f_equal. now apply indices_where_ext.
  - intros doc Hopen.
    rewrite (search_docx_file_opened _ keyword Hopen), Hempty.
    cbn [outcome snd]. f_equal.
    rewrite (existsb_ext_in _ (fun _ => true) (docx_units doc));
      [apply existsb_true_nonempty|].
    intros text. apply contains_nil.
Qed.

(** The theorem at work for the keyword U+0301, a combining acute accent
    on its own: every page of the five-page PDF is listed, the PDF whose
    fourth page cannot be read is a match, and the DOCX with its one
    paragraph is a match. *)
Lemma empty_normal_form_witness :
  let U := Latin1.tables in
  let W := Scenario.installed in
  search_pdf_file (py "docs/five.pdf") [769%N] false = ([], Ok true)
  /\ find_keyword_in_pdf_pages (py "docs/five.pdf") [769%N] false
     = ([], Ok [0; 1; 2; 3; 4])
  /\ search_pdf_file (py "docs/torn.pdf") [769%N] false = ([], Ok true)
  /\ outcome (search_docx_file (py "docs/c.docx") [769%N]) = Ok true.
Proof.
  cbv zeta. split; [|split; [|split]].
  - apply (proj1 (proj1 (empty_normal_form_matches_everything
                           Latin1.tables Scenario.installed
                           (py "docs/five.pdf") [769%N] eq_refl)
                        false
                        [Ok (py "cover"); Ok (py "Total: 1"); Ok (py "notes");
                         Ok (py "sub-total"); Ok (py "end")]
                        eq_refl eq_refl)).
  - apply (proj2 (proj1 (empty_normal_form_matches_everything
                           Latin1.tables Scenario.installed
                           (py "docs/five.pdf") [769%N] eq_refl)
                        false
                        [Ok (py "cover"); Ok (py "Total: 1"); Ok (py "notes");
                         Ok (py "sub-total"); Ok (py "end")]
                        eq_refl eq_refl)
                 eq_refl).
  - apply (proj1 (proj1 (empty_normal_form_matches_everything
                           Latin1.tables Scenario.installed
                           (py "docs/torn.pdf") [769%N] eq_refl)
                        false
                        [Ok (py "total one"); Ok (py "none");
                         Ok (py "grand total");
                         Raise Scenario.page_error; Ok (py "total after")]
                        eq_refl eq_refl)).
  - apply (proj2 (empty_normal_form_matches_everything
                    Latin1.tables Scenario.installed
                    (py "docs/c.docx") [769%N] eq_refl)
                 {| paragraphs := [py "TOTAL"]; tables := [] |}).
    reflexivity.
Defined.

(* ------------------------------------------------------------------ *)
(** ** What a folder run signals *)

Section Signals.
Context {U : Unicode} {W : World}.

Lemma progress_of_app (l l' : list event) :
  progress_of (l ++ l') = progress_of l ++ progress_of l'.
Proof. apply flat_map_app. Qed.

Lemma announced_app (l l' : list event) :
  announced (l ++ l') = announced l ++ announced l'.
Proof. apply flat_map_app. Qed.

(** A future of the run that the loop gets through as a match is the
    task's answer True on an enumerated candidate. *)
Lemma matched_future_is_candidate (self : worker) (files : list str)
      (f : future) :
  In f (submit_all self files) ->
  is_matched f = true ->
  In (matched_path f) files
  /\ outcome (process_single_file
                (matched_path f, keyword self, search_only_text self))
     = Ok (matched_path f, true).
Proof.
  intros Hin Hmatched.
  apply submit_all_In in Hin as [Hfile Hsnd].
  pose proof (process_single_file_outcome
                (fst f) (keyword self) (search_only_text self)) as Hown.
  rewrite <- Hsnd in Hown.
  unfold is_matched, matched_path in *.
  destruct (snd f) as [[p [|]]|e] eqn:Hf; try discriminate.
  subst p. split; [exact Hfile|]. now symmetry.
Qed.

End Signals.

(** X10: a folder run over N candidate files emits one progress signal
    after each task whose answer it collects, carrying the counts 1, 2,
    ..., m out of N in this order, where m is the number of tasks
    collected: progress never goes back and never skips a count.  It
    reaches N of N exactly when the run finalises; a run that a task's
    unprintable error line ends stops short of N.  A run over no
    candidates emits none. *)
Theorem progress_counts_every_task :
  forall (U : Unicode) (W : World),
    (forall fs : list future, Permutation (as_completed fs) fs) ->
    forall (dir kw : str) (flag : bool),
      let self0 := new_worker dir kw flag in
      let N := List.length (collect_files dir) in
      exists m : nat,
        m <= N
        /\ progress_of (fst (run self0))
           = List.map (fun k => (k, N)) (seq 1 m)
        /\ processed (snd (run self0)) = m
        /\ (m = N <-> finalised (fst (run self0))).
Proof.
  intros U W Hperm dir kw flag self0 N.
  destruct (run_shape dir kw flag Hperm)
    as [log [Hquiet [Hlog [_ [_ [_ [Hproc [_ Hprog]]]]]]]].
  fold self0 N in Hlog, Hproc, Hprog.
  pose proof (run_finalised dir kw flag Hperm) as Hfin.
  cbv zeta in Hfin. fold self0 in Hfin.
  set (futures := submit_all self0 (collect_files dir)) in *.
  assert (List.length (as_completed futures) = N) as Hlen.
  { rewrite (Permutation_length (Hperm futures)). apply length_map. }
  rewrite <- (existsb_perm future_breaks (Hperm futures)) in Hfin.
  exists (List.length (collected (as_completed futures))).
  split; [|split; [|split]].
  - destruct (existsb future_breaks (as_completed futures)) eqn:Hbreak.
    + apply collected_shorter in Hbreak. lia.
    + rewrite (collected_none _ Hbreak). lia.
  - rewrite Hlog, progress_of_app, Hprog.
    destruct (existsb future_breaks (as_completed futures)); cbn;
      now rewrite app_nil_r.
  - exact Hproc.
  - rewrite Hfin.
    destruct (existsb future_breaks (as_completed futures)) eqn:Hbreak.
    + apply collected_shorter in Hbreak. split; [lia | discriminate].
    + rewrite (collected_none _ Hbreak). tauto.
Qed.

(** The theorem at work on the three-file folder, futures completing in
    reverse order. *)
Lemma progress_counts_witness :
  let U := Latin1.tables in
  let W := Scenario.reversed in
  let self0 := new_worker (py "spec") (py "total") false in
  let N := List.length (collect_files (py "spec")) in
  exists m : nat,
    m <= N
    /\ progress_of (fst (run self0)) = List.map (fun k => (k, N)) (seq 1 m)
    /\ processed (snd (run self0)) = m
    /\ (m = N <-> finalised (fst (run self0))).
Proof.
  cbv zeta.
  apply (progress_counts_every_task Latin1.tables Scenario.reversed
           (fun fs => Permutation_sym (Permutation_rev fs))).
Defined.

(** X11: every path a folder run reports is an enumerated candidate whose
    task answered True; when the run finalises, every such candidate is
    reported; and the run announces each path it reports, and nothing
    else, with a [file_processed] signal, in the order in which they
    enter the result list. *)
Theorem results_are_the_candidates_found :
  forall (U : Unicode) (W : World),
    (forall fs : list future, Permutation (as_completed fs) fs) ->
    forall (dir kw : str) (flag : bool),
      let self0 := new_worker dir kw flag in
      (forall path : str,
          In path (results (snd (run self0))) ->
          In path (collect_files dir)
          /\ outcome (process_single_file (path, kw, flag)) = Ok (path, true))
      /\ (finalised (fst (run self0)) ->
          forall path : str,
            In path (collect_files dir) ->
            outcome (process_single_file (path, kw, flag)) = Ok (path, true) ->
            In path (results (snd (run self0))))
      /\ announced (fst (run self0))
         = List.map (fun path => (path, true)) (results (snd (run self0))).
Proof.
  intros U W Hperm dir kw flag self0.
  destruct (run_shape dir kw flag Hperm)
    as [log [Hquiet [Hlog [_ [Hres [_ [_ [Hann _]]]]]]]].
  fold self0 in Hlog, Hres, Hann.
  pose proof (run_finalised dir kw flag Hperm) as Hfin.
  cbv zeta in Hfin. fold self0 in Hfin.
  set (futures := submit_all self0 (collect_files dir)) in *.
  pose proof (Hperm futures) as Hp.
  split; [|split].
  - intros path Hin. rewrite Hres in Hin.
    apply in_map_iff in Hin as [f [<- Hf]].
    apply filter_In in Hf as [Hf Hmatched].
    apply collected_incl in Hf. apply (Permutation_in _ Hp) in Hf.
    exact (matched_future_is_candidate self0 (collect_files dir) f Hf Hmatched).
  - intros Hfinal path Hfile Hfound.
    apply Hfin in Hfinal.
    rewrite <- (existsb_perm future_breaks Hp) in Hfinal.
    rewrite Hres, (collected_none _ Hfinal).
    apply in_map_iff. exists (path, Ok (path, true)). split; [reflexivity|].
    apply filter_In. split; [|reflexivity].
    apply (Permutation_in _ (Permutation_sym Hp)).
    apply submit_all_In. cbn [fst snd]. split; [exact Hfile|].
    now symmetry.
  - rewrite Hlog, announced_app, Hann, Hres, map_map.
    destruct (existsb future_breaks (as_completed futures)); cbn;
      now rewrite app_nil_r.
Qed.

(** The theorem at work on the three-file folder, futures completing in
    reverse order. *)
Lemma results_are_found_witness :
  let U := Latin1.tables in
  let W := Scenario.reversed in
  let self0 := new_worker (py "spec") (py "total") false in
  (forall path : str,
      In path (results (snd (run self0))) ->
      In path (collect_files (py "spec"))
      /\ outcome (process_single_file (path, py "total", false))
         = Ok (path, true))
  /\ (finalised (fst (run self0)) ->
      forall path : str,
        In path (collect_files (py "spec")) ->
        outcome (process_single_file (path, py "total", false))
        = Ok (path, true) ->
        In path (results (snd (run self0))))
  /\ announced (fst (run self0))
     = List.map (fun path => (path, true)) (results (snd (run self0))).
Proof.
  cbv zeta.
  apply (results_are_the_candidates_found Latin1.tables Scenario.reversed
           (fun fs => Permutation_sym (Permutation_rev fs))).
Defined.

(* ------------------------------------------------------------------ *)
(** ** The task boundary *)

(** X12: a task hands back its own path with a boolean whenever the
    console can print that path, whatever the libraries do; it raises
    only the encoding error of its own error line, and only for a path
    the console cannot print.  It looks at the lower-cased path only:
    one ending in ".pdf" gets the answer and the output of the PDF
    search, any other one ending in ".docx" those of the DOCX search, and
    any other path is answered False without opening or printing
    anything; when the search it calls raises, the task prints one line
    and answers False. *)
Theorem task_raises_only_with_unprintable_path :
  forall (U : Unicode) (W : World) (path kw : str) (flag : bool),
    (printable path = true ->
     exists (log : list event) (found : bool),
       process_single_file (path, kw, flag) = (log, Ok (path, found)))
    /\ (forall e : exn,
           outcome (process_single_file (path, kw, flag)) = Raise e ->
           e = encode_error /\ printable path = false)
    /\ (forall (log : list event) (p : str) (found : bool),
           process_single_file (path, kw, flag) = (log, Ok (p, found)) ->
           p = path)
    /\ (endswith (lower path) (py ".pdf") = true ->
        forall (log : list event) (r : result bool),
          search_pdf_file path kw flag = (log, r) ->
          process_single_file (path, kw, flag)
          = match r with
            | Ok found => (log, Ok (path, found))
            | Raise e =>
                if printable (task_error_line path e)
                then (log ++ [Printed (task_error_line path e)],
                      Ok (path, false))
                else (log, Raise encode_error)
            end)
    /\ (endswith (lower path) (py ".pdf") = false ->
        endswith (lower path) (py ".docx") = true ->
        forall (log : list event) (r : result bool),
          search_docx_file path kw = (log, r) ->
          process_single_file (path, kw, flag)
          = match r with
            | Ok found => (log, Ok (path, found))
            | Raise e =>
                if printable (task_error_line path e)
                then (log ++ [Printed (task_error_line path e)],
                      Ok (path, false))
                else (log, Raise encode_error)
            end)
    /\ (endswith (lower path) (py ".pdf") = false ->
        endswith (lower path) (py ".docx") = false ->
        process_single_file (path, kw, flag) = ([], Ok (path, false))).
Proof.
  intros U W path kw flag.
  split; [apply process_single_file_returns|].
  split; [apply process_single_file_raises|].
  split; [|split; [|split]].
  - intros log p found Heq.
    pose proof (process_single_file_outcome path kw flag) as Ho.
    now rewrite Heq in Ho.
  - intros Hpdf log [found|e] Hsearch.
    + now apply process_single_file_pdf.
    + unfold process_single_file. rewrite Hpdf, Hsearch.
      cbn [bind try_except].
      change (py "[ERROR] Processing " ++ path ++ py ": " ++ exn_msg e)
        with (task_error_line path e).
      rewrite print_then_ret.
      destruct (printable (task_error_line path e)); cbn;
        now rewrite ?app_nil_r.
  - intros Hpdf Hdocx log [found|e] Hsearch.
    + now apply process_single_file_docx.
    + unfold process_single_file. rewrite Hpdf, Hdocx, Hsearch.
      cbn [bind try_except].
      change (py "[ERROR] Processing " ++ path ++ py ": " ++ exn_msg e)
        with (task_error_line path e).
      rewrite print_then_ret.
      destruct (printable (task_error_line path e)); cbn;
        now rewrite ?app_nil_r.
  - apply process_single_file_other.
Qed.

(** The task boundary at work: on a console that writes every character
    the unreadable PDF is answered False after one line; on one that
    writes ASCII only, the unreadable PDF with a letter outside ASCII in
    its name makes the task raise. *)
Example task_boundary_scenarios :
  let U := Latin1.tables in
  process_single_file (W := Scenario.installed)
    (py "docs/bad.pdf", py "total", false)
  = ([Printed (py "[PDF ERROR] docs/bad.pdf: cannot open file")],
     Ok (py "docs/bad.pdf", false))
  /\ process_single_file (W := Scenario.installed)
       (py "docs/" ++ Scenario.zolw_pdf, py "total", false)
     = ([Printed (py "[PDF ERROR] docs/" ++ Scenario.zolw_pdf
                     ++ py ": cannot open file")],
        Ok (py "docs/" ++ Scenario.zolw_pdf, false))
  /\ process_single_file (W := Scenario.plain_console)
       (py "docs/" ++ Scenario.zolw_pdf, py "total", false)
     = ([], Raise encode_error)
  /\ printable (W := Scenario.plain_console) (py "docs/" ++ Scenario.zolw_pdf)
     = false.
Proof.
  cbv zeta. repeat split; vm_compute; reflexivity.
Qed.

(* ------------------------------------------------------------------ *)
(** ** Start-up *)

Section StartupFacts.
Context {H : Host}.

Lemma str_eqb_eq (a b : str) : str_eqb a b = true <-> a = b.
Proof.
  revert b. induction a as [|x a IH]; intros [|y b]; cbn;
    try (split; (discriminate || reflexivity)).
  unfold char_eqb. rewrite andb_true_iff, N.eqb_eq, IH. split.
  - now intros [-> ->].
  - intros Heq. now injection Heq as -> ->.
Qed.

Lemma first_existing_none (paths : list str) :
  first_existing paths = Fallthrough tt <->
  forall p, In p paths -> os_path_exists p = false.
Proof.
  induction paths as [|path rest IH]; cbn.
  - split; [intros _ p [] | reflexivity].
  - destruct (os_path_exists path) eqn:Hex.
    + split; [discriminate|]. intros Hall.
      specialize (Hall path (or_introl eq_refl)). congruence.
    + rewrite IH. split.
      * intros Hall p [<- | Hin]; [exact Hex | now apply Hall].
      * intros Hall p Hin. apply Hall. now right.
Qed.

Lemma first_existing_some (paths : list str) (p : str) :
  first_existing paths = Return p <->
  exists before after,
    paths = before ++ p :: after
    /\ (forall q, In q before -> os_path_exists q = false)
    /\ os_path_exists p = true.
Proof.
  induction paths as [|path rest IH]; cbn.
  - split; [discriminate|]. intros [before [after [Heq _]]].
    now destruct before.
  - destruct (os_path_exists path) eqn:Hex.
    + split.
      * intros Heq. injection Heq as ->. exists [], rest.
        repeat split; [intros q [] | exact Hex].
      * intros [before [after [Heq [Hnone Hp]]]].
        destruct before as [|b before]; cbn in Heq.
        -- now injection Heq as ->.
        -- injection Heq as Hb _. subst b.
           specialize (Hnone path (or_introl eq_refl)). congruence.
    + rewrite IH. split.
      * intros [before [after [-> [Hnone Hp]]]].
        exists (path :: before), after. repeat split; [|exact Hp].
        intros q [<- | Hin]; [exact Hex | now apply Hnone].
      * intros [before [after [Heq [Hnone Hp]]]].
        destruct before as [|b before]; cbn in Heq.
        -- injection Heq as Hb _. subst p. congruence.
        -- injection Heq as Hb Hrest. subst b rest. exists before, after.
           repeat split; [|exact Hp]. intros q Hin. apply Hnone. now right.
Qed.

Lemma first_with_pdftoppm_none (paths : list str) :
  first_with_pdftoppm paths = Fallthrough tt <->
  forall p, In p paths ->
            os_path_exists (os_path_join p (py "pdftoppm.exe")) = false.
Proof.
  induction paths as [|path rest IH]; cbn [first_with_pdftoppm In].
  - split; [intros _ p [] | reflexivity].
  - destruct (os_path_exists (os_path_join path (py "pdftoppm.exe"))) eqn:Hex.
    + split; [discriminate|]. intros Hall.
      specialize (Hall path (or_introl eq_refl)). congruence.
    + rewrite IH. split.
      * intros Hall p [<- | Hin]; [exact Hex | now apply Hall].
      * intros Hall p Hin. apply Hall. now right.
Qed.

Lemma first_with_pdftoppm_found (paths : list str) (p : str) :
  first_with_pdftoppm paths = Return p ->
  In p paths /\ os_path_exists (os_path_join p (py "pdftoppm.exe")) = true.
Proof.
  induction paths as [|path rest IH]; cbn [first_with_pdftoppm In];
    [discriminate|].
  destruct (os_path_exists (os_path_join path (py "pdftoppm.exe"))) eqn:Hex.
  - intros Heq. injection Heq as ->. split; [now left | exact Hex].
  - intros Hret. destruct (IH Hret) as [Hin Hp]. split; [now right | exact Hp].
Qed.

Lemma pdftoppm_on_path_none : pdftoppm_on_path = PyNone.
Proof.
  unfold pdftoppm_on_path. now destruct (subprocess_run _).
Qed.

Lemma tesseract_paths_nonempty (p : str) :
  In p tesseract_paths -> truthy (PyStr p) = true.
Proof.
  unfold tesseract_paths, windows_tesseract_paths, unix_tesseract_paths.
  destruct on_windows; cbn [In]; intuition (subst; reflexivity).
Qed.

Lemma find_tesseract_eq :
  find_tesseract
  = match first_existing tesseract_paths with
    | Return path => PyStr path
    | Fallthrough _ => tesseract_on_path
    end.
Proof.
  unfold find_tesseract, tesseract_paths. now destruct on_windows.
Qed.

End StartupFacts.

(** X13: [find_tesseract] returns the first of the platform's listed
    places that exists; when none exists, the bare command name
    "tesseract" if [tesseract --version] runs, and [None] otherwise.  It
    never returns an empty string, so the program's test [if not
    TESSERACT_CMD] fails exactly when nothing was found, and that is
    exactly when the start-up check lists "Tesseract OCR" as missing. *)
Theorem find_tesseract_result :
  forall (H : Host),
    (forall (before after : list str) (p : str),
        tesseract_paths = before ++ p :: after ->
        (forall q, In q before -> os_path_exists q = false) ->
        os_path_exists p = true ->
        find_tesseract = PyStr p)
    /\ ((forall q, In q tesseract_paths -> os_path_exists q = false) ->
        find_tesseract
        = match subprocess_run [py "tesseract"; py "--version"] with
          | Ok _ => PyStr (py "tesseract")
          | Raise _ => PyNone
          end)
    /\ (find_tesseract = PyNone <->
        (forall q, In q tesseract_paths -> os_path_exists q = false)
        /\ exists e, subprocess_run [py "tesseract"; py "--version"] = Raise e)
    /\ truthy find_tesseract = negb (is_none find_tesseract)
    /\ (In (py "Tesseract OCR") missing_deps <-> find_tesseract = PyNone).
Proof.
  intros H. rewrite find_tesseract_eq.
  assert (truthy
            match first_existing tesseract_paths with
            | Return path => PyStr path
            | Fallthrough _ => tesseract_on_path
            end
          = negb (is_none
                    match first_existing tesseract_paths with
                    | Return path => PyStr path
                    | Fallthrough _ => tesseract_on_path
                    end)) as Htruthy.
  { destruct (first_existing tesseract_paths) as [p|[]] eqn:Hfirst.
    - destruct (proj1 (first_existing_some _ _) Hfirst)
        as [before [after [Heq [_ _]]]].
      cbn [is_none negb]. apply tesseract_paths_nonempty.
      rewrite Heq. apply in_or_app. right. now left.
    - unfold tesseract_on_path. now destruct (subprocess_run _). }
  split; [|split; [|split; [|split]]].
  - intros before after p Heq Hnone Hp.
    assert (first_existing tesseract_paths = Return p) as ->; [|reflexivity].
    apply (proj2 (first_existing_some _ _)). now exists before, after.
  - intros Hnone. now rewrite (proj2 (first_existing_none _) Hnone).
  - destruct (first_existing tesseract_paths) as [p|[]] eqn:Hfirst.
    + split; [discriminate|]. intros [Hnone _].
      pose proof (proj2 (first_existing_none _) Hnone). congruence.
    + pose proof (proj1 (first_existing_none _) Hfirst) as Hnone.
      clear Hfirst. rename Hnone into Hfirst. unfold tesseract_on_path.
      destruct (subprocess_run _) as [[]|e].
      * split; [discriminate|]. intros [_ [e He]]. discriminate.
      * split; [|reflexivity]. intros _. split; [exact Hfirst | now exists e].
  - exact Htruthy.
  - unfold missing_deps. rewrite find_tesseract_eq, Htruthy, negb_involutive.
    rewrite in_app_iff.
    destruct (match first_existing tesseract_paths with
              | Return path => PyStr path
              | Fallthrough _ => tesseract_on_path
              end) as [|s] eqn:Hcmd; cbn [is_none].
    + split; [reflexivity|]. intros _. left. now left.
    + split; [|discriminate]. intros [[] | Hin].
      exfalso. destruct (is_none POPPLER_PATH && on_windows); [|exact Hin].
      destruct (subprocess_run _); [exact Hin|].
      destruct Hin as [Heq | []]. vm_compute in Heq. discriminate.
Qed.

(** X14: whether [pdftoppm] can be run from the PATH has no influence on
    what [find_poppler] returns: two machines that agree on the platform
    and on which files exist get the same [POPPLER_PATH]; and off Windows
    it is always [None]. *)
Theorem find_poppler_ignores_the_path :
  forall (H1 H2 : Host),
    platform_system (Host := H1) = platform_system (Host := H2) ->
    (forall p, os_path_exists (Host := H1) p = os_path_exists (Host := H2) p) ->
    (forall a b, os_path_join (Host := H1) a b = os_path_join (Host := H2) a b) ->
    find_poppler (H := H1) = find_poppler (H := H2)
    /\ (on_windows (H := H1) = false -> find_poppler (H := H1) = PyNone).
Proof.
  intros H1 H2 Hsys Hex Hjoin.
  assert (forall paths,
             first_with_pdftoppm (H := H1) paths
             = first_with_pdftoppm (H := H2) paths) as Hfirst.
  { induction paths as [|path rest IH]; [reflexivity|].
    cbn [first_with_pdftoppm]. now rewrite Hjoin, Hex, IH. }
  split.
  - unfold find_poppler, on_windows. rewrite Hsys, Hfirst.
    now rewrite !pdftoppm_on_path_none.
  - intros Hwin. unfold find_poppler. rewrite Hwin.
    apply pdftoppm_on_path_none.
Qed.

(** The theorem at work: a bare Linux machine and one with Tesseract,
    eight cores and [tesseract] on the PATH, seen through the same file
    test. *)
Lemma find_poppler_witness :
  find_poppler (H := Machines.bare_linux)
  = find_poppler (H := Machines.host (py "Linux") [] [py "pdftoppm"]
                                     (py "/") (Some 8))
  /\ (on_windows (H := Machines.bare_linux) = false ->
      find_poppler (H := Machines.bare_linux) = PyNone).
Proof.
  apply (find_poppler_ignores_the_path
           Machines.bare_linux
           (Machines.host (py "Linux") [] [py "pdftoppm"] (py "/") (Some 8)));
    reflexivity.
Defined.

(** X15: the start-up check lists "Poppler" as missing exactly on a
    Windows machine where none of the three listed folders holds
    [pdftoppm.exe] and [pdftoppm -h] cannot be run; the About dialog
    writes Poppler as available exactly off Windows or when one of the
    listed folders holds [pdftoppm.exe]. *)
Theorem poppler_reporting :
  forall (H : Host),
    (In (py "Poppler") missing_deps <->
     on_windows = true
     /\ (forall p, In p windows_poppler_paths ->
                   os_path_exists (os_path_join p (py "pdftoppm.exe")) = false)
     /\ exists e, subprocess_run [py "pdftoppm"; py "-h"] = Raise e)
    /\ (about_poppler_available = true <->
        on_windows = false
        \/ exists p, In p windows_poppler_paths
                     /\ os_path_exists (os_path_join p (py "pdftoppm.exe"))
                        = true).
Proof.
  intros H.
  assert (is_none POPPLER_PATH && on_windows = true <->
          on_windows = true
          /\ forall p, In p windows_poppler_paths ->
                       os_path_exists (os_path_join p (py "pdftoppm.exe"))
                       = false) as Hnone.
  { unfold POPPLER_PATH, find_poppler. destruct on_windows.
    - rewrite andb_true_r, <- first_with_pdftoppm_none.
      destruct (first_with_pdftoppm windows_poppler_paths) as [p|[]].
      + cbn [is_none]. split; [discriminate | intros [_ Hf]; discriminate].
      + rewrite pdftoppm_on_path_none. cbn [is_none]. tauto.
    - rewrite andb_false_r. split; [discriminate | intros [Hf _]; discriminate]. }
  split.
  - unfold missing_deps. rewrite in_app_iff. split.
    + intros [Hin | Hin].
      * exfalso. destruct (negb (truthy find_tesseract)); [|exact Hin].
        destruct Hin as [Heq | []]. vm_compute in Heq. discriminate.
      * destruct (is_none POPPLER_PATH && on_windows) eqn:Hcond;
          [|destruct Hin].
        destruct (proj1 Hnone eq_refl) as [Hwin Hall].
        destruct (subprocess_run _) as [[]|e]; [destruct Hin|].
        split; [exact Hwin|]. split; [exact Hall | now exists e].
    + intros [Hwin [Hall [e He]]]. right.
      assert (is_none POPPLER_PATH && on_windows = true) as ->
          by (apply Hnone; now split).
      rewrite He. now left.
  - unfold about_poppler_available, POPPLER_PATH, find_poppler.
    destruct on_windows.
    + rewrite orb_false_r.
      destruct (first_with_pdftoppm windows_poppler_paths) as [p|[]] eqn:Hfirst.
      * cbn [is_none negb]. split; [|reflexivity]. intros _. right. exists p.
        now apply first_with_pdftoppm_found.
      * rewrite pdftoppm_on_path_none. cbn [is_none negb].
        split; [discriminate|]. intros [Hf | [p [Hin Hp]]]; [discriminate|].
        pose proof (proj1 (first_with_pdftoppm_none _) Hfirst p Hin).
        congruence.
    + rewrite orb_true_r. split; [now left | reflexivity].
Qed.

(** X16: on Windows, when [pdftoppm] runs from the PATH but none of the
    three listed folders holds it, the two reports disagree: the start-up
    check does not list Poppler as missing, and the About dialog writes
    that it was not found. *)
Theorem poppler_on_path_reported_two_ways :
  forall (H : Host),
    on_windows = true ->
    (forall p, In p windows_poppler_paths ->
               os_path_exists (os_path_join p (py "pdftoppm.exe")) = false) ->
    subprocess_run [py "pdftoppm"; py "-h"] = Ok tt ->
    ~ In (py "Poppler") missing_deps
    /\ about_poppler_available = false
    /\ POPPLER_PATH = PyNone.
Proof.
  intros H Hwin Hall Hrun.
  apply (proj2 (first_with_pdftoppm_none _)) in Hall.
  assert (POPPLER_PATH = PyNone) as Hpath.
  { unfold POPPLER_PATH, find_poppler. rewrite Hwin, Hall.
    apply pdftoppm_on_path_none. }
  split; [|split; [|exact Hpath]].
  - unfold missing_deps. rewrite Hpath, Hwin, Hrun, app_nil_r.
    destruct (negb (truthy find_tesseract)); [|intros []].
    intros [Heq | []]. vm_compute in Heq. discriminate.
  - unfold about_poppler_available. now rewrite Hpath, Hwin.
Qed.

(** The theorem at work on the Windows machine with [pdftoppm] on the
    PATH only. *)
Lemma poppler_on_path_witness :
  let H := Machines.windows_poppler_on_path in
  ~ In (py "Poppler") missing_deps
  /\ about_poppler_available = false
  /\ POPPLER_PATH = PyNone.
Proof.
  cbv zeta.
  apply (poppler_on_path_reported_two_ways Machines.windows_poppler_on_path).
  - reflexivity.
  - intros p Hin. cbn in Hin.
    destruct Hin as [<- | [<- | [<- | []]]]; reflexivity.
  - reflexivity.
Defined.

(** X17: the pool sizes for every machine: [MAX_WORKERS] lies between 5
    and 32 and is the core count plus 4 up to 28 cores; [MAX_OCR_PROCESSES]
    is at least 1; a folder search uses [MAX_WORKERS] threads, and twice
    as many, hence at most 64, in high-performance mode. *)
Theorem pool_sizes_are_bounded :
  forall (H : Host) (high_performance : bool),
    5 <= MAX_WORKERS <= 32
    /\ (cpu_count_or_1 <= 28 -> MAX_WORKERS = cpu_count_or_1 + 4)
    /\ 1 <= MAX_OCR_PROCESSES
    /\ pool_size false = MAX_WORKERS
    /\ pool_size true = 2 * MAX_WORKERS
    /\ MAX_WORKERS <= pool_size high_performance <= 64.
Proof.
  intros H high_performance.
  assert (1 <= cpu_count_or_1) as Hcpu.
  { unfold cpu_count_or_1. destruct os_cpu_count as [[|n]|]; lia. }
  unfold MAX_OCR_PROCESSES.
  assert (5 <= MAX_WORKERS <= 32) as Hmax by (unfold MAX_WORKERS; lia).
  assert (pool_size false = MAX_WORKERS) as Hnormal.
  { unfold pool_size. destruct MAX_WORKERS eqn:E; [lia | reflexivity]. }
  assert (pool_size true = 2 * MAX_WORKERS) as Hhigh.
  { unfold pool_size. destruct (MAX_WORKERS * 2) eqn:E; lia. }
  split; [exact Hmax|]. split; [unfold MAX_WORKERS; lia|].
  split; [lia|]. split; [exact Hnormal|]. split; [exact Hhigh|].
  destruct high_performance; rewrite ?Hnormal, ?Hhigh; lia.
Qed.

(** [find_tesseract] on the three machines. *)
Example find_tesseract_on_machines :
  find_tesseract (H := Machines.linux_without_poppler)
  = PyStr (py "/usr/local/bin/tesseract")
  /\ find_tesseract (H := Machines.windows_poppler_on_path)
     = PyStr (py "C:\tesseract\tesseract.exe")
  /\ find_tesseract (H := Machines.bare_linux) = PyNone
  /\ missing_deps (H := Machines.bare_linux) = [py "Tesseract OCR"]
  /\ missing_deps (H := Machines.windows_poppler_unpacked)
     = [py "Tesseract OCR"]
  /\ POPPLER_PATH (H := Machines.windows_poppler_unpacked)
     = PyStr (py "C:\poppler\bin").
Proof.
  repeat split; reflexivity.
Qed.

(* ------------------------------------------------------------------ *)
(** ** The keyword field *)

Section Trimming.
Context {U : Unicode}.

Lemma lstrip_head (s : str) (c : char) (t : str) :
  lstrip s = c :: t -> isspace c = false.
Proof.
  induction s as [|x s IH]; cbn; [discriminate|].
  destruct (isspace x) eqn:Hx; [exact IH|].
  intros Heq. now injection Heq as <- _.
Qed.

Lemma lstrip_fixed (s : str) :
  (forall c t, s = c :: t -> isspace c = false) -> lstrip s = s.
Proof.
  destruct s as [|x s]; [reflexivity|]. intros Hhead. cbn.
  now rewrite (Hhead x s eq_refl).
Qed.

Lemma lstrip_suffix (s : str) : exists pre, s = pre ++ lstrip s.
Proof.
  induction s as [|x s [pre IH]]; [now exists []|].
  cbn. destruct (isspace x).
  - exists (x :: pre). cbn. now rewrite <- IH.
  - now exists [].
Qed.

Lemma lstrip_idempotent (s : str) : lstrip (lstrip s) = lstrip s.
Proof.
  apply lstrip_fixed. intros c t. apply lstrip_head.
Qed.

Lemma strip_idempotent (s : str) : strip (strip s) = strip s.
Proof.
  unfold strip. set (a := lstrip s). set (b := lstrip (rev a)).
  assert (lstrip (rev b) = rev b) as Hleft.
  { apply lstrip_fixed. intros c t Hrev.
    destruct (lstrip_suffix (rev a)) as [pre Hpre]. fold b in Hpre.
    assert (a = c :: rev (pre ++ rev t)) as Ha.
    { rewrite <- (rev_involutive a), Hpre.
      rewrite <- (rev_involutive b), Hrev. cbn [rev].
      rewrite app_assoc, rev_app_distr. reflexivity. }
    apply (lstrip_head s Ha). }
  rewrite Hleft, rev_involutive. unfold b. now rewrite lstrip_idempotent.
Qed.

Lemma strip_blank_iff (s : str) :
  is_blank (strip s) = is_blank s.
Proof.
  unfold is_blank. now rewrite strip_idempotent.
Qed.

End Trimming.

(** X18: [search] turns a request down exactly when no path was chosen or
    the keyword field is blank (empty or white space only): the window
    then clears the list and the status, shows one warning, and neither
    starts a worker nor opens a file; in every other case it shows no
    warning. *)
Theorem search_rejects_exactly_the_blank_requests :
  forall (U : Unicode) (W : World) (path : pytext) (keyword_input : str)
         (folder_radio ocr_checkbox : bool),
    ((exists title text,
         In (WarningBox title text)
            (search path keyword_input folder_radio ocr_checkbox)) <->
     truthy path = false \/ is_blank keyword_input = true)
    /\ (truthy path = false \/ is_blank keyword_input = true ->
        search path keyword_input folder_radio ocr_checkbox
        = [ResultsCleared; Core (SetStatus []); WarningBox blad wybierz_i_wpisz]).
Proof.
  intros U W path keyword_input folder_radio ocr_checkbox.
  assert (truthy path = false \/ is_blank keyword_input = true ->
          search path keyword_input folder_radio ocr_checkbox
          = [ResultsCleared; Core (SetStatus []);
             WarningBox blad wybierz_i_wpisz]) as Hrej.
  { unfold search, is_blank. intros [Hpath | Hblank].
    - destruct path as [|[|c p]]; (reflexivity || discriminate).
    - destruct path as [|[|c p]]; try reflexivity.
      now rewrite Hblank. }
  split; [|exact Hrej]. split.
  - intros [title [text Hin]].
    destruct (truthy path) eqn:Hpath; [|now left]. right.
    destruct (is_blank keyword_input) eqn:Hblank; [reflexivity|]. exfalso.
    unfold search, is_blank in *. destruct path as [|[|c p]]; try discriminate.
    apply negb_false_iff in Hblank. rewrite Hblank in Hin. cbn [negb app] in Hin.
    destruct Hin as [Hin | [Hin | Hin]]; try discriminate.
    destruct folder_radio.
    + destruct Hin as [Hin | []]. discriminate.
    + unfold shown in Hin. apply in_app_or in Hin as [Hin | Hin].
      * apply in_map_iff in Hin as [ev [Hev _]]. discriminate.
      * destruct (outcome _); [contradiction|].
        destruct Hin as [Hin | []]. discriminate.
  - intros Hcond. rewrite (Hrej Hcond). exists blad, wybierz_i_wpisz.
    right. right. now left.
Qed.

(** X19: white space around the keyword is ignored: [search] does the
    same for a keyword field and for its trimmed text, and in folder mode
    the worker is started with the trimmed keyword. *)
Theorem search_trims_the_keyword :
  forall (U : Unicode) (W : World) (path : pytext) (keyword_input : str)
         (folder_radio ocr_checkbox : bool),
    search path keyword_input folder_radio ocr_checkbox
    = search path (strip keyword_input) folder_radio ocr_checkbox
    /\ (truthy path = true ->
        is_blank keyword_input = false ->
        exists p,
          path = PyStr p
          /\ search path keyword_input true ocr_checkbox
             = [ResultsCleared; Core (SetStatus []);
                WorkerStarted p (strip keyword_input) ocr_checkbox]).
Proof.
  intros U W path keyword_input folder_radio ocr_checkbox. split.
  - unfold search. now rewrite strip_idempotent.
  - intros Hpath Hblank. destruct path as [|[|c p]]; try discriminate.
    exists (c :: p). split; [reflexivity|].
    unfold search, is_blank in *. apply negb_false_iff in Hblank.
    now rewrite Hblank.
Qed.

(** The theorem at work for the keyword field holding "  total " and the
    folder of the scenario. *)
Lemma search_trims_witness :
  let U := Latin1.tables in
  let W := Scenario.installed in
  exists p,
    PyStr (py "spec") = PyStr p
    /\ search (PyStr (py "spec")) (py "  total ") true false
       = [ResultsCleared; Core (SetStatus []);
          WorkerStarted p (strip (py "  total ")) false].
Proof.
  cbv zeta.
  apply (proj2 (search_trims_the_keyword
                  Latin1.tables Scenario.installed
                  (PyStr (py "spec")) (py "  total ") true false));
    reflexivity.
Defined.
